(** * The detection panel of [src/app/page.tsx]

    A shallow embedding of the [Home] component: its six pieces of React
    state, the two event handlers [handleFileSelect] and [handleDetect], the
    request they send, and the JSX they render.

    - JavaScript values are an inductive type; numbers are IEEE 754 binary64
      values ([spec_float] with precision 53), so that [x * 100],
      [Number.prototype.toString] and [Number.prototype.toFixed] are the
      operations of the language, computed exactly.
    - A handler is a [Task]: a tree of state setters, browser calls and
      [await] points.  The two [await]s of [handleDetect] suspend the task;
      the page runs other handlers until the network settles them.
    - The page is a record of the component state, the browser's object URL
      registry, the requests sent and the suspended tasks; events are folded
      over it. *)

From Stdlib Require Import ZArith QArith Qround Qabs Qpower Qfield.
From Stdlib Require Import List String Ascii Bool Lia.
From Stdlib Require Import Floats.SpecFloat DecimalString DecimalNat DecimalN DecimalFacts.
Import ListNotations.
Set Warnings "-register-all".
Open Scope string_scope.
Open Scope Z_scope.

(** ** Numbers *)

Definition number := spec_float.
Definition prec : Z := 53.
Definition emax : Z := 1024.

Definition number_of_Z (n : Z) : number := binary_normalize prec emax n 0 false.
Definition number_mul : number -> number -> number := SFmul prec emax.
Definition number_div : number -> number -> number := SFdiv prec emax.

(** The number a decimal literal [n / 10^k] denotes, for [n] and [10^k] below
    [2^53]: both are exact, and the division rounds once, to nearest even. *)
Definition decimal_literal (n : Z) (k : nat) : number :=
  number_div (number_of_Z n) (number_of_Z (10 ^ Z.of_nat k)).

Definition pow10 (n : Z) : Q := Qpower (10 # 1) n.
Definition pow2 (n : Z) : Q := Qpower (2 # 1) n.

(** The real number [m * 2^e] of a finite number, without its sign. *)
Definition magnitude (m : positive) (e : Z) : Q := (inject_Z (Zpos m) * pow2 e)%Q.

Definition Qltb (a b : Q) : bool :=
  match Qcompare a b with Lt => true | _ => false end.
Definition Qleb (a b : Q) : bool :=
  match Qcompare a b with Gt => false | _ => true end.

Definition digits_of (n : Z) : string :=
  NilZero.string_of_uint (N.to_uint (Z.to_N n)).

Fixpoint repeat_char (c : ascii) (n : nat) : string :=
  match n with
  | O => EmptyString
  | S n' => String c (repeat_char c n')
  end.

(** *** Number::toString (radix 10)

    The reals that round to [m * 2^e] lie between the midpoints to its two
    neighbours; the midpoints themselves round to it when [m] is even. *)
Definition round_lo (m : positive) (e : Z) : Q :=
  if (Zpos m =? 2 ^ (prec - 1)) && (emin prec emax <? e)
  then (inject_Z (4 * Zpos m - 1) * pow2 (e - 2))%Q
  else (inject_Z (2 * Zpos m - 1) * pow2 (e - 1))%Q.

Definition round_hi (m : positive) (e : Z) : Q :=
  (inject_Z (2 * Zpos m + 1) * pow2 (e - 1))%Q.

Definition rounds_to (m : positive) (e : Z) (v : Q) : bool :=
  if Z.even (Zpos m)
  then Qleb (round_lo m e) v && Qleb v (round_hi m e)
  else Qltb (round_lo m e) v && Qltb v (round_hi m e).

(** The least [n], from [n] upwards, with [x < 10^n]. *)
Fixpoint decimal_exponent (fuel : nat) (x : Q) (n : Z) : Z :=
  match fuel with
  | O => n
  | S fuel' => if Qltb x (pow10 n) then n else decimal_exponent fuel' x (n + 1)
  end.

(** A [k]-digit integer [s] and an exponent [n] such that [s * 10^(n-k)]
    rounds to [m * 2^e]; of two, the closer one, and the even one on a tie. *)
Definition candidate (m : positive) (e : Z) (n0 : Z) (k : Z) : option (Z * Z) :=
  let x := magnitude m e in
  let q := n0 - k in
  let s_lo := Qfloor (x / pow10 q) in
  let s_hi := s_lo + 1 in
  let v_lo := (inject_Z s_lo * pow10 q)%Q in
  let v_hi := (inject_Z s_hi * pow10 q)%Q in
  let pick_lo := Some (s_lo, n0) in
  let pick_hi :=
    if s_hi =? 10 ^ k then Some (10 ^ (k - 1), n0 + 1) else Some (s_hi, n0) in
  match rounds_to m e v_lo, rounds_to m e v_hi with
  | false, false => None
  | true, false => pick_lo
  | false, true => pick_hi
  | true, true =>
      match Qcompare (x - v_lo) (v_hi - x) with
      | Lt => pick_lo
      | Gt => pick_hi
      | Eq => if Z.even s_lo then pick_lo else pick_hi
      end
  end.

(** The shortest such digit string: [(s, k, n)] with [k] as small as possible. *)
Fixpoint shortest (fuel : nat) (m : positive) (e : Z) (n0 : Z) (k : Z) : Z * Z * Z :=
  match fuel with
  | O => (Zpos m, k, n0)
  | S fuel' =>
      match candidate m e n0 k with
      | Some (s, n) => (s, k, n)
      | None => shortest fuel' m e n0 (k + 1)
      end
  end.

Definition exponent_part (n : Z) : string :=
  "e" ++ (if 0 <=? n - 1 then "+" else "-") ++ digits_of (Z.abs (n - 1)).

Definition format_digits (s k n : Z) : string :=
  let d := digits_of s in
  if (k <=? n) && (n <=? 21) then d ++ repeat_char "0" (Z.to_nat (n - k))
  else if (0 <? n) && (n <=? 21) then
    substring 0 (Z.to_nat n) d ++ "." ++ substring (Z.to_nat n) (Z.to_nat (k - n)) d
  else if (-6 <? n) && (n <=? 0) then
    "0." ++ repeat_char "0" (Z.to_nat (- n)) ++ d
  else if k =? 1 then d ++ exponent_part n
  else substring 0 1 d ++ "." ++ substring 1 (Z.to_nat (k - 1)) d ++ exponent_part n.

Definition sign_text (s : bool) : string := if s then "-" else "".

Definition Number_toString (x : number) : string :=
  match x with
  | S754_nan => "NaN"
  | S754_zero _ => "0"
  | S754_infinity s => sign_text s ++ "Infinity"
  | S754_finite s m e =>
      let n0 := decimal_exponent 640 (magnitude m e) (-324) in
      let '(d, k, n) := shortest 17 m e n0 1 in
      sign_text s ++ format_digits d k n
  end.

(** *** Number.prototype.toFixed

    [round_half_up m e f] is the integer [n] for which [n / 10^f] is closest
    to [m * 2^e], the larger one of two. *)
Definition round_half_up (m : positive) (e : Z) (f : nat) : Z :=
  if 0 <=? e then Zpos m * 2 ^ e * 10 ^ Z.of_nat f
  else (2 * Zpos m * 10 ^ Z.of_nat f + 2 ^ (- e)) / 2 ^ (1 - e).

Definition fixed_digits (n : Z) (f : nat) : string :=
  let m := digits_of n in
  match f with
  | O => m
  | S _ =>
      let k := String.length m in
      let m' := if Nat.leb k f then repeat_char "0" (f + 1 - k) ++ m else m in
      let k' := String.length m' in
      substring 0 (k' - f) m' ++ "." ++ substring (k' - f) f m'
  end.

(** Below [10^21] the result is positional; from there on it is that of
    [Number_toString], in exponent notation. *)
Definition fixed_range (x : number) : bool :=
  match x with
  | S754_zero _ => true
  | S754_finite _ m e => Qltb (magnitude m e) (pow10 21)
  | _ => false
  end.

Definition toFixed (x : number) (f : nat) : string :=
  match x with
  | S754_nan | S754_infinity _ => Number_toString x
  | S754_zero _ => fixed_digits 0 f
  | S754_finite s m e =>
      sign_text s ++
      (if fixed_range x then fixed_digits (round_half_up m e f) f
       else Number_toString (S754_finite false m e))
  end.

(** The exact value of a number, for the finite ones. *)
Definition number_value (x : number) : Q :=
  match x with
  | S754_finite s m e => if s then (- magnitude m e)%Q else magnitude m e
  | _ => 0%Q
  end.

Definition number_sign (x : number) : bool :=
  match x with
  | S754_finite s _ _ => s
  | _ => false
  end.

(** ** Values *)

(** What [response.json()] can produce, and [undefined], which reading an
    absent property yields.  An object is its own properties, in order. *)
Inductive value : Type :=
| VUndefined
| VNull
| VBool (b : bool)
| VNum (x : number)
| VStr (s : string)
| VArr (items : list value)
| VObj (fields : list (string * value)).

(** ToBoolean. *)
Definition truthy (v : value) : bool :=
  match v with
  | VUndefined | VNull => false
  | VBool b => b
  | VNum (S754_zero _) | VNum S754_nan => false
  | VNum _ => true
  | VStr s => negb (String.eqb s "")
  | VArr _ | VObj _ => true
  end.

(** [a || b] *)
Definition js_or (a b : value) : value := if truthy a then a else b.

Record js_error : Type := mk_error { error_name : string; error_message : string }.

Definition TypeError (message : string) : js_error := mk_error "TypeError" message.
Definition SyntaxError (message : string) : js_error := mk_error "SyntaxError" message.

Fixpoint own_property (fields : list (string * value)) (key : string) : value :=
  match fields with
  | [] => VUndefined
  | (k, v) :: rest => if String.eqb k key then v else own_property rest key
  end.

(** [v.key] for a key that no built-in prototype defines (the component reads
    [success] and [error] this way): a TypeError on [null] and [undefined],
    the own property of an object, [undefined] on everything else. *)
Definition get_property (v : value) (key : string) : js_error + value :=
  match v with
  | VUndefined => inl (TypeError ("Cannot read properties of undefined (reading '" ++ key ++ "')"))
  | VNull => inl (TypeError ("Cannot read properties of null (reading '" ++ key ++ "')"))
  | VObj fields => inr (own_property fields key)
  | _ => inr VUndefined
  end.

(** ** Files, form data, requests and responses *)

Record File : Type := mk_file {
  file_name : string;
  file_type : string;
  file_bytes : list Byte.byte
}.

Inductive FormDataEntryValue : Type :=
| EntryFile (f : File)
| EntryString (s : string).

Definition FormData := list (string * FormDataEntryValue).

Definition FormData_append (fd : FormData) (name : string) (v : FormDataEntryValue) : FormData :=
  (fd ++ [(name, v)])%list.

Definition FormData_getAll (fd : FormData) (name : string) : list FormDataEntryValue :=
  map snd (filter (fun entry => String.eqb (fst entry) name) fd).

(** The second argument of [fetch].  The component passes [method] and [body]
    and no [headers]. *)
Record RequestInit : Type := mk_init {
  method : string;
  headers : list (string * string);
  body : FormData
}.

Record Request : Type := mk_request {
  request_url : string;
  request_init : RequestInit
}.

(** A response: its status line, and what reading its body as JSON gives. *)
Record Response : Type := mk_response {
  status : Z;
  body_json : js_error + value
}.

(** *** The parts of an [http:] URL *)

Definition after_scheme (url : string) : string :=
  match index 0 "://" url with
  | Some i => substring (i + 3) (String.length url - (i + 3)) url
  | None => url
  end.

Definition url_authority (url : string) : string :=
  let rest := after_scheme url in
  match index 0 "/" rest with
  | Some i => substring 0 i rest
  | None => rest
  end.

Definition url_path (url : string) : string :=
  let rest := after_scheme url in
  match index 0 "/" rest with
  | Some i => substring i (String.length rest - i) rest
  | None => "/"
  end.

Definition url_host (url : string) : string :=
  let a := url_authority url in
  match index 0 ":" a with
  | Some i => substring 0 i a
  | None => a
  end.

Definition url_port (url : string) : string :=
  let a := url_authority url in
  match index 0 ":" a with
  | Some i => substring (i + 1) (String.length a - (i + 1)) a
  | None => ""
  end.

Definition mentions (needle text : string) : bool :=
  match index 0 needle text with
  | Some _ => true
  | None => false
  end.

(** ** The component state *)

Record State : Type := mk_state {
  selectedFile : option File;
  previewUrl : string;
  loading : bool;
  results : value;
  error : value;
  confidence : number
}.

(** [0.25] *)
Definition default_confidence : number := Eval vm_compute in decimal_literal 25 2.

Definition initial_state : State :=
  {| selectedFile := None;
     previewUrl := "";
     loading := false;
     results := VNull;
     error := VStr "";
     confidence := default_confidence |}.

(** The state setters, and [console.error]. *)
Inductive Op : Type :=
| SetSelectedFile (f : option File)
| SetPreviewUrl (u : string)
| SetLoading (b : bool)
| SetResults (v : value)
| SetError (v : value)
| SetConfidence (x : number)
| ConsoleError (e : js_error).

Definition apply_op (op : Op) (st : State) : State :=
  match op with
  | SetSelectedFile f =>
      mk_state f (previewUrl st) (loading st) (results st) (error st) (confidence st)
  | SetPreviewUrl u =>
      mk_state (selectedFile st) u (loading st) (results st) (error st) (confidence st)
  | SetLoading b =>
      mk_state (selectedFile st) (previewUrl st) b (results st) (error st) (confidence st)
  | SetResults v =>
      mk_state (selectedFile st) (previewUrl st) (loading st) v (error st) (confidence st)
  | SetError v =>
      mk_state (selectedFile st) (previewUrl st) (loading st) (results st) v (confidence st)
  | SetConfidence x =>
      mk_state (selectedFile st) (previewUrl st) (loading st) (results st) (error st) x
  | ConsoleError _ => st
  end.

(** ** Tasks

    A handler, as the tree of what it does next.  [AwaitFetch] and
    [AwaitJson] are the two [await]s; a rejected promise resumes the task
    with the error, which [await] throws. *)
Inductive Task (A : Type) : Type :=
| Return (a : A)
| Throw (e : js_error)
| Do (op : Op) (k : Task A)
| CreateObjectURL (f : File) (k : string -> Task A)
| AwaitFetch (req : Request) (k : js_error + Response -> Task A)
| AwaitJson (resp : Response) (k : js_error + value -> Task A).

Arguments Return {A} a.
Arguments Throw {A} e.
Arguments Do {A} op k.
Arguments CreateObjectURL {A} f k.
Arguments AwaitFetch {A} req k.
Arguments AwaitJson {A} resp k.

Fixpoint bind {A B : Type} (t : Task A) (f : A -> Task B) : Task B :=
  match t with
  | Return a => f a
  | Throw e => Throw e
  | Do op k => Do op (bind k f)
  | CreateObjectURL file k => CreateObjectURL file (fun u => bind (k u) f)
  | AwaitFetch req k => AwaitFetch req (fun o => bind (k o) f)
  | AwaitJson resp k => AwaitJson resp (fun o => bind (k o) f)
  end.

Notation "x <- t1 ;; t2" := (bind t1 (fun x => t2))
  (at level 61, t1 at next level, right associativity).
Notation "t1 ;; t2" := (bind t1 (fun _ => t2))
  (at level 61, right associativity).

(** [try { t } catch (err) { handler err }] *)
Fixpoint try_catch {A : Type} (t : Task A) (handler : js_error -> Task A) : Task A :=
  match t with
  | Return a => Return a
  | Throw e => handler e
  | Do op k => Do op (try_catch k handler)
  | CreateObjectURL file k => CreateObjectURL file (fun u => try_catch (k u) handler)
  | AwaitFetch req k => AwaitFetch req (fun o => try_catch (k o) handler)
  | AwaitJson resp k => AwaitJson resp (fun o => try_catch (k o) handler)
  end.

(** [try { t } finally { cleanup }]: the cleanup runs on both completions,
    and the completion of [t] is kept. *)
Fixpoint try_finally {A : Type} (t : Task A) (cleanup : Task unit) : Task A :=
  match t with
  | Return a => cleanup ;; Return a
  | Throw e => cleanup ;; Throw e
  | Do op k => Do op (try_finally k cleanup)
  | CreateObjectURL file k => CreateObjectURL file (fun u => try_finally (k u) cleanup)
  | AwaitFetch req k => AwaitFetch req (fun o => try_finally (k o) cleanup)
  | AwaitJson resp k => AwaitJson resp (fun o => try_finally (k o) cleanup)
  end.

Definition try_catch_finally {A : Type}
  (t : Task A) (handler : js_error -> Task A) (cleanup : Task unit) : Task A :=
  try_finally (try_catch t handler) cleanup.

Definition settled {A : Type} (o : js_error + A) : Task A :=
  match o with
  | inl e => Throw e
  | inr a => Return a
  end.

Definition perform (op : Op) : Task unit := Do op (Return tt).

Definition setSelectedFile (f : option File) : Task unit := perform (SetSelectedFile f).
Definition setPreviewUrl (u : string) : Task unit := perform (SetPreviewUrl u).
Definition setLoading (b : bool) : Task unit := perform (SetLoading b).
Definition setResults (v : value) : Task unit := perform (SetResults v).
Definition setError (v : value) : Task unit := perform (SetError v).
Definition setConfidence (x : number) : Task unit := perform (SetConfidence x).
Definition console_error (e : js_error) : Task unit := perform (ConsoleError e).

Definition URL_createObjectURL (f : File) : Task string := CreateObjectURL f Return.

(** [await fetch(url, init)] *)
Definition fetch (url : string) (init : RequestInit) : Task Response :=
  AwaitFetch (mk_request url init) settled.

(** [await response.json()] *)
Definition response_json (resp : Response) : Task value := AwaitJson resp settled.

(** [data.key] inside a task: the TypeError is thrown. *)
Definition get (v : value) (key : string) : Task value := settled (get_property v key).

(** ** The handlers *)

(** [e.target.files?.[0]] *)
Definition first_file (files : option (list File)) : option File :=
  match files with
  | None => None
  | Some l => nth_error l 0
  end.

Definition handleFileSelect (files : option (list File)) : Task unit :=
  let file := first_file files in
  match file with
  | Some f =>
      setSelectedFile (Some f) ;;
      url <- URL_createObjectURL f ;;
      setPreviewUrl url ;;
      setResults VNull ;;
      setError (VStr "")
  | None => Return tt
  end.

(** [handleDetect] closes over the [selectedFile] and the [confidence] of the
    render in which the button was clicked. *)
Definition handleDetect (selectedFile : option File) (confidence : number) : Task unit :=
  match selectedFile with
  | None => setError (VStr "Please select an image first")
  | Some file =>
      setLoading true ;;
      setError (VStr "") ;;
      let formData := FormData_append [] "image" (EntryFile file) in
      let formData :=
        FormData_append formData "confidence" (EntryString (Number_toString confidence)) in
      try_catch_finally
        (response <- fetch "http://localhost:1000/api/detect"
                       {| method := "POST"; headers := []; body := formData |} ;;
         data <- response_json response ;;
         success <- get data "success" ;;
         if truthy success
         then setResults data
         else (err <- get data "error" ;;
               setError (js_or err (VStr "Detection failed"))))
        (fun err =>
           setError (VStr "Failed to connect to API. Make sure Flask server is running on port 5000") ;;
           console_error err)
        (setLoading false)
  end.

(** The [onChange] of the slider: [setConfidence(parseFloat(e.target.value))],
    given the number [parseFloat] returns. *)
Definition handleConfidenceChange (parsed : number) : Task unit := setConfidence parsed.

(** ** The page

    A suspended task waits for its fetch, or for the body of its response. *)
Inductive Pending : Type :=
| PendingFetch (k : js_error + Response -> Task unit)
| PendingJson (resp : Response) (k : js_error + value -> Task unit).

(** [object_urls] is the browser's registry of object URLs, oldest first;
    [requests] the requests sent and [history] the setters and log calls
    performed, both newest first; [uncaught] the errors no handler caught. *)
Record Page : Type := mk_page {
  state : State;
  object_urls : list File;
  requests : list Request;
  pending : list Pending;
  history : list Op;
  uncaught : list js_error
}.

Definition initial_page : Page :=
  {| state := initial_state;
     object_urls := [];
     requests := [];
     pending := [];
     history := [];
     uncaught := [] |}.

Definition blob_url (i : nat) : string :=
  "blob:" ++ NilZero.string_of_uint (Nat.to_uint i).

Definition resolve_object_url (urls : list File) (u : string) : option File :=
  if String.eqb (substring 0 5 u) "blob:"
  then match NilZero.uint_of_string (substring 5 (String.length u - 5) u) with
       | Some d => nth_error urls (Nat.of_uint d)
       | None => None
       end
  else None.

(** Runs a task up to its next [await], or to its end. *)
Fixpoint run (t : Task unit) (p : Page) : Page :=
  match t with
  | Return _ => p
  | Throw e =>
      mk_page (state p) (object_urls p) (requests p) (pending p) (history p)
              (e :: uncaught p)
  | Do op k =>
      run k (mk_page (apply_op op (state p)) (object_urls p) (requests p) (pending p)
                     (op :: history p) (uncaught p))
  | CreateObjectURL f k =>
      run (k (blob_url (List.length (object_urls p))))
          (mk_page (state p) (object_urls p ++ [f])%list (requests p) (pending p)
                   (history p) (uncaught p))
  | AwaitFetch req k =>
      mk_page (state p) (object_urls p) (req :: requests p)
              (pending p ++ [PendingFetch k])%list (history p) (uncaught p)
  | AwaitJson resp k =>
      mk_page (state p) (object_urls p) (requests p)
              (pending p ++ [PendingJson resp k])%list (history p) (uncaught p)
  end.

(** [disabled={!selectedFile || loading}] *)
Definition detect_disabled (st : State) : bool :=
  match selectedFile st with
  | None => true
  | Some _ => loading st
  end.

Inductive Event : Type :=
| ChangeFile (files : option (list File))
| ChangeConfidence (parsed : number)
| ClickDetect
| FetchSettles (i : nat) (o : js_error + Response)
| JsonSettles (i : nat).

Fixpoint remove_nth {A : Type} (i : nat) (l : list A) : list A :=
  match i, l with
  | _, [] => []
  | O, _ :: rest => rest
  | S i', x :: rest => x :: remove_nth i' rest
  end.

Definition without_pending (i : nat) (p : Page) : Page :=
  mk_page (state p) (object_urls p) (requests p) (remove_nth i (pending p))
          (history p) (uncaught p).

(** A click on a disabled button calls no handler; a settlement resumes the
    task that waits for it. *)
Definition step (p : Page) (ev : Event) : Page :=
  match ev with
  | ChangeFile files => run (handleFileSelect files) p
  | ChangeConfidence parsed => run (handleConfidenceChange parsed) p
  | ClickDetect =>
      if detect_disabled (state p) then p
      else run (handleDetect (selectedFile (state p)) (confidence (state p))) p
  | FetchSettles i o =>
      match nth_error (pending p) i with
      | Some (PendingFetch k) => run (k o) (without_pending i p)
      | _ => p
      end
  | JsonSettles i =>
      match nth_error (pending p) i with
      | Some (PendingJson resp k) => run (k (body_json resp)) (without_pending i p)
      | _ => p
      end
  end.

Definition run_events (evs : list Event) (p : Page) : Page := fold_left step evs p.

(** The events a user produces, as opposed to the network. *)
Definition user_event (ev : Event) : bool :=
  match ev with
  | ChangeFile _ | ChangeConfidence _ | ClickDetect => true
  | FetchSettles _ _ | JsonSettles _ => false
  end.

(** One call of [handleDetect] run to its end with nothing in between: the
    fetch settles with [o], the body of the response is read. *)
Definition detect_alone (o : js_error + Response) (p : Page) : Page :=
  let i := List.length (pending p) in
  run_events [FetchSettles i o; JsonSettles i]
             (run (handleDetect (selectedFile (state p)) (confidence (state p))) p).

(** ** The declared shape of a response

    The interfaces [Detection] and [DetectionResponse], and the values of
    the runtime that have these types. *)

Module BBox.
Record t : Type := mk { x1 : number; y1 : number; x2 : number; y2 : number }.
End BBox.

Module Detection.
Record t : Type := mk {
  id : number;
  class : string;
  confidence : number;
  bbox : BBox.t
}.
End Detection.

Module ImageInfo.
Record t : Type := mk { width : number; height : number; filename : string }.
End ImageInfo.

Module DetectionStats.
Record t : Type := mk {
  total_count : number;
  average_confidence : number;
  confidence_threshold : number
}.
End DetectionStats.

Module DetectionResponse.
Record t : Type := mk {
  success : bool;
  timestamp : string;
  image_info : ImageInfo.t;
  detection_stats : DetectionStats.t;
  detections : list Detection.t;
  annotated_image : string
}.
End DetectionResponse.

Definition and_then {A B : Type} (o : option A) (f : A -> option B) : option B :=
  match o with
  | Some a => f a
  | None => None
  end.

Notation "'let?' x := o 'in' k" := (and_then o (fun x => k))
  (at level 10, x name, o at level 200, k at level 200).

Definition as_number (v : value) : option number :=
  match v with VNum x => Some x | _ => None end.
Definition as_string (v : value) : option string :=
  match v with VStr s => Some s | _ => None end.
Definition as_boolean (v : value) : option bool :=
  match v with VBool b => Some b | _ => None end.
Definition as_array (v : value) : option (list value) :=
  match v with VArr l => Some l | _ => None end.
Definition member (v : value) (key : string) : option value :=
  match v with VObj fields => Some (own_property fields key) | _ => None end.

Fixpoint all_some {A : Type} (l : list (option A)) : option (list A) :=
  match l with
  | [] => Some []
  | o :: rest =>
      let? a := o in
      let? more := all_some rest in
      Some (a :: more)
  end.

Definition as_BBox (v : value) : option BBox.t :=
  let? x1 := and_then (member v "x1") as_number in
  let? y1 := and_then (member v "y1") as_number in
  let? x2 := and_then (member v "x2") as_number in
  let? y2 := and_then (member v "y2") as_number in
  Some (BBox.mk x1 y1 x2 y2).

Definition as_Detection (v : value) : option Detection.t :=
  let? id := and_then (member v "id") as_number in
  let? class := and_then (member v "class") as_string in
  let? confidence := and_then (member v "confidence") as_number in
  let? bbox := and_then (member v "bbox") as_BBox in
  Some (Detection.mk id class confidence bbox).

Definition as_ImageInfo (v : value) : option ImageInfo.t :=
  let? width := and_then (member v "width") as_number in
  let? height := and_then (member v "height") as_number in
  let? filename := and_then (member v "filename") as_string in
  Some (ImageInfo.mk width height filename).

Definition as_DetectionStats (v : value) : option DetectionStats.t :=
  let? total_count := and_then (member v "total_count") as_number in
  let? average_confidence := and_then (member v "average_confidence") as_number in
  let? confidence_threshold := and_then (member v "confidence_threshold") as_number in
  Some (DetectionStats.mk total_count average_confidence confidence_threshold).

Definition as_DetectionResponse (v : value) : option DetectionResponse.t :=
  let? success := and_then (member v "success") as_boolean in
  let? timestamp := and_then (member v "timestamp") as_string in
  let? image_info := and_then (member v "image_info") as_ImageInfo in
  let? detection_stats := and_then (member v "detection_stats") as_DetectionStats in
  let? items := and_then (member v "detections") as_array in
  let? detections := all_some (map as_Detection items) in
  let? annotated_image := and_then (member v "annotated_image") as_string in
  Some (DetectionResponse.mk success timestamp image_info detection_stats
                             detections annotated_image).

(** ** The rendered tree

    The JSX of [Home] without its [className]s and event handlers. *)
Inductive Node : Type :=
| Text (s : string)
| Element (tag : string) (props : list (string * string)) (children : list Node).

Definition hundred : number := Eval vm_compute in number_of_Z 100.

(** [(x * 100).toFixed(digits)] *)
Definition percent (x : number) (digits : nat) : string :=
  toFixed (number_mul x hundred) digits.

(** *** Children

    What React renders of a child expression [{v}]: a string or a number as
    a text, the empty string as nothing, [null], [undefined] and the
    booleans as nothing, an array as its items one after the other.  An
    object is refused with an error, which makes the render fail. *)
Fixpoint join (separator : string) (l : list string) : string :=
  match l with
  | [] => ""
  | [s] => s
  | s :: rest => s ++ separator ++ join separator rest
  end.

Definition invalid_child (fields : list (string * value)) : js_error :=
  mk_error "Error"
    ("Objects are not valid as a React child (found: object with keys {"
     ++ join ", " (map fst fields)
     ++ "}). If you meant to render a collection of children, use an array instead.").

Definition text_of (s : string) : list string :=
  if String.eqb s "" then [] else [s].

Fixpoint child_texts (v : value) : js_error + list string :=
  match v with
  | VUndefined | VNull | VBool _ => inr []
  | VNum x => inr [Number_toString x]
  | VStr s => inr (text_of s)
  | VArr items =>
      (fix each (l : list value) : js_error + list string :=
         match l with
         | [] => inr []
         | x :: rest =>
             match child_texts x with
             | inl e => inl e
             | inr a => match each rest with
                        | inl e => inl e
                        | inr b => inr (a ++ b)%list
                        end
             end
         end) items
  | VObj fields => inl (invalid_child fields)
  end.

(** *** The elements of the page, given what their expressions evaluate to *)

(** One entry of the detection list (lines 245-260). *)
Definition detection_entry (key : list (string * string)) (id class : list string)
                           (confidence x1 y1 x2 y2 : string) : Node :=
  Element "div" key
    [ Element "div" []
        [ Element "span" []
            ([ Text "#" ] ++ map Text id ++ [ Text " - " ] ++ map Text class)%list;
          Element "span" [] [ Text confidence; Text "%" ] ];
      Element "p" []
        [ Text "Box: ["; Text x1; Text ", "; Text y1; Text ", "; Text x2;
          Text ", "; Text y2; Text "]" ] ].

(** The results panel (lines 207-264). *)
Definition results_panel_of (total : list string) (average image count : string)
                            (entries : list Node) : Node :=
  Element "div" []
    [ Element "div" []
        [ Element "div" []
            [ Element "p" [] [ Text "Total Detections" ];
              Element "p" [] (map Text total) ];
          Element "div" []
            [ Element "p" [] [ Text "Avg Confidence" ];
              Element "p" [] [ Text average; Text "%" ] ] ];
      Element "div" []
        [ Element "h3" [] [ Text "Annotated Image" ];
          Element "div" []
            [ Element "img" [ ("src", image); ("alt", "Detection Result") ] [] ] ];
      Element "div" []
        [ Element "h3" [] [ Text "Detection Details ("; Text count; Text ")" ];
          Element "div" [] entries ] ].

Definition empty_placeholder : Node :=
  Element "div" []
    [ Element "div" []
        [ Element "div" [] [ Text "🎯" ];
          Element "p" [] [ Text "No results yet" ];
          Element "p" [] [ Text "Upload an image and run detection" ] ] ].

Definition error_block_of (message : list Node) : Node :=
  Element "div" []
    [ Element "p" [] [ Text "Error:" ];
      Element "p" [] message ].

Definition detect_button (st : State) : Node :=
  Element "button" (if detect_disabled st then [("disabled", "")] else [])
    [ if loading st
      then Element "span" [] [ Element "div" [] []; Text "Detecting..." ]
      else Text "🔍 Run Detection" ].

(** The left column (lines 103-188); [error_part] is what [{error && ...}]
    renders. *)
Definition upload_panel_of (st : State) (error_part : list Node) : Node :=
  Element "div" []
    ([ Element "h2" [] [ Text "Upload Image" ];
       Element "div" []
         [ Element "label" []
             [ Element "div" []
                 [ Element "input" [ ("type", "file"); ("accept", "image/*") ] [];
                   Element "div" [] [ Text "📸" ];
                   Element "p" []
                     [ Text (match selectedFile st with
                             | Some f => file_name f
                             | None => "Click to select image"
                             end) ];
                   Element "p" [] [ Text "Supports: JPG, PNG, JPEG" ] ] ] ] ]
     ++ (if String.eqb (previewUrl st) "" then []
         else [ Element "div" []
                  [ Element "h3" [] [ Text "Preview" ];
                    Element "div" []
                      [ Element "img" [ ("src", previewUrl st); ("alt", "Preview") ] [] ] ] ])
     ++ [ Element "div" []
            [ Element "label" []
                [ Text "Confidence Threshold: "; Text (toFixed (confidence st) 2) ];
              Element "input"
                [ ("type", "range"); ("min", "0.1"); ("max", "0.9"); ("step", "0.05");
                  ("value", Number_toString (confidence st)) ] [];
              Element "div" []
                [ Element "span" [] [ Text "0.1 (Low)" ];
                  Element "span" [] [ Text "0.9 (High)" ] ] ];
          detect_button st ]
     ++ error_part)%list.

(** The right column (lines 191-266). *)
Definition results_column_of (children : list Node) : Node :=
  Element "div" [] (Element "h2" [] [ Text "Detection Results" ] :: children).

Definition page (left right : Node) : Node :=
  Element "main" []
    [ Element "div" []
        [ Element "div" []
            [ Element "h1" [] [ Text "🔬 Microfiliaria Detection System" ];
              Element "p" [] [ Text "YOLOv8m - Automated Blood Smear Analysis" ] ];
          Element "div" [] [ left; right ];
          Element "div" []
            [ Element "p" []
                [ Text "Powered by YOLOv8m | Flask Backend | Next.js Frontend" ] ] ] ].

(** *** The elements for a state of the declared types *)

Definition detection_item (detection : Detection.t) : Node :=
  let box := Detection.bbox detection in
  detection_entry [("key", Number_toString (Detection.id detection))]
    [Number_toString (Detection.id detection)]
    (text_of (Detection.class detection))
    (percent (Detection.confidence detection) 2)
    (toFixed (BBox.x1 box) 0) (toFixed (BBox.y1 box) 0)
    (toFixed (BBox.x2 box) 0) (toFixed (BBox.y2 box) 0).

Definition results_panel (results : DetectionResponse.t) : Node :=
  let stats := DetectionResponse.detection_stats results in
  results_panel_of
    [Number_toString (DetectionStats.total_count stats)]
    (percent (DetectionStats.average_confidence stats) 1)
    (DetectionResponse.annotated_image results)
    (digits_of (Z.of_nat (List.length (DetectionResponse.detections results))))
    (map detection_item (DetectionResponse.detections results)).

Definition error_block (message : string) : Node :=
  error_block_of [ Text message ].

Definition upload_panel (st : State) (message : string) : Node :=
  upload_panel_of st (if String.eqb message "" then [] else [ error_block message ]).

Definition results_column (shown : option DetectionResponse.t) : Node :=
  results_column_of
    [ match shown with
      | None => empty_placeholder
      | Some r => results_panel r
      end ].

(** *** Evaluating the JSX

    The expressions of the results panel are evaluated first, in the order
    of the source; a property read on [undefined] or [null], [toFixed] on
    anything but a number and [map] on anything but an array throw.  Where
    [*] or an attribute is given a value of another type than the one
    declared, JavaScript converts it and goes on; the conversion is not
    followed here, and the text it would give is [None]. *)
Definition and_then_ok {A B : Type} (o : js_error + A) (f : A -> js_error + B)
  : js_error + B :=
  match o with
  | inl e => inl e
  | inr a => f a
  end.

Notation "'let!' x := o 'in' k" := (and_then_ok o (fun x => k))
  (at level 10, x name, o at level 200, k at level 200).

(** [v.toFixed(digits)], with the text of the call for the error message. *)
Definition call_toFixed (v : value) (callee : string) (digits : nat) : js_error + string :=
  match v with
  | VNum x => inr (toFixed x digits)
  | _ =>
      let! _ := get_property v "toFixed" in
      inl (TypeError (callee ++ " is not a function"))
  end.

(** [(v * 100).toFixed(digits)] *)
Definition percent_of (v : value) (digits : nat) : option string :=
  match v with
  | VNum x => Some (percent x digits)
  | _ => None
  end.

Record Entry : Type := mk_entry {
  entry_id : value;
  entry_class : value;
  entry_confidence : option string;
  entry_x1 : string;
  entry_y1 : string;
  entry_x2 : string;
  entry_y2 : string
}.

(** The callback of [results.detections.map] (lines 244-261). *)
Definition evaluate_entry (detection : value) : js_error + Entry :=
  let! id := get_property detection "id" in
  let! class := get_property detection "class" in
  let! confidence := get_property detection "confidence" in
  let! bbox := get_property detection "bbox" in
  let! x1 := get_property bbox "x1" in
  let! x1 := call_toFixed x1 "detection.bbox.x1.toFixed" 0 in
  let! y1 := get_property bbox "y1" in
  let! y1 := call_toFixed y1 "detection.bbox.y1.toFixed" 0 in
  let! x2 := get_property bbox "x2" in
  let! x2 := call_toFixed x2 "detection.bbox.x2.toFixed" 0 in
  let! y2 := get_property bbox "y2" in
  let! y2 := call_toFixed y2 "detection.bbox.y2.toFixed" 0 in
  inr (mk_entry id class (percent_of confidence 2) x1 y1 x2 y2).

Fixpoint evaluate_entries (items : list value) : js_error + list Entry :=
  match items with
  | [] => inr []
  | item :: rest =>
      let! entry := evaluate_entry item in
      let! more := evaluate_entries rest in
      inr (entry :: more)
  end.

Record Panel : Type := mk_panel {
  panel_total : value;
  panel_average : option string;
  panel_image : value;
  panel_count : string;
  panel_entries : list Entry
}.

(** The expressions of lines 213-261, for [results] that are truthy. *)
Definition evaluate_panel (results : value) : js_error + Panel :=
  let! stats := get_property results "detection_stats" in
  let! total := get_property stats "total_count" in
  let! average := get_property stats "average_confidence" in
  let! image := get_property results "annotated_image" in
  let! detections := get_property results "detections" in
  match detections with
  | VArr items =>
      let! entries := evaluate_entries items in
      inr (mk_panel total (percent_of average 1) image
                    (digits_of (Z.of_nat (List.length items))) entries)
  | _ =>
      let! _ := get_property detections "length" in
      inl (TypeError "results.detections.map is not a function")
  end.

(** *** Rendering what was evaluated

    React then renders the children, in the order of the document; the
    first object among them is the error of the render. *)

(** [key={detection.id}]: the key is the string of the id. *)
Definition key_prop (id : value) : option (list (string * string)) :=
  match id with
  | VUndefined => Some []
  | VNull => Some [("key", "null")]
  | VBool b => Some [("key", if b then "true" else "false")]
  | VNum x => Some [("key", Number_toString x)]
  | VStr s => Some [("key", s)]
  | VArr _ | VObj _ => None
  end.

Definition entry_node (e : Entry) : js_error + option Node :=
  let! id := child_texts (entry_id e) in
  let! class := child_texts (entry_class e) in
  inr (let? key := key_prop (entry_id e) in
       let? confidence := entry_confidence e in
       Some (detection_entry key id class confidence
               (entry_x1 e) (entry_y1 e) (entry_x2 e) (entry_y2 e))).

Fixpoint entry_nodes (entries : list Entry) : js_error + option (list Node) :=
  match entries with
  | [] => inr (Some [])
  | e :: rest =>
      let! node := entry_node e in
      let! more := entry_nodes rest in
      inr (let? node := node in
           let? more := more in
           Some (node :: more))
  end.

Definition panel_node (p : Panel) : js_error + option Node :=
  let! total := child_texts (panel_total p) in
  let! entries := entry_nodes (panel_entries p) in
  inr (let? average := panel_average p in
       let? image := as_string (panel_image p) in
       let? entries := entries in
       Some (results_panel_of total average image (panel_count p) entries)).

(** [{error && (...)}] (lines 182-187): the block around the error when it
    is truthy, the error itself when it is falsy. *)
Definition error_part (error : value) : js_error + list Node :=
  let! texts := child_texts error in
  inr (if truthy error then [ error_block_of (map Text texts) ] else map Text texts).

(** What a render comes to: a tree; an error thrown, which leaves nothing of
    the component on the page; or a tree that holds the text of a converted
    value, which is not computed here. *)
Inductive Rendering : Type :=
| Rendered (tree : Node)
| Throws (e : js_error)
| Converts.

(** The render of [Home] (lines 87-277). *)
Definition render_Home (st : State) : Rendering :=
  let evaluated :=
    if truthy (results st)
    then (let! p := evaluate_panel (results st) in inr (Some p))
    else inr None in
  match evaluated with
  | inl e => Throws e
  | inr shown =>
      match error_part (error st) with
      | inl e => Throws e
      | inr error_nodes =>
          let left := upload_panel_of st error_nodes in
          match shown with
          | None =>
              match child_texts (results st) with
              | inl e => Throws e
              | inr texts =>
                  Rendered (page left (results_column_of (empty_placeholder :: map Text texts)))
              end
          | Some p =>
              match panel_node p with
              | inl e => Throws e
              | inr None => Converts
              | inr (Some panel) => Rendered (page left (results_column_of [ panel ]))
              end
          end
      end
  end.

(** The tree of the page, when the render gives one. *)
Definition Home (st : State) : option Node :=
  match render_Home st with
  | Rendered tree => Some tree
  | _ => None
  end.

(** *** Reading a tree *)

Fixpoint leaf_texts (n : Node) : list string :=
  match n with
  | Text s => [s]
  | Element _ _ children => flat_map leaf_texts children
  end.

Definition prop_of (name : string) (props : list (string * string)) : list string :=
  map snd (filter (fun p => String.eqb (fst p) name) props).

Fixpoint image_sources (n : Node) : list string :=
  match n with
  | Text _ => []
  | Element tag props children =>
      ((if String.eqb tag "img" then prop_of "src" props else [])
       ++ flat_map image_sources children)%list
  end.

(** The elements of a tree with a given tag, in the order of the document. *)
Fixpoint elements (name : string) (n : Node) : list Node :=
  match n with
  | Text _ => []
  | Element tag props children =>
      ((if String.eqb tag name then [n] else [])
       ++ flat_map (elements name) children)%list
  end.

Definition shows (text : string) (n : Node) : bool :=
  existsb (String.eqb text) (leaf_texts n).

(** ** Where a suspended [handleDetect] resumes *)

(** The continuation of the first [await fetch] of a task. *)
Fixpoint fetch_resumption (t : Task unit) : js_error + Response -> Task unit :=
  match t with
  | Do _ k => fetch_resumption k
  | AwaitFetch _ k => k
  | _ => fun _ => Return tt
  end.

(** The continuation of the first [await response.json()] of a task. *)
Fixpoint json_resumption (t : Task unit) : js_error + value -> Task unit :=
  match t with
  | Do _ k => json_resumption k
  | AwaitJson _ k => k
  | _ => fun _ => Return tt
  end.

Definition after_fetch (f : File) (c : number) : js_error + Response -> Task unit :=
  fetch_resumption (handleDetect (Some f) c).

Definition after_json (f : File) (c : number) (resp : Response)
  : js_error + value -> Task unit :=
  json_resumption (after_fetch f c (inr resp)).

(** A request is in flight: the page holds one suspended [handleDetect],
    before or after its response has arrived. *)
Definition awaiting_fetch (p : Page) : Prop :=
  exists f c, pending p = [PendingFetch (after_fetch f c)].

Definition awaiting_json (resp : Response) (p : Page) : Prop :=
  exists f c, pending p = [PendingJson resp (after_json f c resp)].

(** ** Scenario data *)

Definition sample_file : File := mk_file "sample.jpg" "image/jpeg" [].

Definition sample_detection (id : Z) (conf x1 y1 x2 y2 : number) : value :=
  VObj [ ("id", VNum (number_of_Z id));
         ("class", VStr "microfilaria");
         ("confidence", VNum conf);
         ("bbox", VObj [ ("x1", VNum x1); ("y1", VNum y1);
                         ("x2", VNum x2); ("y2", VNum y2) ]) ].

(** [{success: true, detection_stats: {total_count: 2, average_confidence: 0.81, ...}, ...}] *)
Definition sample_body : value :=
  VObj [ ("success", VBool true);
         ("timestamp", VStr "2024-05-01T10:00:00");
         ("image_info", VObj [ ("width", VNum (number_of_Z 640));
                               ("height", VNum (number_of_Z 480));
                               ("filename", VStr "sample.jpg") ]);
         ("detection_stats",
           VObj [ ("total_count", VNum (number_of_Z 2));
                  ("average_confidence", VNum (decimal_literal 81 2));
                  ("confidence_threshold", VNum (decimal_literal 4 1)) ]);
         ("detections",
           VArr [ sample_detection 1 (decimal_literal 87 2)
                    (decimal_literal 104 1) (decimal_literal 205 1)
                    (decimal_literal 1106 1) (decimal_literal 22049 2);
                  sample_detection 2 (decimal_literal 75 2)
                    (number_of_Z 300) (decimal_literal 125 1)
                    (decimal_literal 4004 1) (number_of_Z 90) ]);
         ("annotated_image", VStr "data:image/jpeg;base64,AAAA") ].

Definition ok_response (body : value) : Response := mk_response 200 (inr body).

Definition failed_to_fetch : js_error := TypeError "Failed to fetch".

(** ** Vocabulary of the statements *)

(** The two string constants of [handleDetect]. *)
Definition detect_url : string := "http://localhost:1000/api/detect".

Definition connect_message : string :=
  "Failed to connect to API. Make sure Flask server is running on port 5000".

(** The setters and log calls between the settlement of the body and the
    finally block, newest first. *)
Definition settlement_ops (o : js_error + value) : list Op :=
  match o with
  | inl e => [ConsoleError e; SetError (VStr connect_message)]
  | inr data =>
      match get_property data "success" with
      | inl e => [ConsoleError e; SetError (VStr connect_message)]
      | inr success =>
          if truthy success then [SetResults data]
          else match get_property data "error" with
               | inl e => [ConsoleError e; SetError (VStr connect_message)]
               | inr err => [SetError (js_or err (VStr "Detection failed"))]
               end
      end
  end.

Definition fetch_settlement_ops (o : js_error + Response) : list Op :=
  match o with
  | inl e => [ConsoleError e; SetError (VStr connect_message)]
  | inr resp => settlement_ops (body_json resp)
  end.

Definition flying_fetch (p : Page) : Prop :=
  loading (state p) = true /\ error (state p) = VStr "" /\ awaiting_fetch p.

Definition flying_json (resp : Response) (p : Page) : Prop :=
  loading (state p) = true /\ error (state p) = VStr "" /\ awaiting_json resp p.

Definition idle (p : Page) : Prop :=
  pending p = [] /\ loading (state p) = false.

Definition request_shape (r : Request) : Prop :=
  request_url r = detect_url /\
  method (request_init r) = "POST" /\
  headers (request_init r) = [] /\
  exists (f : File) (c : number),
    body (request_init r) =
      [("image", EntryFile f); ("confidence", EntryString (Number_toString c))].

(** What every page reached from the initial one satisfies. *)
Definition consistent (p : Page) : Prop :=
  uncaught p = [] /\
  Forall request_shape (requests p) /\
  (idle p \/ flying_fetch p \/ exists resp, flying_json resp p).

(** *** Reading a number off the page

    [parse_fixed t f] reads [t] as an optional minus sign, one or more
    digits and, for [f > 0], a point and exactly [f] digits; it gives the
    integer the digits spell, that is the magnitude shown times [10^f]. *)
Definition is_digit (c : ascii) : bool :=
  (48 <=? nat_of_ascii c)%nat && (nat_of_ascii c <=? 57)%nat.

Fixpoint all_digits (s : string) : bool :=
  match s with
  | EmptyString => true
  | String c rest => is_digit c && all_digits rest
  end.

Definition starts_with_minus (t : string) : bool :=
  match t with
  | String c _ => Ascii.eqb c "-"
  | EmptyString => false
  end.

Definition starts_with_digit (t : string) : bool :=
  match t with
  | String c _ => is_digit c
  | EmptyString => false
  end.

Definition strip_minus (t : string) : string :=
  match t with
  | String c rest => if Ascii.eqb c "-" then rest else t
  | EmptyString => t
  end.

Fixpoint split_at_point (s : string) : option (string * string) :=
  match s with
  | EmptyString => None
  | String c rest =>
      if Ascii.eqb c "."
      then Some (EmptyString, rest)
      else match split_at_point rest with
           | Some (whole, frac) => Some (String c whole, frac)
           | None => None
           end
  end.

Definition numeral (s : string) : option Z :=
  match NilZero.uint_of_string s with
  | Some d => Some (Z.of_N (N.of_uint d))
  | None => None
  end.

Definition parse_fixed (t : string) (f : nat) : option Z :=
  let shown := strip_minus t in
  match f with
  | O => numeral shown
  | S _ =>
      match split_at_point shown with
      | Some (whole, frac) =>
          if (String.length frac =? f)%nat && negb (String.eqb whole "")
          then numeral (whole ++ frac)
          else None
      | None => None
      end
  end.

(** The text [t] shows [x] rounded to [f] decimal places: it has the sign of
    [x], and its digits spell an integer within one half of [|x| * 10^f]. *)
Definition shows_rounded (t : string) (f : nat) (x : number) : Prop :=
  starts_with_minus t = number_sign x /\
  exists n : Z,
    parse_fixed t f = Some n /\
    (Qabs (inject_Z n - Qabs (number_value x) * pow10 (Z.of_nat f)) <= 1 # 2)%Q.

(** *** Reading the threshold off a request

    [decimal_of_text t] reads [t] as one or more digits, or as digits, a
    point and digits: no sign, no exponent.  It gives the integer [d] the
    digits spell and the number [j] of digits after the point: the text
    denotes [d / 10^j]. *)
Definition decimal_of_text (t : string) : option (Z * nat) :=
  match split_at_point t with
  | Some (whole, frac) =>
      if negb (String.eqb whole "") && negb (String.eqb frac "")
      then match numeral (whole ++ frac) with
           | Some d => Some (d, String.length frac)
           | None => None
           end
      else None
  | None =>
      match numeral t with
      | Some d => Some (d, O)
      | None => None
      end
  end.

(** The same number: the same sign, mantissa and exponent. *)
Definition number_same (a b : number) : bool :=
  match a, b with
  | S754_zero s, S754_zero s' => Bool.eqb s s'
  | S754_infinity s, S754_infinity s' => Bool.eqb s s'
  | S754_nan, S754_nan => true
  | S754_finite s m e, S754_finite s' m' e' => Bool.eqb s s' && Pos.eqb m m' && Z.eqb e e'
  | _, _ => false
  end.

(** The text [t] is a decimal numeral, and the number it denotes is [x]. *)
Definition reads_back (t : string) (x : number) : bool :=
  match decimal_of_text t with
  | Some (d, j) => number_same (decimal_literal d j) x
  | None => false
  end.

(** The values the slider can report: [min="0.1"], [max="0.9"] and
    [step="0.05"] (lines 152-154) leave [0.1 + 0.05 k] for [k] from 0 to 16,
    and [parseFloat] gives the number nearest to each. *)
Definition slider_positions : list number :=
  Eval vm_compute in
    map (fun k => decimal_literal (10 + 5 * k) 2)
        [0; 1; 2; 3; 4; 5; 6; 7; 8; 9; 10; 11; 12; 13; 14; 15; 16].

Definition is_slider_position (x : number) : bool :=
  existsb (number_same x) slider_positions.

Definition slider_event (ev : Event) : bool :=
  match ev with
  | ChangeConfidence x => is_slider_position x
  | _ => true
  end.

(** The body of a request: the file, and the text of a slider position that
    reads back as that position. *)
Definition carries_threshold (r : Request) : Prop :=
  exists (f : File) (c : number),
    body (request_init r) =
      [("image", EntryFile f); ("confidence", EntryString (Number_toString c))] /\
    is_slider_position c = true /\
    reads_back (Number_toString c) c = true.

(** *** Reading the results off the page *)

(** [x] is the integer [n], and [n] is below [2^53]. *)
Definition is_integer (x : number) (n : Z) : Prop :=
  match x with
  | S754_zero _ => n = 0
  | S754_finite false m e =>
      bounded prec emax m e = true /\
      (magnitude m e == inject_Z n)%Q /\
      0 < n < 2 ^ 53
  | _ => False
  end.

(** The element [node] is the entry of the detection [item] of the body:
    its texts are "#", the id, " - ", the class, the confidence times 100
    with two decimals, "%", and the four coordinates of the box as integers;
    below [10^21] the numbers printed are the values rounded. *)
Definition entry_shows (item : value) (node : Node) : Prop :=
  exists (id class bbox : value) (confidence x1 y1 x2 y2 : number)
         (id_texts class_texts : list string),
    get_property item "id" = inr id /\
    get_property item "class" = inr class /\
    get_property item "confidence" = inr (VNum confidence) /\
    get_property item "bbox" = inr bbox /\
    get_property bbox "x1" = inr (VNum x1) /\
    get_property bbox "y1" = inr (VNum y1) /\
    get_property bbox "x2" = inr (VNum x2) /\
    get_property bbox "y2" = inr (VNum y2) /\
    child_texts id = inr id_texts /\
    child_texts class = inr class_texts /\
    leaf_texts node =
      ([ "#" ] ++ id_texts ++ [ " - " ] ++ class_texts ++
       [ percent confidence 2; "%";
         "Box: ["; toFixed x1 0; ", "; toFixed y1 0; ", "; toFixed x2 0; ", ";
         toFixed y2 0; "]" ])%list /\
    (forall x n, id = VNum x -> is_integer x n -> id_texts = [digits_of n]) /\
    (forall s, class = VStr s -> s <> "" -> class_texts = [s]) /\
    (fixed_range (number_mul confidence hundred) = true ->
     shows_rounded (percent confidence 2) 2 (number_mul confidence hundred)) /\
    (fixed_range x1 = true -> shows_rounded (toFixed x1 0) 0 x1) /\
    (fixed_range y1 = true -> shows_rounded (toFixed y1 0) 0 y1) /\
    (fixed_range x2 = true -> shows_rounded (toFixed x2 0) 0 x2) /\
    (fixed_range y2 = true -> shows_rounded (toFixed y2 0) 0 y2).

(** A tree and everything below it. *)
Fixpoint subtrees (n : Node) : list Node :=
  n :: match n with
       | Text _ => []
       | Element _ _ children => flat_map subtrees children
       end.

(** The body of the scenario with its declared type. *)
Definition sample_response : DetectionResponse.t :=
  Eval vm_compute in
    match as_DetectionResponse sample_body with
    | Some r => r
    | None => DetectionResponse.mk false "" (ImageInfo.mk (S754_zero false) (S754_zero false) "")
                (DetectionStats.mk (S754_zero false) (S754_zero false) (S754_zero false)) [] ""
    end.

(** A response of the declared type with one detection of confidence [1e22]. *)
Definition huge_confidence : number := Eval vm_compute in number_of_Z (10 ^ 22).

Definition huge_body : value :=
  VObj [ ("success", VBool true);
         ("timestamp", VStr "2024-05-01T10:00:00");
         ("image_info", VObj [ ("width", VNum (number_of_Z 640));
                               ("height", VNum (number_of_Z 480));
                               ("filename", VStr "sample.jpg") ]);
         ("detection_stats",
           VObj [ ("total_count", VNum (number_of_Z 1));
                  ("average_confidence", VNum (decimal_literal 5 1));
                  ("confidence_threshold", VNum (decimal_literal 4 1)) ]);
         ("detections",
           VArr [ sample_detection 1 huge_confidence
                    (number_of_Z 1) (number_of_Z 2) (number_of_Z 3) (number_of_Z 4) ]);
         ("annotated_image", VStr "data:image/jpeg;base64,AAAA") ].

(** A body with a truthy [success] and nothing else. *)
Definition bare_body : value := VObj [ ("success", VBool true) ].

(** A failure whose [error] is an object. *)
Definition object_error_body : value :=
  VObj [ ("success", VBool false);
         ("error", VObj [ ("code", VNum (number_of_Z 500)) ]) ].

(** ** Vocabulary of the page-level properties *)

(** The file an event selects, and the slider value it sets. *)
Definition chosen_file (ev : Event) : option File :=
  match ev with
  | ChangeFile files => first_file files
  | _ => None
  end.

Definition slider_of (ev : Event) : option number :=
  match ev with
  | ChangeConfidence x => Some x
  | _ => None
  end.

(** The files selected in the course of [evs], oldest first. *)
Fixpoint chosen_files (evs : list Event) : list File :=
  match evs with
  | [] => []
  | ev :: rest =>
      match chosen_file ev with
      | Some f => f :: chosen_files rest
      | None => chosen_files rest
      end
  end.

(** The last slider value of [evs], or [current] when the slider never moved. *)
Fixpoint slider_value (evs : list Event) (current : number) : number :=
  match evs with
  | [] => current
  | ev :: rest =>
      match slider_of ev with
      | Some x => slider_value rest x
      | None => slider_value rest current
      end
  end.

(** The errors passed to [console.error], newest first. *)
Definition logged (h : list Op) : list js_error :=
  flat_map (fun op => match op with ConsoleError e => [e] | _ => [] end) h.

(** A parsed body that is neither an object nor [null]. *)
Definition scalar_or_array (v : value) : bool :=
  match v with
  | VBool _ | VNum _ | VStr _ | VArr _ => true
  | VUndefined | VNull | VObj _ => false
  end.

Definition is_some {A : Type} (o : option A) : bool :=
  match o with
  | Some _ => true
  | None => false
  end.

(** The body keeps to the declared interface: with a truthy [success] it is a
    [DetectionResponse]; with a falsy one its [error] is falsy or a string. *)
Definition honours_contract (o : js_error + value) : bool :=
  match o with
  | inl _ => true
  | inr data =>
      match get_property data "success" with
      | inl _ => true
      | inr success =>
          if truthy success
          then is_some (as_DetectionResponse data)
          else match get_property data "error" with
               | inl _ => true
               | inr err => negb (truthy err) || is_some (as_string err)
               end
      end
  end.

Definition event_honours_contract (ev : Event) : bool :=
  match ev with
  | FetchSettles _ (inr resp) => honours_contract (body_json resp)
  | _ => true
  end.

(** The state can be rendered: its [error] is a string and its [results]
    are [null] or a [DetectionResponse]. *)
Definition renderable (st : State) : Prop :=
  is_some (as_string (error st)) = true /\
  (results st = VNull \/ is_some (as_DetectionResponse (results st)) = true).

(** What one event does to a consistent page: nothing, or one of six moves. *)
Inductive transition (p : Page) : Event -> Page -> Prop :=
| T_ignored : forall ev,
    chosen_file ev = None -> slider_of ev = None ->
    transition p ev p
| T_select : forall files f,
    first_file files = Some f ->
    transition p (ChangeFile files)
      (mk_page (mk_state (Some f) (blob_url (List.length (object_urls p)))
                         (loading (state p)) VNull (VStr "") (confidence (state p)))
               (object_urls p ++ [f])%list (requests p) (pending p)
               (SetError (VStr "") :: SetResults VNull
                :: SetPreviewUrl (blob_url (List.length (object_urls p)))
                :: SetSelectedFile (Some f) :: history p)
               (uncaught p))
| T_slide : forall x,
    transition p (ChangeConfidence x)
      (mk_page (apply_op (SetConfidence x) (state p)) (object_urls p) (requests p)
               (pending p) (SetConfidence x :: history p) (uncaught p))
| T_dispatch : forall f,
    selectedFile (state p) = Some f -> loading (state p) = false -> pending p = [] ->
    transition p ClickDetect
      (mk_page (apply_op (SetError (VStr "")) (apply_op (SetLoading true) (state p)))
               (object_urls p)
               (mk_request detect_url
                  (mk_init "POST" []
                     [("image", EntryFile f);
                      ("confidence", EntryString (Number_toString (confidence (state p))))])
                :: requests p)
               [PendingFetch (after_fetch f (confidence (state p)))]
               (SetError (VStr "") :: SetLoading true :: history p)
               (uncaught p))
| T_rejected : forall e f c,
    pending p = [PendingFetch (after_fetch f c)] ->
    transition p (FetchSettles 0 (inl e))
      (mk_page (apply_op (SetLoading false)
                  (apply_op (SetError (VStr connect_message)) (state p)))
               (object_urls p) (requests p) []
               (SetLoading false :: ConsoleError e :: SetError (VStr connect_message)
                :: history p)
               (uncaught p))
| T_response : forall resp f c,
    pending p = [PendingFetch (after_fetch f c)] ->
    transition p (FetchSettles 0 (inr resp))
      (mk_page (state p) (object_urls p) (requests p)
               [PendingJson resp (after_json f c resp)] (history p) (uncaught p))
| T_settled : forall resp f c,
    pending p = [PendingJson resp (after_json f c resp)] ->
    transition p (JsonSettles 0)
      (mk_page (fold_right apply_op (state p)
                  (SetLoading false :: settlement_ops (body_json resp)))
               (object_urls p) (requests p) []
               (SetLoading false :: settlement_ops (body_json resp) ++ history p)%list
               (uncaught p)).

(** With no file selected, nothing else has happened on the page. *)
Definition blank (p : Page) : Prop :=
  previewUrl (state p) = "" /\
  loading (state p) = false /\
  results (state p) = VNull /\
  error (state p) = VStr "" /\
  requests p = [] /\
  pending p = [] /\
  object_urls p = [].

(** A decimal numeral with one more zero at its end. *)
Fixpoint snoc_zero (d : Decimal.uint) : Decimal.uint :=
  match d with
  | Decimal.Nil => Decimal.D0 Decimal.Nil
  | Decimal.D0 l => Decimal.D0 (snoc_zero l)
  | Decimal.D1 l => Decimal.D1 (snoc_zero l)
  | Decimal.D2 l => Decimal.D2 (snoc_zero l)
  | Decimal.D3 l => Decimal.D3 (snoc_zero l)
  | Decimal.D4 l => Decimal.D4 (snoc_zero l)
  | Decimal.D5 l => Decimal.D5 (snoc_zero l)
  | Decimal.D6 l => Decimal.D6 (snoc_zero l)
  | Decimal.D7 l => Decimal.D7 (snoc_zero l)
  | Decimal.D8 l => Decimal.D8 (snoc_zero l)
  | Decimal.D9 l => Decimal.D9 (snoc_zero l)
  end.
(** * Properties *)

(** ** Lists of suspended tasks *)

Lemma nth_error_last : forall (A : Type) (l : list A) (x : A),
  nth_error (l ++ [x]) (List.length l) = Some x.
Proof.
  intros A l x. induction l as [|a l IH]; simpl; [reflexivity | exact IH].
Qed.

Lemma nth_error_at_length : forall (A : Type) (l : list A),
  nth_error l (List.length l) = None.
Proof.
  intros A l. apply nth_error_None. apply Nat.le_refl.
Qed.

Lemma remove_nth_last : forall (A : Type) (l : list A) (x : A),
  remove_nth (List.length l) (l ++ [x]) = l.
Proof.
  intros A l x. induction l as [|a l IH]; simpl; [reflexivity | now rewrite IH].
Qed.

Lemma nth_error_singleton : forall (A : Type) (x : A) (i : nat),
  nth_error [x] (S i) = None.
Proof. intros A x i. destruct i; reflexivity. Qed.

(** ** One call of [handleDetect], step by step *)

(** With an image selected the call sets the flag, clears the error, sends
    the request and suspends. *)
Lemma run_handleDetect_selected : forall (f : File) (c : number) (p : Page),
  run (handleDetect (Some f) c) p =
  mk_page (apply_op (SetError (VStr "")) (apply_op (SetLoading true) (state p)))
          (object_urls p)
          (mk_request detect_url
             (mk_init "POST" []
                [("image", EntryFile f);
                 ("confidence", EntryString (Number_toString c))])
           :: requests p)
          (pending p ++ [PendingFetch (after_fetch f c)])
          (SetError (VStr "") :: SetLoading true :: history p)
          (uncaught p).
Proof. intros f c p. reflexivity. Qed.

(** A rejected fetch: the catch block, then the finally block. *)
Lemma after_fetch_rejected : forall (f : File) (c : number) (e : js_error) (p : Page),
  run (after_fetch f c (inl e)) p =
  mk_page (apply_op (SetLoading false) (apply_op (SetError (VStr connect_message)) (state p)))
          (object_urls p) (requests p) (pending p)
          (SetLoading false :: ConsoleError e :: SetError (VStr connect_message) :: history p)
          (uncaught p).
Proof. intros f c e p. reflexivity. Qed.

(** A response: the task suspends again, on the body. *)
Lemma after_fetch_resolved : forall (f : File) (c : number) (resp : Response) (p : Page),
  run (after_fetch f c (inr resp)) p =
  mk_page (state p) (object_urls p) (requests p)
          (pending p ++ [PendingJson resp (after_json f c resp)])
          (history p) (uncaught p).
Proof. intros f c resp p. reflexivity. Qed.

Lemma after_json_settled :
  forall (f : File) (c : number) (resp : Response) (o : js_error + value) (p : Page),
  run (after_json f c resp o) p =
  mk_page (fold_right apply_op (state p) (SetLoading false :: settlement_ops o))
          (object_urls p) (requests p) (pending p)
          (SetLoading false :: settlement_ops o ++ history p)
          (uncaught p).
Proof.
  intros f c resp o p. destruct o as [e | data]; [reflexivity|].
  destruct data as [ | | b | x | s | items | fields]; try reflexivity.
  unfold settlement_ops. cbn [get_property].
  destruct (truthy (own_property fields "success")) eqn:Hs.
  - unfold after_json, after_fetch. cbn. rewrite Hs. reflexivity.
  - unfold after_json, after_fetch. cbn. rewrite Hs. reflexivity.
Qed.

(** ** The handlers of the two inputs *)

Lemma run_handleFileSelect_some : forall (files : option (list File)) (f : File) (p : Page),
  first_file files = Some f ->
  run (handleFileSelect files) p =
  mk_page (mk_state (Some f) (blob_url (List.length (object_urls p)))
                    (loading (state p)) VNull (VStr "") (confidence (state p)))
          (object_urls p ++ [f]) (requests p) (pending p)
          (SetError (VStr "") :: SetResults VNull
           :: SetPreviewUrl (blob_url (List.length (object_urls p)))
           :: SetSelectedFile (Some f) :: history p)
          (uncaught p).
Proof.
  intros files f p H. unfold handleFileSelect. rewrite H. reflexivity.
Qed.

Lemma run_handleFileSelect_none : forall (files : option (list File)) (p : Page),
  first_file files = None -> run (handleFileSelect files) p = p.
Proof.
  intros files p H. unfold handleFileSelect. rewrite H. reflexivity.
Qed.

Lemma run_handleConfidenceChange : forall (x : number) (p : Page),
  run (handleConfidenceChange x) p =
  mk_page (apply_op (SetConfidence x) (state p)) (object_urls p) (requests p)
          (pending p) (SetConfidence x :: history p) (uncaught p).
Proof. reflexivity. Qed.

(** ** While a request is in flight *)

Lemma detect_disabled_loading : forall st : State,
  loading st = true -> detect_disabled st = true.
Proof.
  intros st H. unfold detect_disabled. rewrite H. destruct (selectedFile st); reflexivity.
Qed.

Lemma detect_enabled : forall st : State,
  detect_disabled st = false ->
  loading st = false /\ exists f, selectedFile st = Some f.
Proof.
  intros st H. unfold detect_disabled in H.
  destruct (selectedFile st) as [f|]; [|discriminate].
  split; [exact H | now exists f].
Qed.

Lemma user_step_pending : forall (p : Page) (ev : Event),
  user_event ev = true -> loading (state p) = true ->
  pending (step p ev) = pending p /\
  loading (state (step p ev)) = true /\
  requests (step p ev) = requests p /\
  uncaught (step p ev) = uncaught p /\
  (error (state p) = VStr "" -> error (state (step p ev)) = VStr "").
Proof.
  intros p ev Hu Hl. destruct ev as [files | x | | i o | i]; try discriminate; cbn [step].
  - destruct (first_file files) as [f|] eqn:Hf.
    + rewrite (run_handleFileSelect_some _ _ _ Hf). simpl. auto.
    + rewrite (run_handleFileSelect_none _ _ Hf). auto.
  - rewrite run_handleConfidenceChange. simpl. auto.
  - rewrite (detect_disabled_loading _ Hl). auto.
Qed.

Lemma user_step_fetch : forall (p : Page) (ev : Event),
  user_event ev = true -> flying_fetch p -> flying_fetch (step p ev).
Proof.
  intros p ev Hu (Hl & He & f & c & Hp).
  destruct (user_step_pending p ev Hu Hl) as (Hp' & Hl' & _ & _ & He').
  repeat split; auto. exists f, c. now rewrite Hp'.
Qed.

Lemma user_step_json : forall (resp : Response) (p : Page) (ev : Event),
  user_event ev = true -> flying_json resp p -> flying_json resp (step p ev).
Proof.
  intros resp p ev Hu (Hl & He & f & c & Hp).
  destruct (user_step_pending p ev Hu Hl) as (Hp' & Hl' & _ & _ & He').
  repeat split; auto. exists f, c. now rewrite Hp'.
Qed.

Lemma user_events_fetch : forall (evs : list Event) (p : Page),
  forallb user_event evs = true -> flying_fetch p -> flying_fetch (run_events evs p).
Proof.
  induction evs as [|ev evs IH]; intros p Hu Hf; simpl in *; [exact Hf|].
  apply andb_true_iff in Hu. destruct Hu as [Hev Hevs].
  apply IH; [exact Hevs|]. now apply user_step_fetch.
Qed.

Lemma user_events_json : forall (resp : Response) (evs : list Event) (p : Page),
  forallb user_event evs = true -> flying_json resp p ->
  flying_json resp (run_events evs p).
Proof.
  intros resp. induction evs as [|ev evs IH]; intros p Hu Hf; simpl in *; [exact Hf|].
  apply andb_true_iff in Hu. destruct Hu as [Hev Hevs].
  apply IH; [exact Hevs|]. now apply user_step_json.
Qed.

(** The click that starts a request. *)
Lemma click_starts : forall p : Page,
  pending p = [] -> detect_disabled (state p) = false ->
  flying_fetch (step p ClickDetect) /\
  uncaught (step p ClickDetect) = uncaught p /\
  exists f, selectedFile (state p) = Some f /\
    requests (step p ClickDetect) =
      mk_request detect_url
        (mk_init "POST" []
           [("image", EntryFile f);
            ("confidence", EntryString (Number_toString (confidence (state p))))])
      :: requests p.
Proof.
  intros p Hp Hd. destruct (detect_enabled _ Hd) as (Hl & f & Hf).
  cbn [step]. rewrite Hd, Hf, run_handleDetect_selected. simpl. rewrite Hp.
  repeat split; auto.
  - exists f, (confidence (state p)). reflexivity.
  - exists f. auto.
Qed.

(** The response arrives. *)
Lemma response_arrives : forall (resp : Response) (p : Page),
  flying_fetch p ->
  flying_json resp (step p (FetchSettles 0 (inr resp))) /\
  requests (step p (FetchSettles 0 (inr resp))) = requests p /\
  uncaught (step p (FetchSettles 0 (inr resp))) = uncaught p.
Proof.
  intros resp p (Hl & He & f & c & Hp). cbn [step]. rewrite Hp. cbn [nth_error].
  rewrite after_fetch_resolved. unfold without_pending. simpl. rewrite Hp. simpl.
  repeat split; auto. exists f, c. reflexivity.
Qed.

(** The fetch is rejected. *)
Lemma fetch_rejected : forall (e : js_error) (p : Page),
  flying_fetch p ->
  step p (FetchSettles 0 (inl e)) =
  mk_page (apply_op (SetLoading false) (apply_op (SetError (VStr connect_message)) (state p)))
          (object_urls p) (requests p) []
          (SetLoading false :: ConsoleError e :: SetError (VStr connect_message) :: history p)
          (uncaught p).
Proof.
  intros e p (Hl & He & f & c & Hp). cbn [step]. rewrite Hp. cbn [nth_error].
  rewrite after_fetch_rejected. unfold without_pending. simpl. rewrite Hp. reflexivity.
Qed.

(** The body is read. *)
Lemma body_settles : forall (resp : Response) (p : Page),
  flying_json resp p ->
  step p (JsonSettles 0) =
  mk_page (fold_right apply_op (state p) (SetLoading false :: settlement_ops (body_json resp)))
          (object_urls p) (requests p) []
          (SetLoading false :: settlement_ops (body_json resp) ++ history p)
          (uncaught p).
Proof.
  intros resp p (Hl & He & f & c & Hp). cbn [step]. rewrite Hp. cbn [nth_error].
  rewrite after_json_settled. unfold without_pending. simpl. rewrite Hp. reflexivity.
Qed.

(** ** Every reachable page is consistent *)

Lemma input_step : forall (p : Page) (ev : Event),
  user_event ev = true -> ev <> ClickDetect ->
  pending (step p ev) = pending p /\
  loading (state (step p ev)) = loading (state p) /\
  requests (step p ev) = requests p /\
  uncaught (step p ev) = uncaught p /\
  (error (state p) = VStr "" -> error (state (step p ev)) = VStr "").
Proof.
  intros p ev Hu Hc. destruct ev as [files | x | | i o | i]; try discriminate; cbn [step].
  - destruct (first_file files) as [f|] eqn:Hf.
    + rewrite (run_handleFileSelect_some _ _ _ Hf). simpl. auto.
    + rewrite (run_handleFileSelect_none _ _ Hf). auto.
  - rewrite run_handleConfidenceChange. simpl. auto.
  - congruence.
Qed.

Lemma settled_idle : forall (st : State) (ops : list Op),
  loading (fold_right apply_op st (SetLoading false :: ops)) = false.
Proof. reflexivity. Qed.

Lemma step_consistent : forall (p : Page) (ev : Event),
  consistent p -> consistent (step p ev).
Proof.
  intros p ev H. pose proof H as (Hun & Hreq & Hcase).
  destruct ev as [files | x | | i o | i].
  - (* a file is chosen *)
    destruct (input_step p (ChangeFile files) eq_refl ltac:(discriminate))
      as (Hp & Hl & Hr & Hu & He).
    unfold consistent. rewrite Hu, Hr. repeat split; auto.
    destruct Hcase as [Hi | [Hg | Hj]];
      [destruct Hi as (Hp0 & Hl0) | destruct Hg as (Hl0 & He0 & f & c & Hp0)
       | destruct Hj as (resp & Hl0 & He0 & f & c & Hp0)].
    + left. split; congruence.
    + right; left. repeat split; [congruence | auto |]. exists f, c. congruence.
    + right; right. exists resp. repeat split; [congruence | auto |]. exists f, c. congruence.
  - (* the slider moves *)
    destruct (input_step p (ChangeConfidence x) eq_refl ltac:(discriminate))
      as (Hp & Hl & Hr & Hu & He).
    unfold consistent. rewrite Hu, Hr. repeat split; auto.
  - (* the button is clicked *)
    destruct (detect_disabled (state p)) eqn:Hd.
    + cbn [step]. rewrite Hd. exact H.
    + destruct (detect_enabled _ Hd) as (Hl & f & Hf).
      assert (Hp : pending p = []).
      { destruct Hcase as [Hi | [Hg | Hj]];
        [destruct Hi as (Hp0 & _) | destruct Hg as (Hl0 & _)
         | destruct Hj as (resp & Hl0 & _)]; congruence. }
      destruct (click_starts p Hp Hd) as (Hfly & Hu & f' & Hf' & Hr).
      unfold consistent. rewrite Hu, Hr. repeat split; auto.
      constructor; [|exact Hreq].
      repeat split. exists f', (confidence (state p)). reflexivity.
  - (* a fetch settles *)
    destruct Hcase as [Hi | [Hfly | Hj]].
    + destruct Hi as (Hp0 & Hl0).
      replace (step p (FetchSettles i o)) with p; [exact H|].
      cbn [step]. rewrite Hp0. destruct i; reflexivity.
    + destruct i as [|i].
      * destruct o as [e | resp].
        -- rewrite (fetch_rejected e p Hfly).
           split; [exact Hun|]. split; [exact Hreq|]. left. split; reflexivity.
        -- destruct (response_arrives resp p Hfly) as (Hj & Hr & Hu).
           unfold consistent. rewrite Hu, Hr.
           split; [exact Hun|]. split; [exact Hreq|]. right; right. exists resp. exact Hj.
      * replace (step p (FetchSettles (S i) o)) with p; [exact H|].
        destruct Hfly as (_ & _ & f & c & Hp0).
        cbn [step]. rewrite Hp0, nth_error_singleton. reflexivity.
    + destruct Hj as (resp & _ & _ & f & c & Hp0).
      replace (step p (FetchSettles i o)) with p; [exact H|].
      cbn [step]. rewrite Hp0.
      destruct i as [|i]; [reflexivity | now rewrite nth_error_singleton].
  - (* a body settles *)
    destruct Hcase as [Hi | [Hg | Hj]].
    + destruct Hi as (Hp0 & Hl0).
      replace (step p (JsonSettles i)) with p; [exact H|].
      cbn [step]. rewrite Hp0. destruct i; reflexivity.
    + destruct Hg as (_ & _ & f & c & Hp0).
      replace (step p (JsonSettles i)) with p; [exact H|].
      cbn [step]. rewrite Hp0.
      destruct i as [|i]; [reflexivity | now rewrite nth_error_singleton].
    + destruct Hj as (resp & Hfly). destruct i as [|i].
      * rewrite (body_settles resp p Hfly).
        split; [exact Hun|]. split; [exact Hreq|]. left. split; reflexivity.
      * replace (step p (JsonSettles (S i))) with p; [exact H|].
        destruct Hfly as (_ & _ & f & c & Hp0).
        cbn [step]. rewrite Hp0, nth_error_singleton. reflexivity.
Qed.

Lemma initial_consistent : consistent initial_page.
Proof.
  repeat split; [constructor | left; split; reflexivity].
Qed.

Lemma run_events_consistent : forall (evs : list Event) (p : Page),
  consistent p -> consistent (run_events evs p).
Proof.
  induction evs as [|ev evs IH]; intros p H; simpl; [exact H|].
  apply IH. now apply step_consistent.
Qed.

Lemma reachable_consistent : forall evs : list Event,
  consistent (run_events evs initial_page).
Proof.
  intros evs. apply run_events_consistent. exact initial_consistent.
Qed.

Lemma run_events_app : forall (evs1 evs2 : list Event) (p : Page),
  run_events (evs1 ++ evs2) p = run_events evs2 (run_events evs1 p).
Proof. intros. unfold run_events. apply fold_left_app. Qed.

Lemma consistent_enabled_idle : forall p : Page,
  consistent p -> detect_disabled (state p) = false -> pending p = [].
Proof.
  intros p (_ & _ & Hcase) Hd. destruct (detect_enabled _ Hd) as (Hl & _).
  destruct Hcase as [Hi | [Hg | Hj]];
        [destruct Hi as (Hp0 & _) | destruct Hg as (Hl0 & _)
         | destruct Hj as (resp & Hl0 & _)]; congruence.
Qed.

(** ** One call run to its end *)

Lemma detect_alone_selected : forall (p : Page) (f : File) (o : js_error + Response),
  selectedFile (state p) = Some f ->
  detect_alone o p =
  mk_page (fold_right apply_op (state p)
             (SetLoading false :: fetch_settlement_ops o ++ [SetError (VStr ""); SetLoading true]))
          (object_urls p)
          (mk_request detect_url
             (mk_init "POST" []
                [("image", EntryFile f);
                 ("confidence", EntryString (Number_toString (confidence (state p))))])
           :: requests p)
          (pending p)
          (SetLoading false :: fetch_settlement_ops o
             ++ SetError (VStr "") :: SetLoading true :: history p)
          (uncaught p).
Proof.
  intros p f o Hf. unfold detect_alone. rewrite Hf, run_handleDetect_selected.
  cbn [run_events fold_left]. cbn [step pending].
  rewrite nth_error_last. unfold without_pending. cbn [pending].
  rewrite remove_nth_last. destruct o as [e | resp].
  - rewrite after_fetch_rejected. cbn [pending step].
    rewrite nth_error_at_length. reflexivity.
  - rewrite after_fetch_resolved. cbn [pending step].
    rewrite nth_error_last. unfold without_pending. cbn [pending].
    rewrite remove_nth_last, after_json_settled.
    cbn -[settlement_ops Number_toString]. rewrite fold_right_app. reflexivity.
Qed.

Lemma settlement_ops_success : forall (data success : value),
  get_property data "success" = inr success -> truthy success = true ->
  settlement_ops (inr data) = [SetResults data].
Proof.
  intros data success Hg Ht. unfold settlement_ops. now rewrite Hg, Ht.
Qed.

Lemma settlement_ops_failure : forall (data success err : value),
  get_property data "success" = inr success -> truthy success = false ->
  get_property data "error" = inr err ->
  settlement_ops (inr data) = [SetError (js_or err (VStr "Detection failed"))].
Proof.
  intros data success err Hg Ht He. unfold settlement_ops. now rewrite Hg, Ht, He.
Qed.

(** * The claims *)

(** C2: a call of [handleDetect] with no image selected sets the error to
    "Please select an image first", sends no request, suspends nothing and
    leaves every other piece of state as it was. *)
Theorem detect_without_image : forall p : Page,
  selectedFile (state p) = None ->
  let p' := run (handleDetect (selectedFile (state p)) (confidence (state p))) p in
  error (state p') = VStr "Please select an image first" /\
  requests p' = requests p /\
  pending p' = pending p /\
  selectedFile (state p') = selectedFile (state p) /\
  previewUrl (state p') = previewUrl (state p) /\
  loading (state p') = loading (state p) /\
  results (state p') = results (state p) /\
  confidence (state p') = confidence (state p) /\
  object_urls p' = object_urls p /\
  uncaught p' = uncaught p /\
  history p' = SetError (VStr "Please select an image first") :: history p.
Proof.
  intros p H. destruct p as [st urls reqs pend hist unc].
  destruct st as [file url busy res err conf]. cbn in H. subst file.
  cbn. repeat split; reflexivity.
Qed.

Lemma detect_without_image_witness :
  selectedFile (state initial_page) = None /\
  error (state (run (handleDetect (selectedFile (state initial_page))
                                  (confidence (state initial_page))) initial_page))
    = VStr "Please select an image first" /\
  requests (run (handleDetect (selectedFile (state initial_page))
                              (confidence (state initial_page))) initial_page) = [].
Proof.
  split; [reflexivity|].
  pose proof (detect_without_image initial_page eq_refl) as H.
  cbv zeta in H. destruct H as (He & Hr & _).
  split; [exact He | exact Hr].
Defined.

(** C3: when the body of the response has a truthy [success], the body is
    stored as it is in [results] and the error is empty afterwards, whatever
    the user does with the inputs while the request is in flight. *)
Theorem success_body_stored :
  forall (evs0 evs1 evs2 : list Event) (resp : Response) (data success : value),
  let p := run_events evs0 initial_page in
  detect_disabled (state p) = false ->
  forallb user_event evs1 = true ->
  forallb user_event evs2 = true ->
  body_json resp = inr data ->
  get_property data "success" = inr success ->
  truthy success = true ->
  let p' := run_events
              (ClickDetect :: evs1 ++ FetchSettles 0 (inr resp) :: evs2 ++ [JsonSettles 0]) p in
  results (state p') = data /\ error (state p') = VStr "" /\ pending p' = [].
Proof.
  intros evs0 evs1 evs2 resp data success p Hd Hu1 Hu2 Hb Hg Ht p'.
  assert (Hc : consistent p) by apply reachable_consistent.
  pose proof (consistent_enabled_idle p Hc Hd) as Hp.
  destruct (click_starts p Hp Hd) as (Hfly & _).
  pose proof (user_events_fetch evs1 _ Hu1 Hfly) as Hfly1.
  destruct (response_arrives resp _ Hfly1) as (Hj & _).
  pose proof (user_events_json resp evs2 _ Hu2 Hj) as Hj2.
  assert (E : p' = step (run_events evs2
                 (step (run_events evs1 (step p ClickDetect)) (FetchSettles 0 (inr resp))))
                 (JsonSettles 0)).
  { unfold p'. change (ClickDetect :: evs1 ++ FetchSettles 0 (inr resp) :: evs2 ++ [JsonSettles 0])
      with ([ClickDetect] ++ evs1 ++ [FetchSettles 0 (inr resp)] ++ evs2 ++ [JsonSettles 0])%list.
    rewrite !run_events_app. reflexivity. }
  rewrite E, (body_settles resp _ Hj2), Hb, (settlement_ops_success data success Hg Ht).
  destruct Hj2 as (_ & He & _). cbn. auto.
Qed.

Lemma success_body_stored_witness :
  let p' := run_events
              (ClickDetect :: [ChangeConfidence default_confidence]
                 ++ FetchSettles 0 (inr (ok_response sample_body))
                 :: [ChangeFile None] ++ [JsonSettles 0])
              (run_events [ChangeFile (Some [sample_file])] initial_page) in
  results (state p') = sample_body /\ error (state p') = VStr "" /\ pending p' = [].
Proof.
  exact (success_body_stored [ChangeFile (Some [sample_file])]
           [ChangeConfidence default_confidence] [ChangeFile None]
           (ok_response sample_body) sample_body (VBool true)
           eq_refl eq_refl eq_refl eq_refl eq_refl eq_refl).
Defined.

(** C10: the status of the response is never read.  Two responses with the
    same body and different statuses leave the same page, and a body with a
    truthy [success] is stored whatever the status. *)
Theorem status_ignored :
  forall (p : Page) (f : File) (status1 status2 : Z) (parsed : js_error + value),
  selectedFile (state p) = Some f ->
  detect_alone (inr (mk_response status1 parsed)) p
    = detect_alone (inr (mk_response status2 parsed)) p /\
  forall (data success : value),
    parsed = inr data ->
    get_property data "success" = inr success ->
    truthy success = true ->
    results (state (detect_alone (inr (mk_response status1 parsed)) p)) = data.
Proof.
  intros p f status1 status2 parsed Hf. split.
  - rewrite !(detect_alone_selected p f _ Hf). reflexivity.
  - intros data success Hp Hg Ht.
    rewrite (detect_alone_selected p f _ Hf). unfold fetch_settlement_ops.
    cbn [body_json]. rewrite Hp, (settlement_ops_success data success Hg Ht).
    reflexivity.
Qed.

Lemma status_ignored_witness :
  let p := run_events [ChangeFile (Some [sample_file])] initial_page in
  selectedFile (state p) = Some sample_file /\
  detect_alone (inr (mk_response 500 (inr sample_body))) p
    = detect_alone (inr (mk_response 200 (inr sample_body))) p /\
  results (state (detect_alone (inr (mk_response 500 (inr sample_body))) p)) = sample_body.
Proof.
  intro p. split; [reflexivity|].
  destruct (status_ignored p sample_file 500 200 (inr sample_body) eq_refl) as (H1 & H2).
  split; [exact H1|].
  exact (H2 sample_body (VBool true) eq_refl eq_refl eq_refl).
Defined.

(** C4, as the code has it: with a falsy [success], an [error] field that is
    a non-empty string becomes the error; an absent or empty one gives
    "Detection failed". *)
Theorem failure_message :
  forall (p : Page) (f : File) (resp : Response) (data success err : value),
  selectedFile (state p) = Some f ->
  body_json resp = inr data ->
  get_property data "success" = inr success ->
  truthy success = false ->
  get_property data "error" = inr err ->
  let p' := detect_alone (inr resp) p in
  (forall X : string, err = VStr X -> X <> "" -> error (state p') = VStr X) /\
  (err = VUndefined \/ err = VStr "" -> error (state p') = VStr "Detection failed").
Proof.
  intros p f resp data success err Hf Hb Hg Ht He p'.
  assert (E : error (state p') = js_or err (VStr "Detection failed")).
  { unfold p'. rewrite (detect_alone_selected p f _ Hf). unfold fetch_settlement_ops.
    rewrite Hb, (settlement_ops_failure data success err Hg Ht He). reflexivity. }
  rewrite E. split.
  - intros X HX Hne. subst err. unfold js_or. cbn [truthy].
    destruct (String.eqb_spec X "") as [Heq | _]; [contradiction | reflexivity].
  - intros [H | H]; subst err; reflexivity.
Qed.

Lemma failure_message_witness :
  let p := run_events [ChangeFile (Some [sample_file])] initial_page in
  let data := VObj [("success", VBool false); ("error", VStr "No detections found")] in
  error (state (detect_alone (inr (ok_response data)) p)) = VStr "No detections found".
Proof.
  intros p data.
  destruct (failure_message p sample_file (ok_response data) data (VBool false)
              (VStr "No detections found") eq_refl eq_refl eq_refl eq_refl eq_refl)
    as (H & _).
  apply (H "No detections found" eq_refl). discriminate.
Defined.

(** C4 as stated fails for the empty string: the body
    [{success: false, error: ""}] has an [error] field equal to the string
    [""], and the error becomes "Detection failed". *)
Lemma empty_error_field_counterexample :
  let p := run_events [ChangeFile (Some [sample_file])] initial_page in
  let data := VObj [("success", VBool false); ("error", VStr "")] in
  get_property data "success" = inr (VBool false) /\
  truthy (VBool false) = false /\
  get_property data "error" = inr (VStr "") /\
  error (state (detect_alone (inr (ok_response data)) p)) = VStr "Detection failed" /\
  error (state (detect_alone (inr (ok_response data)) p)) <> VStr "".
Proof.
  cbv zeta. repeat split; try reflexivity. vm_compute. discriminate.
Qed.

(** What a transport failure does: a rejected fetch, a body that is not
    JSON, and the body [null] all end in the catch block. *)
Lemma transport_failure_reported :
  forall (p : Page) (f : File) (o : js_error + Response) (e : js_error),
  selectedFile (state p) = Some f ->
  (o = inl e \/
   (exists status, o = inr (mk_response status (inl e))) \/
   (exists status, o = inr (mk_response status (inr VNull)) /\
                   get_property VNull "success" = inl e)) ->
  let p' := detect_alone o p in
  error (state p') = VStr connect_message /\
  results (state p') = results (state p) /\
  loading (state p') = false /\
  history p' = SetLoading false :: ConsoleError e :: SetError (VStr connect_message)
               :: SetError (VStr "") :: SetLoading true :: history p.
Proof.
  intros p f o e Hf Ho p'. unfold p'. rewrite (detect_alone_selected p f _ Hf).
  destruct Ho as [H | [(status & H) | (status & H & He)]]; subst o.
  - repeat split; reflexivity.
  - repeat split; reflexivity.
  - cbn in He. injection He as He. subst e. repeat split; reflexivity.
Qed.

(** C5, at a rejected fetch: the error is the fixed string and the failure
    is logged, but the string names port 5000 while the request went to
    port 1000 of localhost. *)
Theorem connect_message_names_another_port :
  let p := run_events [ChangeFile (Some [sample_file]); ClickDetect;
                       FetchSettles 0 (inl failed_to_fetch)] initial_page in
  error (state p)
    = VStr "Failed to connect to API. Make sure Flask server is running on port 5000" /\
  In (ConsoleError failed_to_fetch) (history p) /\
  map request_url (requests p) = ["http://localhost:1000/api/detect"] /\
  map (fun r => url_port (request_url r)) (requests p) = ["1000"] /\
  mentions "5000"
    "Failed to connect to API. Make sure Flask server is running on port 5000" = true /\
  mentions "1000"
    "Failed to connect to API. Make sure Flask server is running on port 5000" = false.
Proof.
  cbv zeta. repeat split; try reflexivity. right; left; reflexivity.
Qed.

(** C1, at a failure that follows a success: [handleDetect] clears the error
    and never the results, so the results of the first request stay in the
    state, and on the page, beside the error of the second. *)
Theorem stale_results_beside_error :
  let p := run_events [ChangeFile (Some [sample_file]);
                       ClickDetect;
                       FetchSettles 0 (inr (ok_response sample_body));
                       JsonSettles 0;
                       ClickDetect;
                       FetchSettles 0 (inl failed_to_fetch)] initial_page in
  pending p = [] /\
  loading (state p) = false /\
  results (state p) = sample_body /\
  error (state p)
    = VStr "Failed to connect to API. Make sure Flask server is running on port 5000" /\
  truthy (results (state p)) = true /\
  truthy (error (state p)) = true /\
  option_map (shows "Error:") (Home (state p)) = Some true /\
  option_map (shows "Total Detections") (Home (state p)) = Some true.
Proof.
  cbv zeta. repeat split; vm_compute; reflexivity.
Qed.

Lemma consistent_loading : forall p : Page,
  consistent p -> (loading (state p) = true <-> pending p <> []).
Proof.
  intros p (_ & _ & Hcase).
  destruct Hcase as [Hi | [Hg | Hj]].
  - destruct Hi as (Hp & Hl). rewrite Hp, Hl. split; [discriminate | congruence].
  - destruct Hg as (Hl & _ & f & c & Hp). rewrite Hp, Hl. split; [discriminate | reflexivity].
  - destruct Hj as (resp & Hl & _ & f & c & Hp). rewrite Hp, Hl.
    split; [discriminate | reflexivity].
Qed.

Lemma other_settlements_fetch : forall p : Page,
  flying_fetch p ->
  (forall i o, step p (FetchSettles (S i) o) = p) /\
  (forall i, step p (JsonSettles i) = p).
Proof.
  intros p (_ & _ & f & c & Hp). split; intros; cbn [step]; rewrite Hp.
  - now rewrite nth_error_singleton.
  - destruct i; [reflexivity | now rewrite nth_error_singleton].
Qed.

Lemma other_settlements_json : forall (resp : Response) (p : Page),
  flying_json resp p ->
  (forall i o, step p (FetchSettles i o) = p) /\
  (forall i, step p (JsonSettles (S i)) = p).
Proof.
  intros resp p (_ & _ & f & c & Hp). split; intros; cbn [step]; rewrite Hp.
  - destruct i; [reflexivity | now rewrite nth_error_singleton].
  - now rewrite nth_error_singleton.
Qed.

Lemma settlement_is_last : forall (p : Page) (ev : Event),
  consistent p -> pending p <> [] -> pending (step p ev) = [] ->
  hd_error (history (step p ev)) = Some (SetLoading false).
Proof.
  intros p ev Hc Hne Hdone.
  assert (Hl : loading (state p) = true) by now apply consistent_loading.
  destruct (user_event ev) eqn:Hu.
  { destruct (user_step_pending p ev Hu Hl) as (Hp & _). congruence. }
  destruct Hc as (_ & _ & Hcase).
  destruct Hcase as [Hi | [Hfly | Hj]].
  - destruct Hi as (Hp & _). contradiction.
  - destruct (other_settlements_fetch p Hfly) as (Hf & Hj).
    destruct ev as [files | x | | i o | i]; try discriminate.
    + destruct i as [|i]; [|rewrite Hf in Hdone; contradiction].
      destruct o as [e | resp].
      * rewrite (fetch_rejected e p Hfly). reflexivity.
      * destruct (response_arrives resp p Hfly) as ((_ & _ & f & c & Hp) & _).
        rewrite Hp in Hdone. discriminate.
    + rewrite Hj in Hdone. contradiction.
  - destruct Hj as (resp & Hfly).
    destruct (other_settlements_json resp p Hfly) as (Hf & Hj).
    destruct ev as [files | x | | i o | i]; try discriminate.
    + rewrite Hf in Hdone. contradiction.
    + destruct i as [|i]; [|rewrite Hj in Hdone; contradiction].
      rewrite (body_settles resp p Hfly). reflexivity.
Qed.

Lemma can_settle : forall p : Page,
  consistent p -> pending p <> [] ->
  (forall e, pending (step p (FetchSettles 0 (inl e))) = []) \/
  pending (step p (JsonSettles 0)) = [].
Proof.
  intros p (_ & _ & Hcase) Hne.
  destruct Hcase as [Hi | [Hfly | Hj]].
  - destruct Hi as (Hp & _). contradiction.
  - left. intros e. rewrite (fetch_rejected e p Hfly). reflexivity.
  - right. destruct Hj as (resp & Hfly). rewrite (body_settles resp p Hfly). reflexivity.
Qed.

(** C6: on every page reached from the initial one, [loading] is true
    exactly while a request is in flight.  The event that dispatches a
    request leaves it true; the event that settles one, on whichever path,
    leaves it false, and [setLoading(false)] is the last thing that event
    did; and a request in flight can always settle. *)
Theorem loading_only_in_flight : forall evs : list Event,
  let p := run_events evs initial_page in
  (loading (state p) = true <-> pending p <> []) /\
  (forall ev, pending p = [] -> pending (step p ev) <> [] ->
     loading (state (step p ev)) = true) /\
  (forall ev, pending p <> [] -> pending (step p ev) = [] ->
     loading (state (step p ev)) = false /\
     hd_error (history (step p ev)) = Some (SetLoading false)) /\
  (pending p <> [] ->
     (forall e, pending (step p (FetchSettles 0 (inl e))) = []) \/
     pending (step p (JsonSettles 0)) = []).
Proof.
  intros evs p.
  assert (Hc : consistent p) by apply reachable_consistent.
  split; [now apply consistent_loading|].
  split; [|split].
  - intros ev _ Hne. apply consistent_loading; [now apply step_consistent | exact Hne].
  - intros ev Hne Hdone. split.
    + destruct (loading (state (step p ev))) eqn:Hl; [|reflexivity].
      apply (consistent_loading _ (step_consistent p ev Hc)) in Hl. contradiction.
    + now apply settlement_is_last.
  - now apply can_settle.
Qed.

Lemma loading_only_in_flight_witness :
  let p := run_events [ChangeFile (Some [sample_file]); ClickDetect;
                       FetchSettles 0 (inr (ok_response sample_body))] initial_page in
  pending p <> [] /\
  loading (state p) = true /\
  pending (step p (JsonSettles 0)) = [] /\
  loading (state (step p (JsonSettles 0))) = false /\
  hd_error (history (step p (JsonSettles 0))) = Some (SetLoading false).
Proof.
  intro p.
  assert (Hne : pending p <> []) by discriminate.
  assert (Hdone : pending (step p (JsonSettles 0)) = []) by reflexivity.
  destruct (loading_only_in_flight
              [ChangeFile (Some [sample_file]); ClickDetect;
               FetchSettles 0 (inr (ok_response sample_body))])
    as (Hiff & _ & Hsettle & _).
  destruct (Hsettle (JsonSettles 0) Hne Hdone) as (Hl & Hh).
  split; [exact Hne|]. split; [apply Hiff; exact Hne|].
  split; [exact Hdone|]. split; [exact Hl | exact Hh].
Defined.

(** ** Object URLs *)

Lemma substring_whole : forall s : string, substring 0 (String.length s) s = s.
Proof.
  induction s as [|c s IH]; simpl; [reflexivity | now rewrite IH].
Qed.

Lemma nat_to_uint_nonnil : forall n : nat, Nat.to_uint n <> Decimal.Nil.
Proof.
  intros n. rewrite <- (DecimalNat.Unsigned.of_to n) at 1.
  rewrite DecimalNat.Unsigned.to_of. apply DecimalFacts.unorm_nonnil.
Qed.

Lemma resolve_blob_url : forall (urls : list File) (i : nat),
  resolve_object_url urls (blob_url i) = nth_error urls i.
Proof.
  intros urls i. unfold resolve_object_url, blob_url.
  set (d := NilZero.string_of_uint (Nat.to_uint i)).
  cbn [append substring String.eqb Ascii.eqb Bool.eqb String.length Nat.sub].
  rewrite Nat.sub_0_r, substring_whole. unfold d.
  rewrite (NilZero.usu _ (nat_to_uint_nonnil i)), DecimalNat.Unsigned.of_to.
  destruct (NilZero.string_of_uint (Nat.to_uint i)); reflexivity.
Qed.

(** C8: with a file, [handleFileSelect] stores it, makes a fresh object URL
    that resolves to it the preview, and sets the results to [null] and the
    error to the empty string, from any page; choosing the same file again
    does all of it again, with another URL.  Without a file the page stays
    as it is. *)
Theorem select_image_resets : forall (p : Page) (files : option (list File)),
  (first_file files = None -> run (handleFileSelect files) p = p) /\
  (forall f : File, first_file files = Some f ->
     let p1 := run (handleFileSelect files) p in
     let p2 := run (handleFileSelect files) p1 in
     (selectedFile (state p1) = Some f /\
      resolve_object_url (object_urls p1) (previewUrl (state p1)) = Some f /\
      resolve_object_url (object_urls p) (previewUrl (state p1)) = None /\
      results (state p1) = VNull /\
      error (state p1) = VStr "" /\
      loading (state p1) = loading (state p) /\
      confidence (state p1) = confidence (state p) /\
      requests p1 = requests p /\
      pending p1 = pending p) /\
     (selectedFile (state p2) = Some f /\
      resolve_object_url (object_urls p2) (previewUrl (state p2)) = Some f /\
      previewUrl (state p2) <> previewUrl (state p1) /\
      results (state p2) = VNull /\
      error (state p2) = VStr "")).
Proof.
  intros p files. split; [apply run_handleFileSelect_none|].
  intros f Hf p1 p2. unfold p2, p1.
  rewrite !(run_handleFileSelect_some files f _ Hf).
  cbn [state object_urls requests pending selectedFile previewUrl results error
       loading confidence].
  rewrite !resolve_blob_url, nth_error_last, nth_error_at_length.
  rewrite nth_error_last.
  repeat split; try reflexivity.
  intros Heq.
  pose proof (resolve_blob_url (object_urls p ++ [f]) (List.length (object_urls p ++ [f]))) as H1.
  pose proof (resolve_blob_url (object_urls p ++ [f]) (List.length (object_urls p))) as H2.
  rewrite Heq, nth_error_at_length in H1. rewrite nth_error_last in H2. congruence.
Qed.

Lemma select_image_resets_witness :
  let p := run_events [ChangeFile (Some [sample_file]); ClickDetect;
                       FetchSettles 0 (inr (ok_response sample_body));
                       JsonSettles 0] initial_page in
  first_file (Some [sample_file]) = Some sample_file /\
  results (state p) = sample_body /\
  results (state (run (handleFileSelect (Some [sample_file])) p)) = VNull /\
  error (state (run (handleFileSelect (Some [sample_file])) p)) = VStr "" /\
  run (handleFileSelect (Some [])) p = p.
Proof.
  cbv zeta.
  destruct (select_image_resets
              (run_events [ChangeFile (Some [sample_file]); ClickDetect;
                           FetchSettles 0 (inr (ok_response sample_body));
                           JsonSettles 0] initial_page)
              (Some [sample_file])) as (_ & H).
  destruct (H sample_file eq_refl) as ((_ & _ & _ & Hr & He & _) & _).
  destruct (select_image_resets
              (run_events [ChangeFile (Some [sample_file]); ClickDetect;
                           FetchSettles 0 (inr (ok_response sample_body));
                           JsonSettles 0] initial_page)
              (Some [])) as (Hnone & _).
  split; [reflexivity|]. split; [reflexivity|].
  split; [exact Hr|]. split; [exact He | exact (Hnone eq_refl)].
Defined.

(** ** Rounding to a number of decimal places *)

Lemma pow10_nat : forall f : nat,
  (pow10 (Z.of_nat f) == inject_Z (10 ^ Z.of_nat f))%Q.
Proof.
  intros f. unfold pow10. rewrite Zpower_Qpower by apply Nat2Z.is_nonneg. reflexivity.
Qed.

Lemma pow2_nonneg : forall e : Z, 0 <= e -> (pow2 e == inject_Z (2 ^ e))%Q.
Proof.
  intros e He. unfold pow2. rewrite Zpower_Qpower by exact He. reflexivity.
Qed.

Lemma pow2_neg : forall e : Z, e < 0 -> (pow2 e == / inject_Z (2 ^ (- e)))%Q.
Proof.
  intros e He. unfold pow2.
  replace e with (- (- e)) at 1 by lia.
  rewrite Qpower_opp, Zpower_Qpower by lia. reflexivity.
Qed.

Lemma round_half_up_nonneg : forall (m : positive) (e : Z) (f : nat),
  0 <= round_half_up m e f.
Proof.
  intros m e f. unfold round_half_up. destruct (0 <=? e) eqn:He.
  - apply Z.leb_le in He. 
    assert (0 < 2 ^ e) by (apply Z.pow_pos_nonneg; lia).
    assert (0 < 10 ^ Z.of_nat f) by (apply Z.pow_pos_nonneg; lia). nia.
  - apply Z.leb_gt in He.
    assert (0 < 2 ^ (- e)) by (apply Z.pow_pos_nonneg; lia).
    assert (0 < 2 ^ (1 - e)) by (apply Z.pow_pos_nonneg; lia).
    assert (0 < 10 ^ Z.of_nat f) by (apply Z.pow_pos_nonneg; lia).
    apply Z.div_pos; nia.
Qed.

Lemma round_half_up_nearest : forall (m : positive) (e : Z) (f : nat),
  (Qabs (inject_Z (round_half_up m e f) - magnitude m e * pow10 (Z.of_nat f)) <= 1 # 2)%Q.
Proof.
  intros m e f. unfold round_half_up, magnitude. rewrite pow10_nat.
  set (T := 10 ^ Z.of_nat f).
  destruct (0 <=? e) eqn:He.
  - apply Z.leb_le in He. rewrite (pow2_nonneg e He).
    rewrite !inject_Z_mult.
    setoid_replace (inject_Z (Z.pos m) * inject_Z (2 ^ e) * inject_Z T -
                    inject_Z (Z.pos m) * inject_Z (2 ^ e) * inject_Z T)%Q with 0%Q by ring.
    discriminate.
  - apply Z.leb_gt in He. rewrite (pow2_neg e He).
    set (D := 2 ^ (- e)).
    assert (HD : 0 < D) by (apply Z.pow_pos_nonneg; lia).
    replace (2 ^ (1 - e)) with (2 * D)
      by (unfold D; replace (1 - e) with (1 + - e) by lia;
          rewrite Z.pow_add_r by lia; reflexivity).
    set (a := 2 * Z.pos m * T + D).
    set (n := a / (2 * D)).
    assert (Hlo : 2 * D * n <= a) by (apply Z.mul_div_le; lia).
    assert (Hhi : a < 2 * D * Z.succ n) by (apply Z.mul_succ_div_gt; lia).
    assert (HDq : (0 < inject_Z D)%Q)
      by (change 0%Q with (inject_Z 0); rewrite <- Zlt_Qlt; exact HD).
    apply Qabs_Qle_condition.
    assert (E : ((inject_Z n - inject_Z (Z.pos m) * / inject_Z D * inject_Z T) * inject_Z D
                 == inject_Z (n * D - Z.pos m * T))%Q).
    { unfold Z.sub. rewrite inject_Z_plus, inject_Z_opp, !inject_Z_mult. field. intro H0. rewrite H0 in HDq.
      discriminate. }
    split.
    + apply (Qmult_le_r _ _ (inject_Z D) HDq). rewrite E.
      setoid_replace (- (1 # 2) * inject_Z D)%Q with (inject_Z (- D) * (1 # 2))%Q
        by (rewrite inject_Z_opp; ring).
      apply (Qmult_le_r _ _ 2%Q); [reflexivity|].
      setoid_replace (inject_Z (- D) * (1 # 2) * 2)%Q with (inject_Z (- D)) by ring.
      change 2%Q with (inject_Z 2). rewrite <- inject_Z_mult, <- Zle_Qle.
      unfold a in *. lia.
    + apply (Qmult_le_r _ _ (inject_Z D) HDq). rewrite E.
      apply (Qmult_le_r _ _ 2%Q); [reflexivity|].
      setoid_replace ((1 # 2) * inject_Z D * 2)%Q with (inject_Z D) by ring.
      change 2%Q with (inject_Z 2). rewrite <- inject_Z_mult, <- Zle_Qle.
      unfold a in *. lia.
Qed.

(** ** Digit strings *)

Lemma all_digits_app : forall a b : string,
  all_digits (a ++ b) = all_digits a && all_digits b.
Proof.
  induction a as [|c a IH]; intros b; simpl; [reflexivity|].
  now rewrite IH, andb_assoc.
Qed.

Lemma all_digits_zeros : forall k : nat, all_digits (repeat_char "0" k) = true.
Proof. induction k as [|k IH]; simpl; [reflexivity | exact IH]. Qed.

Lemma all_digits_uint : forall d : Decimal.uint,
  all_digits (NilEmpty.string_of_uint d) = true.
Proof. induction d; simpl; auto. Qed.

Lemma n_to_uint_nonnil : forall k : N, N.to_uint k <> Decimal.Nil.
Proof.
  intros k. rewrite <- (DecimalN.Unsigned.of_to k) at 1.
  rewrite DecimalN.Unsigned.to_of. apply unorm_nonnil.
Qed.

Lemma digits_of_uint : forall n : Z,
  digits_of n = NilEmpty.string_of_uint (N.to_uint (Z.to_N n)).
Proof.
  intros n. unfold digits_of.
  pose proof (n_to_uint_nonnil (Z.to_N n)) as H.
  destruct (N.to_uint (Z.to_N n)); [contradiction | reflexivity ..].
Qed.

Lemma digits_of_nonempty : forall n : Z, digits_of n <> "".
Proof.
  intros n. rewrite digits_of_uint.
  pose proof (n_to_uint_nonnil (Z.to_N n)) as H.
  destruct (N.to_uint (Z.to_N n)); [contradiction | discriminate ..].
Qed.

Lemma all_digits_digits_of : forall n : Z, all_digits (digits_of n) = true.
Proof. intros n. rewrite digits_of_uint. apply all_digits_uint. Qed.

Lemma numeral_nonempty : forall s : string,
  s <> "" ->
  numeral s = match NilEmpty.uint_of_string s with
              | Some d => Some (Z.of_N (N.of_uint d))
              | None => None
              end.
Proof. intros s H. destruct s; [contradiction | reflexivity]. Qed.

Lemma uint_of_zeros : forall (k : nat) (s : string) (d : Decimal.uint),
  NilEmpty.uint_of_string s = Some d ->
  exists d', NilEmpty.uint_of_string (repeat_char "0" k ++ s) = Some d' /\
             N.of_uint d' = N.of_uint d.
Proof.
  induction k as [|k IH]; intros s d H; simpl.
  - exists d. auto.
  - destruct (IH s d H) as (d' & H' & E). rewrite H'.
    exists (Decimal.D0 d'). split; [reflexivity | exact E].
Qed.

Lemma numeral_padded : forall (k : nat) (n : Z),
  0 <= n -> numeral (repeat_char "0" k ++ digits_of n) = Some n.
Proof.
  intros k n Hn.
  assert (Hne : repeat_char "0" k ++ digits_of n <> "").
  { pose proof (digits_of_nonempty n) as H. destruct k; simpl; [exact H | discriminate]. }
  rewrite (numeral_nonempty _ Hne).
  destruct (uint_of_zeros k (digits_of n) (N.to_uint (Z.to_N n))) as (d' & H' & E).
  { rewrite digits_of_uint. apply NilEmpty.usu. }
  rewrite H', E, DecimalN.Unsigned.of_to, Z2N.id by exact Hn. reflexivity.
Qed.

(** ** Substrings *)

Lemma substring_split : forall (s : string) (j : nat),
  (j <= String.length s)%nat ->
  substring 0 j s ++ substring j (String.length s - j) s = s.
Proof.
  induction s as [|c s IH]; intros j Hj; simpl in Hj.
  - destruct j; [reflexivity | lia].
  - destruct j as [|j].
    + simpl. now rewrite substring_whole.
    + simpl. rewrite IH by lia. reflexivity.
Qed.

Lemma substring_prefix_length : forall (s : string) (j : nat),
  (j <= String.length s)%nat -> String.length (substring 0 j s) = j.
Proof.
  induction s as [|c s IH]; intros j Hj; simpl in Hj.
  - destruct j; [reflexivity | lia].
  - destruct j as [|j]; simpl; [reflexivity|]. rewrite IH by lia. reflexivity.
Qed.

Lemma length_append : forall a b : string,
  String.length (a ++ b) = (String.length a + String.length b)%nat.
Proof.
  induction a as [|c a IH]; intros b; simpl; [reflexivity | now rewrite IH].
Qed.

Lemma length_zeros : forall k : nat, String.length (repeat_char "0" k) = k.
Proof. induction k as [|k IH]; simpl; [reflexivity | now rewrite IH]. Qed.

Lemma split_at_point_digits : forall a b : string,
  all_digits a = true -> split_at_point (a ++ "." ++ b) = Some (a, b).
Proof.
  induction a as [|c a IH]; intros b H; simpl in *; [reflexivity|].
  apply andb_true_iff in H. destruct H as [Hc Ha].
  destruct (Ascii.eqb_spec c ".") as [E | _].
  - subst c. discriminate.
  - now rewrite (IH b Ha).
Qed.

Lemma starts_with_digit_all : forall s : string,
  s <> "" -> all_digits s = true -> starts_with_digit s = true.
Proof.
  intros [|c s] Hne H; [contradiction|]. simpl in *.
  now apply andb_true_iff in H.
Qed.

Lemma starts_with_digit_app : forall a b : string,
  starts_with_digit a = true -> starts_with_digit (a ++ b) = true.
Proof. intros [|c a] b H; [discriminate | exact H]. Qed.

Lemma digit_not_minus : forall t : string,
  starts_with_digit t = true -> strip_minus t = t /\ starts_with_minus t = false.
Proof.
  intros [|c t] H; [discriminate|]. simpl in *.
  destruct (Ascii.eqb_spec c "-") as [E | _]; [subst c; discriminate | auto].
Qed.

(** ** What [fixed_digits] prints *)

Lemma fixed_digits_pos : forall (n : Z) (f : nat),
  (0 < f)%nat ->
  fixed_digits n f =
  let m := digits_of n in
  let k := String.length m in
  let m' := if (k <=? f)%nat then repeat_char "0" (f + 1 - k) ++ m else m in
  let k' := String.length m' in
  substring 0 (k' - f) m' ++ "." ++ substring (k' - f) f m'.
Proof. intros n [|f] H; [lia | reflexivity]. Qed.

Lemma parse_fixed_pos : forall (t : string) (f : nat),
  (0 < f)%nat ->
  parse_fixed t f =
  match split_at_point (strip_minus t) with
  | Some (whole, frac) =>
      if (String.length frac =? f)%nat && negb (String.eqb whole "")
      then numeral (whole ++ frac)
      else None
  | None => None
  end.
Proof. intros t [|f] H; [lia | reflexivity]. Qed.

Lemma fixed_digits_parse : forall (n : Z) (f : nat),
  0 <= n ->
  starts_with_digit (fixed_digits n f) = true /\
  parse_fixed (fixed_digits n f) f = Some n.
Proof.
  intros n f Hn.
  assert (Hd : all_digits (digits_of n) = true) by apply all_digits_digits_of.
  assert (Hne : digits_of n <> "") by apply digits_of_nonempty.
  destruct (Nat.eq_dec f 0) as [Hf | Hf].
  - subst f. simpl.
    assert (Hs : starts_with_digit (digits_of n) = true)
      by now apply starts_with_digit_all.
    split; [exact Hs|].
    unfold parse_fixed. destruct (digit_not_minus _ Hs) as (E & _).
    rewrite E. exact (numeral_padded 0 n Hn).
  - assert (Hpos : (0 < f)%nat) by lia.
    rewrite (fixed_digits_pos n f Hpos). cbv zeta.
    set (m := digits_of n) in *.
    set (k := String.length m).
    set (m' := if (k <=? f)%nat then repeat_char "0" (f + 1 - k) ++ m else m).
    assert (Hm' : exists z, m' = repeat_char "0" z ++ m /\ (f < String.length m')%nat).
    { unfold m'. destruct (Nat.leb_spec k f) as [Hle | Hgt].
      - exists (f + 1 - k)%nat. split; [reflexivity|].
        rewrite length_append, length_zeros. fold k. lia.
      - exists 0%nat. split; [reflexivity | exact Hgt]. }
    destruct Hm' as (z & Em & Hlen).
    set (j := (String.length m' - f)%nat).
    assert (Hj : (j <= String.length m')%nat) by (unfold j; lia).
    assert (Hjf : f = (String.length m' - j)%nat) by (unfold j; lia).
    set (whole := substring 0 j m').
    set (frac := substring j f m').
    assert (Esplit : whole ++ frac = m').
    { unfold whole, frac. rewrite Hjf at 1. now apply substring_split. }
    assert (Hdm : all_digits m' = true).
    { rewrite Em, all_digits_app, all_digits_zeros. exact Hd. }
    assert (Hdw : all_digits whole = true /\ all_digits frac = true).
    { rewrite <- Esplit, all_digits_app in Hdm. now apply andb_true_iff in Hdm. }
    destruct Hdw as (Hdw & Hdf).
    assert (Hlw : String.length whole = j) by now apply substring_prefix_length.
    assert (Hlf : String.length frac = f).
    { pose proof (f_equal String.length Esplit) as E.
      rewrite length_append, Hlw in E. unfold j in E. lia. }
    assert (Hwne : whole <> "").
    { intro E. rewrite E in Hlw. simpl in Hlw. unfold j in Hlw. lia. }
    assert (Hsw : starts_with_digit (whole ++ "." ++ frac) = true).
    { apply starts_with_digit_app. now apply starts_with_digit_all. }
    split; [exact Hsw|].
    rewrite (parse_fixed_pos _ f Hpos). destruct (digit_not_minus _ Hsw) as (E & _).
    rewrite E, (split_at_point_digits whole frac Hdw).
    rewrite Hlf, Nat.eqb_refl.
    destruct (String.eqb_spec whole "") as [E0 | _]; [contradiction|].
    cbn [andb negb]. rewrite Esplit, Em. exact (numeral_padded z n Hn).
Qed.

(** ** What [toString] prints for an integer *)

Lemma Qltb_true : forall a b : Q, Qltb a b = true <-> (a < b)%Q.
Proof.
  intros a b. unfold Qltb. rewrite Qlt_alt.
  destruct (a ?= b)%Q; split; intros H; try reflexivity; discriminate.
Qed.

Lemma Qltb_false : forall a b : Q, Qltb a b = false <-> (b <= a)%Q.
Proof.
  intros a b. unfold Qltb. rewrite Qge_alt.
  destruct (a ?= b)%Q; split; intros H; try reflexivity; try discriminate.
  exfalso. now apply H.
Qed.

Lemma Qleb_true : forall a b : Q, Qleb a b = true <-> (a <= b)%Q.
Proof.
  intros a b. unfold Qleb. rewrite Qle_alt.
  destruct (a ?= b)%Q; split; intros H; try reflexivity; try discriminate.
  exfalso. now apply H.
Qed.

Lemma Qleb_false : forall a b : Q, Qleb a b = false <-> (b < a)%Q.
Proof.
  intros a b. unfold Qleb. rewrite Qgt_alt.
  destruct (a ?= b)%Q; split; intros H; try reflexivity; discriminate.
Qed.

Lemma rounds_to_comp : forall (m : positive) (e : Z) (v w : Q),
  (v == w)%Q -> rounds_to m e v = rounds_to m e w.
Proof.
  intros m e v w H. unfold rounds_to, Qleb, Qltb.
  rewrite (Qcompare_comp _ _ (Qeq_refl (round_lo m e)) _ _ H).
  rewrite (Qcompare_comp _ _ H _ _ (Qeq_refl (round_hi m e))).
  reflexivity.
Qed.

Lemma rounds_to_below : forall (m : positive) (e : Z) (v : Q),
  (v < round_lo m e)%Q -> rounds_to m e v = false.
Proof.
  intros m e v H. unfold rounds_to.
  assert (H1 : Qleb (round_lo m e) v = false) by now apply Qleb_false.
  assert (H2 : Qltb (round_lo m e) v = false) by (apply Qltb_false; now apply Qlt_le_weak).
  rewrite H1, H2. now destruct (Z.even (Z.pos m)).
Qed.

Lemma rounds_to_above : forall (m : positive) (e : Z) (v : Q),
  (round_hi m e < v)%Q -> rounds_to m e v = false.
Proof.
  intros m e v H. unfold rounds_to.
  assert (H1 : Qleb v (round_hi m e) = false) by now apply Qleb_false.
  assert (H2 : Qltb v (round_hi m e) = false) by (apply Qltb_false; now apply Qlt_le_weak).
  rewrite H1, H2, !andb_false_r. now destruct (Z.even (Z.pos m)).
Qed.

Lemma rounds_to_inside : forall (m : positive) (e : Z) (v : Q),
  (round_lo m e < v)%Q -> (v < round_hi m e)%Q -> rounds_to m e v = true.
Proof.
  intros m e v Hlo Hhi. unfold rounds_to.
  assert (H1 : Qleb (round_lo m e) v = true) by (apply Qleb_true; now apply Qlt_le_weak).
  assert (H2 : Qltb (round_lo m e) v = true) by now apply Qltb_true.
  assert (H3 : Qleb v (round_hi m e) = true) by (apply Qleb_true; now apply Qlt_le_weak).
  assert (H4 : Qltb v (round_hi m e) = true) by now apply Qltb_true.
  rewrite H1, H2, H3, H4. now destruct (Z.even (Z.pos m)).
Qed.

Lemma pow2_nonpos : forall e : Z, e <= 0 -> (pow2 e == / inject_Z (2 ^ (- e)))%Q.
Proof.
  intros e He. destruct (Z.eq_dec e 0) as [E | E].
  - subst e. reflexivity.
  - apply pow2_neg. lia.
Qed.

Lemma pow10_nonneg : forall q : Z, 0 <= q -> (pow10 q == inject_Z (10 ^ q))%Q.
Proof.
  intros q Hq. unfold pow10. rewrite Zpower_Qpower by exact Hq. reflexivity.
Qed.

Lemma inject_Z_pos : forall a : Z, 0 < a -> (0 < inject_Z a)%Q.
Proof. intros a H. change 0%Q with (inject_Z 0). now rewrite <- Zlt_Qlt. Qed.

Lemma digits2_pos_le : forall m : positive, 2 ^ (Z.pos (digits2_pos m) - 1) <= Z.pos m.
Proof.
  induction m as [m IH | m IH |]; cbn [digits2_pos].
  - rewrite Pos2Z.inj_succ.
    replace (Z.succ (Z.pos (digits2_pos m)) - 1) with (1 + (Z.pos (digits2_pos m) - 1)) by lia.
    rewrite Z.pow_add_r by lia. change (2 ^ 1) with 2. lia.
  - rewrite Pos2Z.inj_succ.
    replace (Z.succ (Z.pos (digits2_pos m)) - 1) with (1 + (Z.pos (digits2_pos m) - 1)) by lia.
    rewrite Z.pow_add_r by lia. change (2 ^ 1) with 2. lia.
  - reflexivity.
Qed.

(** A number of the format whose value is an integer below [2^53] has a
    negative or null exponent. *)
Lemma integer_exponent : forall (m : positive) (e n : Z),
  bounded prec emax m e = true ->
  (magnitude m e == inject_Z n)%Q ->
  n < 2 ^ 53 ->
  e <= 0 /\ Z.pos m = n * 2 ^ (- e).
Proof.
  intros m e n Hb Hv Hn.
  assert (He : e <= 0).
  { destruct (Z_le_gt_dec e 0) as [H | H]; [exact H | exfalso].
    unfold bounded in Hb. apply andb_true_iff in Hb. destruct Hb as (Hc & _).
    unfold canonical_mantissa, fexp, emin, prec, emax in Hc. apply Z.eqb_eq in Hc.
    assert (Hd : Z.pos (digits2_pos m) = 53) by lia.
    pose proof (digits2_pos_le m) as Hm. rewrite Hd in Hm.
    unfold magnitude in Hv. rewrite (pow2_nonneg e) in Hv by lia.
    rewrite <- inject_Z_mult, inject_Z_injective in Hv.
    assert (2 <= 2 ^ e).
    { change 2 with (2 ^ 1) at 1. apply Z.pow_le_mono_r; lia. }
    change (2 ^ (53 - 1)) with 4503599627370496 in Hm.
    change (2 ^ 53) with 9007199254740992 in Hn. nia. }
  split; [exact He|].
  unfold magnitude in Hv. rewrite (pow2_nonpos e He) in Hv.
  assert (HP : 0 < 2 ^ (- e)) by (apply Z.pow_pos_nonneg; lia).
  pose proof (inject_Z_pos _ HP) as HPq.
  apply inject_Z_injective. rewrite inject_Z_mult, <- Hv. field.
  intro H0. rewrite H0 in HPq. discriminate.
Qed.

Section Integer.

Variables (m : positive) (e n : Z).
Hypothesis exponent : e <= 0.
Hypothesis mantissa : Z.pos m = n * 2 ^ (- e).

Let P : Z := 2 ^ (- e).

Lemma P_pos : 0 < P.
Proof. unfold P. apply Z.pow_pos_nonneg; lia. Qed.

Lemma magnitude_integer : (magnitude m e == inject_Z n)%Q.
Proof.
  unfold magnitude. rewrite (pow2_nonpos e exponent), mantissa, inject_Z_mult.
  pose proof (inject_Z_pos _ P_pos) as HPq. fold P. field.
  intro H0. rewrite H0 in HPq. discriminate.
Qed.

Lemma round_hi_integer : (round_hi m e == inject_Z (2 * n * P + 1) / inject_Z (2 * P))%Q.
Proof.
  unfold round_hi. rewrite (pow2_nonpos (e - 1)) by lia.
  replace (- (e - 1)) with (1 + - e) by lia.
  rewrite Z.pow_add_r by lia. change (2 ^ 1) with 2. fold P.
  rewrite mantissa. fold P. replace (2 * (n * P) + 1) with (2 * n * P + 1) by ring.
  reflexivity.
Qed.

Lemma above_round_hi : forall V : Z, n + 1 <= V -> (round_hi m e < inject_Z V)%Q.
Proof.
  intros V HV. rewrite round_hi_integer. pose proof P_pos as HP.
  apply Qlt_shift_div_r; [apply inject_Z_pos; lia|].
  rewrite <- inject_Z_mult, <- Zlt_Qlt. nia.
Qed.

Lemma below_round_hi : (inject_Z n < round_hi m e)%Q.
Proof.
  rewrite round_hi_integer. pose proof P_pos as HP.
  apply Qlt_shift_div_l; [apply inject_Z_pos; lia|].
  rewrite <- inject_Z_mult, <- Zlt_Qlt. nia.
Qed.

Lemma round_lo_integer :
  (round_lo m e == inject_Z (2 * n * P - 1) / inject_Z (2 * P))%Q \/
  (round_lo m e == inject_Z (4 * n * P - 1) / inject_Z (4 * P))%Q.
Proof.
  unfold round_lo.
  destruct ((Z.pos m =? 2 ^ (prec - 1)) && (emin prec emax <? e)).
  - right. rewrite (pow2_nonpos (e - 2)) by lia.
    replace (- (e - 2)) with (2 + - e) by lia.
    rewrite Z.pow_add_r by lia. change (2 ^ 2) with 4. fold P.
    rewrite mantissa. fold P. replace (4 * (n * P) - 1) with (4 * n * P - 1) by ring.
    reflexivity.
  - left. rewrite (pow2_nonpos (e - 1)) by lia.
    replace (- (e - 1)) with (1 + - e) by lia.
    rewrite Z.pow_add_r by lia. change (2 ^ 1) with 2. fold P.
    rewrite mantissa. fold P. replace (2 * (n * P) - 1) with (2 * n * P - 1) by ring.
    reflexivity.
Qed.

Lemma below_round_lo : forall V : Z, V <= n - 1 -> (inject_Z V < round_lo m e)%Q.
Proof.
  intros V HV. pose proof P_pos as HP.
  destruct round_lo_integer as [E | E]; rewrite E;
    (apply Qlt_shift_div_l; [apply inject_Z_pos; lia|]);
    rewrite <- inject_Z_mult, <- Zlt_Qlt; nia.
Qed.

Lemma above_round_lo : (round_lo m e < inject_Z n)%Q.
Proof.
  pose proof P_pos as HP.
  destruct round_lo_integer as [E | E]; rewrite E;
    (apply Qlt_shift_div_r; [apply inject_Z_pos; lia|]);
    rewrite <- inject_Z_mult, <- Zlt_Qlt; nia.
Qed.

(** Of the integers, only [n] rounds to the number. *)
Lemma rounds_to_integer : forall V : Z,
  rounds_to m e (inject_Z V) = (V =? n).
Proof.
  intros V. destruct (Z.eqb_spec V n) as [E | E].
  - subst V. apply rounds_to_inside; [apply above_round_lo | apply below_round_hi].
  - destruct (Z_lt_ge_dec V n).
    + apply rounds_to_below, below_round_lo. lia.
    + apply rounds_to_above, above_round_hi. lia.
Qed.

(** With [q] digits dropped: a candidate when [n] ends in [q] zeros, and
    none otherwise. *)
Lemma candidate_integer : forall D k : Z,
  k <= D ->
  candidate m e D k =
    if n mod 10 ^ (D - k) =? 0 then Some (n / 10 ^ (D - k), D) else None.
Proof.
  intros D k Hk. unfold candidate. cbv zeta.
  set (q := D - k). set (T := 10 ^ q).
  assert (HT : 0 < T) by (unfold T; apply Z.pow_pos_nonneg; unfold q; lia).
  assert (Hfloor : Qfloor (magnitude m e / pow10 q) = n / T).
  { rewrite magnitude_integer, (pow10_nonneg q) by (unfold q; lia).
    fold T. symmetry. apply Zdiv_Qdiv. }
  rewrite Hfloor.
  assert (Hv : forall a : Z, (inject_Z a * pow10 q == inject_Z (a * T))%Q).
  { intros a. rewrite (pow10_nonneg q) by (unfold q; lia). fold T.
    now rewrite inject_Z_mult. }
  rewrite (rounds_to_comp m e _ _ (Hv (n / T))), (rounds_to_comp m e _ _ (Hv (n / T + 1))).
  rewrite !rounds_to_integer.
  assert (Hdm : n = T * (n / T) + n mod T) by (apply Z.div_mod; lia).
  pose proof (Z.mod_pos_bound n T HT) as Hmod.
  assert (Hhi : ((n / T + 1) * T =? n) = false) by (apply Z.eqb_neq; nia).
  rewrite Hhi.
  destruct (Z.eqb_spec (n mod T) 0) as [E | E].
  - assert (Hlo : (n / T * T =? n) = true) by (apply Z.eqb_eq; nia).
    rewrite Hlo. reflexivity.
  - assert (Hlo : (n / T * T =? n) = false) by (apply Z.eqb_neq; nia).
    rewrite Hlo. reflexivity.
Qed.

Lemma decimal_exponent_integer : forall (D : Z) (fuel : nat) (j : Z),
  0 < D -> 10 ^ (D - 1) <= n < 10 ^ D ->
  j <= D -> D - j < Z.of_nat fuel ->
  decimal_exponent fuel (magnitude m e) j = D.
Proof.
  intros D fuel. induction fuel as [|fuel IH]; intros j HD Hdig Hj Hfuel; [lia|].
  cbn [decimal_exponent].
  destruct (Z.eq_dec j D) as [E | E].
  - subst j.
    assert (H : Qltb (magnitude m e) (pow10 D) = true).
    { apply Qltb_true. rewrite magnitude_integer, (pow10_nonneg D) by lia.
      rewrite <- Zlt_Qlt. apply Hdig. }
    rewrite H. reflexivity.
  - assert (H : Qltb (magnitude m e) (pow10 j) = false).
    { apply Qltb_false. rewrite magnitude_integer.
      apply Qle_trans with (pow10 (D - 1)).
      - unfold pow10. apply Qpower_le_compat_l; [lia | discriminate].
      - rewrite (pow10_nonneg (D - 1)) by lia.
        rewrite <- Zle_Qle. apply Hdig. }
    rewrite H. apply IH; try assumption; lia.
Qed.

Lemma shortest_integer : forall (D z s : Z) (fuel : nat) (k : Z),
  0 <= z ->
  (forall q, z < q -> n mod 10 ^ q <> 0) ->
  n mod 10 ^ z = 0 -> n / 10 ^ z = s ->
  k <= D - z -> D - z - k < Z.of_nat fuel ->
  shortest fuel m e D k = (s, D - z, D).
Proof.
  intros D z s fuel. induction fuel as [|fuel IH]; intros k Hz Hshort H1 H2 Hk Hfuel; [lia|].
  cbn [shortest]. rewrite candidate_integer by lia.
  destruct (Z.eq_dec k (D - z)) as [E | E].
  - subst k. replace (D - (D - z)) with z by lia.
    rewrite H1, H2. reflexivity.
  - assert (H : n mod 10 ^ (D - k) <> 0) by (apply Hshort; lia).
    apply Z.eqb_neq in H. rewrite H. apply IH; try assumption; lia.
Qed.

End Integer.

(** *** The digits and the trailing zeros of an integer *)

Lemma digits_pos : forall n D : Z, 0 < n -> n < 10 ^ D -> 0 < D.
Proof.
  intros n D Hn Hlt.
  destruct (Z_lt_ge_dec 0 D) as [H | H]; [exact H | exfalso].
  destruct (Z.eq_dec D 0) as [E | E].
  - subst D. change (10 ^ 0) with 1 in Hlt. lia.
  - rewrite Z.pow_neg_r in Hlt by lia. lia.
Qed.

Lemma significand_pos : forall n z s : Z, 0 < n -> 0 <= z -> n = s * 10 ^ z -> 0 < s.
Proof.
  intros n z s Hn Hz Hs.
  assert (0 < 10 ^ z) by (apply Z.pow_pos_nonneg; lia).
  rewrite Hs in Hn. nia.
Qed.

Lemma zeros_below_digits : forall n D z s : Z,
  0 < n -> n < 10 ^ D -> 0 <= z -> n = s * 10 ^ z -> z < D.
Proof.
  intros n D z s Hn Hlt Hz Hs.
  pose proof (significand_pos n z s Hn Hz Hs) as Hspos.
  pose proof (digits_pos n D Hn Hlt) as HD.
  assert (Hp : 0 < 10 ^ z) by (apply Z.pow_pos_nonneg; lia).
  assert (H : 10 ^ z < 10 ^ D) by (rewrite Hs in Hlt; nia).
  apply Z.pow_lt_mono_r_iff in H; lia.
Qed.

Lemma no_shorter : forall n z s q : Z,
  0 <= z -> n = s * 10 ^ z -> s mod 10 <> 0 -> z < q -> n mod 10 ^ q <> 0.
Proof.
  intros n z s q Hz Hs Hl Hq H.
  assert (Hq0 : 0 < 10 ^ q) by (apply Z.pow_pos_nonneg; lia).
  apply Z.mod_divide in H; [|lia].
  assert (Hd : (10 ^ (z + 1) | n)).
  { apply Z.divide_trans with (10 ^ q); [|exact H].
    exists (10 ^ (q - (z + 1))). rewrite <- Z.pow_add_r by lia. f_equal. lia. }
  destruct Hd as (c & Hc).
  assert (Hp : 0 < 10 ^ z) by (apply Z.pow_pos_nonneg; lia).
  rewrite Z.pow_add_r in Hc by lia. change (10 ^ 1) with 10 in Hc.
  assert (E : s = c * 10) by (rewrite Hs in Hc; nia).
  apply Hl. rewrite E. apply Z.mod_mul. lia.
Qed.

Lemma exact_at_zeros : forall n z s : Z,
  0 <= z -> n = s * 10 ^ z -> n mod 10 ^ z = 0 /\ n / 10 ^ z = s.
Proof.
  intros n z s Hz Hs.
  assert (Hp : 0 < 10 ^ z) by (apply Z.pow_pos_nonneg; lia).
  rewrite Hs. split; [apply Z.mod_mul | apply Z.div_mul]; lia.
Qed.

Lemma decimal_length : forall (k : nat) (n : Z),
  0 < n < 10 ^ Z.of_nat k ->
  exists D : Z, 0 < D <= Z.of_nat k /\ 10 ^ (D - 1) <= n < 10 ^ D.
Proof.
  induction k as [|k IH]; intros n Hn.
  - change (10 ^ Z.of_nat 0) with 1 in Hn. lia.
  - destruct (Z_lt_ge_dec n (10 ^ Z.of_nat k)) as [H | H].
    + destruct (IH n) as (D & HD & Hb); [lia|]. exists D. split; [lia | exact Hb].
    + exists (Z.of_nat (S k)). split; [lia|].
      replace (Z.of_nat (S k) - 1) with (Z.of_nat k) by lia. lia.
Qed.

Lemma trailing_zeros : forall (k : nat) (n : Z),
  0 < n < 10 ^ Z.of_nat k ->
  exists z s : Z, 0 <= z /\ n = s * 10 ^ z /\ s mod 10 <> 0.
Proof.
  induction k as [|k IH]; intros n Hn.
  - change (10 ^ Z.of_nat 0) with 1 in Hn. lia.
  - destruct (Z.eq_dec (n mod 10) 0) as [E | E].
    + assert (Hdm : n = 10 * (n / 10) + n mod 10) by (apply Z.div_mod; lia).
      rewrite Nat2Z.inj_succ, Z.pow_succ_r in Hn by lia.
      destruct (IH (n / 10)) as (z & s & Hz & Hs & Hl); [lia|].
      exists (z + 1), s. split; [lia|]. split; [|exact Hl].
      rewrite Z.pow_add_r by lia. change (10 ^ 1) with 10. lia.
    + exists 0, n. split; [lia|]. split; [|exact E].
      change (10 ^ 0) with 1. lia.
Qed.

(** *** Decimal digits *)

Lemma of_uint_acc_snoc : forall (d : Decimal.uint) (acc : positive),
  Pos.of_uint_acc (snoc_zero d) acc = (10 * Pos.of_uint_acc d acc)%positive.
Proof.
  induction d; intros acc; cbn [snoc_zero Pos.of_uint_acc]; try apply IHd; reflexivity.
Qed.

Lemma of_uint_snoc : forall d : Decimal.uint,
  N.of_uint (snoc_zero d) = (10 * N.of_uint d)%N.
Proof.
  unfold N.of_uint.
  induction d; cbn [snoc_zero Pos.of_uint]; try (rewrite of_uint_acc_snoc; reflexivity).
  - reflexivity.
  - exact IHd.
Qed.

Lemma string_of_snoc : forall d : Decimal.uint,
  NilEmpty.string_of_uint (snoc_zero d) = NilEmpty.string_of_uint d ++ "0".
Proof.
  induction d; cbn [snoc_zero NilEmpty.string_of_uint append]; try rewrite IHd; reflexivity.
Qed.

Lemma to_uint_normal : forall k : N, Decimal.unorm (N.to_uint k) = N.to_uint k.
Proof.
  intros k. rewrite <- (DecimalN.Unsigned.of_to k) at 2.
  now rewrite DecimalN.Unsigned.to_of.
Qed.

Lemma unorm_snoc : forall d : Decimal.uint,
  Decimal.unorm d = d -> d <> Decimal.D0 Decimal.Nil ->
  Decimal.unorm (snoc_zero d) = snoc_zero d.
Proof.
  intros d Hn Hz. destruct d; try reflexivity.
  exfalso. destruct (Decimal.uint_eq_dec d Decimal.Nil) as [E | E].
  - subst d. now apply Hz.
  - pose proof (nb_digits_unorm d E) as H.
    rewrite unorm_D0 in Hn. rewrite Hn in H. cbn [Decimal.nb_digits] in H. lia.
Qed.

Lemma digits_of_times_ten : forall k : Z,
  0 < k -> digits_of (k * 10) = digits_of k ++ "0".
Proof.
  intros k Hk. rewrite !digits_of_uint.
  set (d := N.to_uint (Z.to_N k)).
  assert (Hv : Z.to_N (k * 10) = N.of_uint (snoc_zero d)).
  { rewrite of_uint_snoc. unfold d. rewrite DecimalN.Unsigned.of_to.
    rewrite Z2N.inj_mul by lia. apply N.mul_comm. }
  rewrite Hv, DecimalN.Unsigned.to_of, unorm_snoc.
  - apply string_of_snoc.
  - apply to_uint_normal.
  - unfold d. intros H.
    assert (E : N.of_uint (N.to_uint (Z.to_N k)) = 0%N) by now rewrite H.
    rewrite DecimalN.Unsigned.of_to in E. lia.
Qed.

Lemma append_empty : forall s : string, s ++ "" = s.
Proof. induction s as [|c s IH]; cbn [append]; [reflexivity | now rewrite IH]. Qed.

Lemma append_assoc : forall a b c : string, (a ++ b) ++ c = a ++ (b ++ c).
Proof. induction a as [|x a IH]; intros b c; cbn [append]; [reflexivity | now rewrite IH]. Qed.

Lemma digits_of_zeros : forall (z : nat) (k : Z),
  0 < k -> digits_of (k * 10 ^ Z.of_nat z) = digits_of k ++ repeat_char "0" z.
Proof.
  induction z as [|z IH]; intros k Hk.
  - cbn [repeat_char]. change (10 ^ Z.of_nat 0) with 1. rewrite Z.mul_1_r.
    now rewrite append_empty.
  - rewrite Nat2Z.inj_succ, Z.pow_succ_r by lia.
    replace (k * (10 * 10 ^ Z.of_nat z)) with (k * 10 * 10 ^ Z.of_nat z) by ring.
    rewrite IH by lia. rewrite digits_of_times_ten by exact Hk.
    rewrite append_assoc. reflexivity.
Qed.

(** An integer below [2^53] is printed as its decimal digits. *)
Lemma toString_integer : forall (x : number) (n : Z),
  is_integer x n -> Number_toString x = digits_of n.
Proof.
  intros x n H. destruct x as [sg | sg | | sg m e]; cbn [is_integer] in H; try contradiction.
  - subst n. reflexivity.
  - destruct sg; [contradiction|]. destruct H as (Hb & Hv & Hn).
    destruct (integer_exponent m e n Hb Hv (proj2 Hn)) as (He & Hm).
    assert (Hn16 : 0 < n < 10 ^ Z.of_nat 16).
    { change (2 ^ 53) with 9007199254740992 in Hn.
      change (10 ^ Z.of_nat 16) with 10000000000000000. lia. }
    destruct (decimal_length 16 n Hn16) as (D & HD & Hdig).
    destruct (trailing_zeros 16 n Hn16) as (z & s & Hz & Hs & Hl).
    pose proof (zeros_below_digits n D z s (proj1 Hn) (proj2 Hdig) Hz Hs) as HzD.
    pose proof (significand_pos n z s (proj1 Hn) Hz Hs) as Hspos.
    destruct (exact_at_zeros n z s Hz Hs) as (H1 & H2).
    unfold Number_toString.
    rewrite (decimal_exponent_integer m e n He Hm D 640 (-324)) by (try assumption; lia).
    rewrite (shortest_integer m e n He Hm D z s 17 1 Hz
               (fun q => no_shorter n z s q Hz Hs Hl) H1 H2) by lia.
    cbn [sign_text append]. unfold format_digits.
    assert (Hc : (D - z <=? D) && (D <=? 21) = true).
    { apply andb_true_iff. split; apply Z.leb_le; lia. }
    rewrite Hc. replace (D - (D - z)) with z by lia.
    rewrite Hs.
    replace (10 ^ z) with (10 ^ Z.of_nat (Z.to_nat z)) by (now rewrite Z2Nat.id).
    symmetry. apply digits_of_zeros. exact Hspos.
Qed.

(** ** What [toFixed] prints *)

Lemma parse_fixed_minus : forall (t : string) (f : nat),
  starts_with_digit t = true ->
  parse_fixed ("-" ++ t) f = parse_fixed t f.
Proof.
  intros t f H. destruct (digit_not_minus t H) as (E & _).
  unfold parse_fixed. rewrite E. reflexivity.
Qed.

Lemma magnitude_nonneg : forall (m : positive) (e : Z), (0 <= magnitude m e)%Q.
Proof.
  intros m e. unfold magnitude. apply Qmult_le_0_compat; [discriminate|].
  unfold pow2. apply Qpower_0_le. discriminate.
Qed.

Lemma number_value_abs : forall (s : bool) (m : positive) (e : Z),
  (Qabs (number_value (S754_finite s m e)) == magnitude m e)%Q.
Proof.
  intros s m e. pose proof (magnitude_nonneg m e) as H.
  destruct s; cbn [number_value].
  - rewrite Qabs_opp. now apply Qabs_pos.
  - now apply Qabs_pos.
Qed.

(** Below [10^21], [toFixed] prints the number rounded to the digits asked. *)
Lemma toFixed_rounded : forall (x : number) (f : nat),
  fixed_range x = true -> shows_rounded (toFixed x f) f x.
Proof.
  intros x f Hr. destruct x as [s | s | | s m e]; try discriminate.
  - (* zero *)
    destruct (fixed_digits_parse 0 f (Z.le_refl 0)) as (Hs & Hp).
    destruct (digit_not_minus _ Hs) as (_ & Hm).
    split; [exact Hm|]. exists 0. split; [exact Hp|].
    cbn [number_value]. setoid_replace (inject_Z 0 - Qabs 0 * pow10 (Z.of_nat f))%Q with 0%Q
      by (change (Qabs 0) with 0%Q; change (inject_Z 0) with 0%Q; ring).
    discriminate.
  - (* finite *)
    unfold toFixed. rewrite Hr.
    set (n := round_half_up m e f).
    destruct (fixed_digits_parse n f (round_half_up_nonneg m e f)) as (Hs & Hp).
    destruct (digit_not_minus _ Hs) as (_ & Hm).
    split.
    + destruct s; [reflexivity | exact Hm].
    + exists n. split.
      * destruct s; cbn [sign_text]; [now rewrite parse_fixed_minus | exact Hp].
      * rewrite number_value_abs. apply round_half_up_nearest.
Qed.

Lemma unparsed_not_shown : forall (t : string) (f : nat) (x : number),
  parse_fixed t f = None -> ~ shows_rounded t f x.
Proof.
  intros t f x E (_ & n & Hp & _). rewrite E in Hp. discriminate.
Qed.

(** ** Trees *)

Lemma subtrees_self : forall n : Node, In n (subtrees n).
Proof. intros n. destruct n; left; reflexivity. Qed.

Lemma subtrees_child :
  forall (tag : string) (props : list (string * string)) (children : list Node)
         (c x : Node),
  In c children -> In x (subtrees c) -> In x (subtrees (Element tag props children)).
Proof.
  intros tag props children c x Hc Hx. cbn [subtrees]. right.
  apply in_flat_map. exists c. split; assumption.
Qed.

Lemma leaf_texts_texts : forall l : list string,
  flat_map leaf_texts (map Text l) = l.
Proof. induction l as [|s l IH]; cbn; [reflexivity | now rewrite IH]. Qed.

Lemma image_sources_texts : forall l : list string,
  flat_map image_sources (map Text l) = [].
Proof. induction l as [|s l IH]; cbn; [reflexivity | exact IH]. Qed.

Lemma elements_texts : forall (name : string) (l : list string),
  flat_map (elements name) (map Text l) = [].
Proof. induction l as [|s l IH]; cbn; [reflexivity | exact IH]. Qed.

(** ** One entry of the detection list *)

Lemma leaf_texts_entry :
  forall (key : list (string * string)) (id class : list string)
         (confidence x1 y1 x2 y2 : string),
  leaf_texts (detection_entry key id class confidence x1 y1 x2 y2) =
    ([ "#" ] ++ id ++ [ " - " ] ++ class ++
     [ confidence; "%"; "Box: ["; x1; ", "; y1; ", "; x2; ", "; y2; "]" ])%list.
Proof.
  intros. unfold detection_entry. cbn [leaf_texts flat_map].
  rewrite !flat_map_app, !leaf_texts_texts. cbn [flat_map leaf_texts app].
  repeat (rewrite <- List.app_assoc; cbn [app]). reflexivity.
Qed.

Lemma image_sources_entry :
  forall (key : list (string * string)) (id class : list string)
         (confidence x1 y1 x2 y2 : string),
  image_sources (detection_entry key id class confidence x1 y1 x2 y2) = [].
Proof.
  intros. unfold detection_entry.
  cbn [image_sources flat_map String.eqb Ascii.eqb Bool.eqb].
  rewrite !flat_map_app.
  cbn [image_sources flat_map String.eqb Ascii.eqb Bool.eqb app].
  rewrite !image_sources_texts. reflexivity.
Qed.

Lemma elements_entry :
  forall (key : list (string * string)) (id class : list string)
         (confidence x1 y1 x2 y2 : string),
  elements "button" (detection_entry key id class confidence x1 y1 x2 y2) = [].
Proof.
  intros. unfold detection_entry.
  cbn [elements flat_map String.eqb Ascii.eqb Bool.eqb].
  rewrite !flat_map_app.
  cbn [elements flat_map String.eqb Ascii.eqb Bool.eqb app].
  rewrite !elements_texts. reflexivity.
Qed.

Lemma and_then_ok_inr :
  forall (A B : Type) (o : js_error + A) (f : A -> js_error + B) (b : B),
  and_then_ok o f = inr b -> exists a, o = inr a /\ f a = inr b.
Proof.
  intros A B o f b H. destruct o as [e | a]; [discriminate|]. now exists a.
Qed.

Lemma and_then_some :
  forall (A B : Type) (o : option A) (f : A -> option B) (b : B),
  and_then o f = Some b -> exists a, o = Some a /\ f a = Some b.
Proof.
  intros A B o f b H. destruct o as [a|]; [|discriminate]. now exists a.
Qed.

Tactic Notation "step_ok" hyp(H) ident(a) ident(Ha) :=
  apply and_then_ok_inr in H; destruct H as (a & Ha & H); cbv beta in H.

Tactic Notation "step_some" hyp(H) ident(a) ident(Ha) :=
  apply and_then_some in H; destruct H as (a & Ha & H); cbv beta in H.

Lemma call_toFixed_inr : forall (v : value) (callee : string) (digits : nat) (t : string),
  call_toFixed v callee digits = inr t ->
  exists x, v = VNum x /\ t = toFixed x digits.
Proof.
  intros v callee digits t H.
  destruct v as [| | b | x | s | items | fields]; cbn in H; try discriminate.
  injection H as H. now exists x.
Qed.

Lemma percent_of_some : forall (v : value) (digits : nat) (t : string),
  percent_of v digits = Some t ->
  exists x, v = VNum x /\ t = percent x digits.
Proof.
  intros v digits t H.
  destruct v as [| | b | x | s | items | fields]; cbn in H; try discriminate.
  injection H as H. now exists x.
Qed.

(** The node of an entry shows the detection it was evaluated from. *)
Lemma entry_node_shows : forall (item : value) (e : Entry) (node : Node),
  evaluate_entry item = inr e ->
  entry_node e = inr (Some node) ->
  entry_shows item node /\
  image_sources node = [] /\
  elements "button" node = [].
Proof.
  intros item e node He Hn. unfold evaluate_entry in He.
  step_ok He idv Hid. step_ok He cls Hclass. step_ok He confidence Hconf.
  step_ok He bbox Hbbox.
  step_ok He v1 H1. step_ok He t1 Ht1. step_ok He v2 H2. step_ok He t2 Ht2.
  step_ok He v3 H3. step_ok He t3 Ht3. step_ok He v4 H4. step_ok He t4 Ht4.
  injection He as He. subst e.
  apply call_toFixed_inr in Ht1, Ht2, Ht3, Ht4.
  destruct Ht1 as (x1 & -> & ->). destruct Ht2 as (y1 & -> & ->).
  destruct Ht3 as (x2 & -> & ->). destruct Ht4 as (y2 & -> & ->).
  unfold entry_node in Hn. cbn [entry_id entry_class entry_confidence
                                entry_x1 entry_y1 entry_x2 entry_y2] in Hn.
  step_ok Hn id_texts Hidt. step_ok Hn class_texts Hclt.
  injection Hn as Hn.
  step_some Hn key Hkey. step_some Hn conf_text Hct.
  injection Hn as Hn. subst node.
  apply percent_of_some in Hct. destruct Hct as (c & -> & ->).
  split; [|split; [apply image_sources_entry | apply elements_entry]].
  exists idv, cls, bbox, c, x1, y1, x2, y2, id_texts, class_texts.
  repeat (split; [assumption|]).
  split; [apply leaf_texts_entry|].
  split.
  { intros x n E Hint. subst idv. cbn in Hidt. injection Hidt as Hidt. subst id_texts.
    now rewrite (toString_integer x n Hint). }
  split.
  { intros s E Hs. subst cls. cbn in Hclt. injection Hclt as Hclt. subst class_texts.
    unfold text_of. destruct (String.eqb_spec s "") as [E | _]; [contradiction | reflexivity]. }
  split; [|split; [|split; [|split]]]; intros Hr; unfold percent;
    now apply toFixed_rounded.
Qed.

Lemma entry_nodes_show : forall (items : list value) (es : list Entry) (nodes : list Node),
  evaluate_entries items = inr es ->
  entry_nodes es = inr (Some nodes) ->
  Forall2 entry_shows items nodes /\
  flat_map image_sources nodes = [] /\
  flat_map (elements "button") nodes = [].
Proof.
  induction items as [|item items IH]; intros es nodes He Hn.
  - cbn in He. injection He as He. subst es. cbn in Hn. injection Hn as Hn. subst nodes.
    repeat split. constructor.
  - cbn [evaluate_entries] in He. step_ok He e Hentry. step_ok He more Hmore.
    injection He as He. subst es.
    cbn [entry_nodes] in Hn. step_ok Hn node Hnode. step_ok Hn rest Hrest.
    injection Hn as Hn. step_some Hn node' E1. subst node. step_some Hn rest' E2. subst rest.
    injection Hn as Hn. subst nodes.
    destruct (entry_node_shows item e node' Hentry Hnode) as (Hs & Hi & Hb).
    destruct (IH more rest' Hmore Hrest) as (IHs & IHi & IHb).
    split; [constructor; assumption|].
    cbn [flat_map]. rewrite Hi, Hb, IHi, IHb. split; reflexivity.
Qed.

(** ** The results panel *)

Lemma leaf_texts_panel :
  forall (total : list string) (average image count : string) (entries : list Node),
  leaf_texts (results_panel_of total average image count entries) =
    ([ "Total Detections" ] ++ total ++
     [ "Avg Confidence"; average; "%"; "Annotated Image";
       "Detection Details ("; count; ")" ] ++ flat_map leaf_texts entries)%list.
Proof.
  intros. unfold results_panel_of. cbn [leaf_texts flat_map app].
  rewrite leaf_texts_texts, ?List.app_nil_r.
  repeat (rewrite <- List.app_assoc; cbn [app]). reflexivity.
Qed.

Lemma image_sources_panel :
  forall (total : list string) (average image count : string) (entries : list Node),
  flat_map image_sources entries = [] ->
  image_sources (results_panel_of total average image count entries) = [image].
Proof.
  intros total average image count entries H. unfold results_panel_of.
  cbn [image_sources flat_map String.eqb Ascii.eqb Bool.eqb app prop_of filter map fst snd].
  rewrite image_sources_texts, H. reflexivity.
Qed.

Lemma elements_panel :
  forall (total : list string) (average image count : string) (entries : list Node),
  flat_map (elements "button") entries = [] ->
  elements "button" (results_panel_of total average image count entries) = [].
Proof.
  intros total average image count entries H. unfold results_panel_of.
  cbn [elements flat_map String.eqb Ascii.eqb Bool.eqb app].
  rewrite elements_texts, H. reflexivity.
Qed.

(** What a panel that renders was evaluated from. *)
Lemma panel_node_shows : forall (results : value) (p : Panel) (panel : Node),
  evaluate_panel results = inr p ->
  panel_node p = inr (Some panel) ->
  exists (stats total : value) (average : number) (image : string) (items : list value)
         (total_texts : list string) (entries : list Node),
    get_property results "detection_stats" = inr stats /\
    get_property stats "total_count" = inr total /\
    get_property stats "average_confidence" = inr (VNum average) /\
    get_property results "annotated_image" = inr (VStr image) /\
    get_property results "detections" = inr (VArr items) /\
    child_texts total = inr total_texts /\
    panel = results_panel_of total_texts (percent average 1) image
              (digits_of (Z.of_nat (List.length items))) entries /\
    Forall2 entry_shows items entries /\
    flat_map image_sources entries = [] /\
    flat_map (elements "button") entries = [].
Proof.
  intros results p panel He Hn. unfold evaluate_panel in He.
  step_ok He stats Hstats. step_ok He total Htotal. step_ok He average Havg.
  step_ok He image Himage. step_ok He detections Hdet.
  destruct detections as [| | b | x | s | items | fields];
    try (cbn in He; discriminate).
  step_ok He es Hes. injection He as He. subst p.
  unfold panel_node in Hn.
  cbn [panel_total panel_average panel_image panel_count panel_entries] in Hn.
  step_ok Hn total_texts Htt. step_ok Hn nodes Hnodes. injection Hn as Hn.
  step_some Hn avg_text Hat. step_some Hn src Hsrc. step_some Hn entries E. subst nodes.
  injection Hn as Hn. subst panel.
  apply percent_of_some in Hat. destruct Hat as (a & -> & ->).
  destruct image as [| | b | x | s | l | fields]; try discriminate Hsrc.
  injection Hsrc as Hsrc. subst src.
  destruct (entry_nodes_show items es entries Hes Hnodes) as (Hs & Hi & Hb).
  exists stats, total, a, s, items, total_texts, entries.
  repeat (split; [assumption|]). split; [reflexivity|].
  repeat split; assumption.
Qed.

(** ** The page *)

Lemma page_left : forall (left right x : Node),
  In x (subtrees left) -> In x (subtrees (page left right)).
Proof.
  intros left right x H. unfold page.
  eapply subtrees_child; [left; reflexivity|].
  eapply subtrees_child; [right; left; reflexivity|].
  eapply subtrees_child; [left; reflexivity|].
  exact H.
Qed.

Lemma page_right : forall (left right x : Node),
  In x (subtrees right) -> In x (subtrees (page left right)).
Proof.
  intros left right x H. unfold page.
  eapply subtrees_child; [left; reflexivity|].
  eapply subtrees_child; [right; left; reflexivity|].
  eapply subtrees_child; [right; left; reflexivity|].
  exact H.
Qed.

(** A render that gives a tree gives the two columns: the upload panel with
    what the error renders to, and the placeholder or the results panel. *)
Lemma render_Home_rendered : forall (st : State) (tree : Node),
  render_Home st = Rendered tree ->
  exists (error_texts : list string) (right : list Node),
    child_texts (error st) = inr error_texts /\
    tree = page (upload_panel_of st
                   (if truthy (error st)
                    then [ error_block_of (map Text error_texts) ]
                    else map Text error_texts))
                (results_column_of right) /\
    ((truthy (results st) = false /\
      exists texts, child_texts (results st) = inr texts /\
                    right = empty_placeholder :: map Text texts) \/
     (truthy (results st) = true /\
      exists p panel, evaluate_panel (results st) = inr p /\
                      panel_node p = inr (Some panel) /\
                      right = [ panel ])).
Proof.
  intros st tree H. unfold render_Home in H.
  destruct (truthy (results st)) eqn:Ht.
  - destruct (evaluate_panel (results st)) as [e | p] eqn:Hp; [discriminate|].
    cbn [and_then_ok] in H. unfold error_part in H.
    destruct (child_texts (error st)) as [e | error_texts]; [discriminate|].
    cbn [and_then_ok] in H.
    destruct (panel_node p) as [e | [panel|]] eqn:Hn; try discriminate.
    injection H as H. subst tree.
    exists error_texts, [panel]. split; [reflexivity|]. split; [reflexivity|].
    right. split; [reflexivity|]. now exists p, panel.
  - unfold error_part in H.
    destruct (child_texts (error st)) as [e | error_texts]; [discriminate|].
    cbn [and_then_ok] in H.
    destruct (child_texts (results st)) as [e | texts] eqn:Hc; [discriminate|].
    injection H as H. subst tree.
    exists error_texts, (empty_placeholder :: map Text texts).
    split; [reflexivity|]. split; [reflexivity|].
    left. split; [reflexivity|]. now exists texts.
Qed.



(** Scenario A on the page: "2" detections and "81.0" "%" on average. *)
Example scenario_A_texts :
  leaf_texts (results_panel sample_response) =
  [ "Total Detections"; "2"; "Avg Confidence"; "81.0"; "%"; "Annotated Image";
    "Detection Details ("; "2"; ")";
    "#"; "1"; " - "; "microfilaria"; "87.00"; "%";
    "Box: ["; "10"; ", "; "21"; ", "; "111"; ", "; "220"; "]";
    "#"; "2"; " - "; "microfilaria"; "75.00"; "%";
    "Box: ["; "300"; ", "; "13"; ", "; "400"; ", "; "90"; "]" ].
Proof. vm_compute. reflexivity. Qed.

Example scenario_A_page :
  let st := state (run_events [ChangeFile (Some [sample_file]);
                               ChangeConfidence (decimal_literal 4 1); ClickDetect;
                               FetchSettles 0 (inr (ok_response sample_body));
                               JsonSettles 0] initial_page) in
  option_map leaf_texts (Home st) =
  Some [ "🔬 Microfiliaria Detection System"; "YOLOv8m - Automated Blood Smear Analysis";
         "Upload Image"; "📸"; "sample.jpg"; "Supports: JPG, PNG, JPEG"; "Preview";
         "Confidence Threshold: "; "0.40"; "0.1 (Low)"; "0.9 (High)";
         "🔍 Run Detection"; "Detection Results";
         "Total Detections"; "2"; "Avg Confidence"; "81.0"; "%"; "Annotated Image";
         "Detection Details ("; "2"; ")";
         "#"; "1"; " - "; "microfilaria"; "87.00"; "%";
         "Box: ["; "10"; ", "; "21"; ", "; "111"; ", "; "220"; "]";
         "#"; "2"; " - "; "microfilaria"; "75.00"; "%";
         "Box: ["; "300"; ", "; "13"; ", "; "400"; ", "; "90"; "]";
         "Powered by YOLOv8m | Flask Backend | Next.js Frontend" ].
Proof. vm_compute. reflexivity. Qed.


(** ** The built-ins on known values *)

(** The seventeen positions of the slider, as [toString] sends them. *)
Example slider_values_as_text :
  map (fun k => Number_toString (decimal_literal (10 + 5 * k) 2))
      [0; 1; 2; 3; 4; 5; 6; 7; 8; 9; 10; 11; 12; 13; 14; 15; 16] =
  [ "0.1"; "0.15"; "0.2"; "0.25"; "0.3"; "0.35"; "0.4"; "0.45"; "0.5"; "0.55";
    "0.6"; "0.65"; "0.7"; "0.75"; "0.8"; "0.85"; "0.9" ].
Proof. vm_compute. reflexivity. Qed.

Example toString_values :
  map Number_toString
      [ number_of_Z 2;
        SFadd prec emax (decimal_literal 1 1) (decimal_literal 2 1);
        number_of_Z (10 ^ 20); number_of_Z (10 ^ 21);
        number_of_Z 123456789012345680000;
        decimal_literal 1 6; decimal_literal 1 7;
        S754_finite false 1 (-1074);
        SFopp (decimal_literal 15 1);
        S754_infinity true; S754_nan; S754_zero true ] =
  [ "2"; "0.30000000000000004"; "100000000000000000000"; "1e+21";
    "123456789012345680000"; "0.000001"; "1e-7"; "5e-324"; "-1.5";
    "-Infinity"; "NaN"; "0" ].
Proof. vm_compute. reflexivity. Qed.

Example toFixed_values :
  [ toFixed (decimal_literal 5 1) 0; toFixed (decimal_literal 25 1) 0;
    toFixed (decimal_literal 1005 3) 2; toFixed (SFopp (decimal_literal 4 1)) 0;
    toFixed (SFopp (decimal_literal 1 3)) 1; toFixed (S754_zero true) 2;
    toFixed (number_mul (decimal_literal 57 2) hundred) 1;
    toFixed (number_of_Z (10 ^ 21)) 0; toFixed (S754_infinity false) 2 ] =
  [ "1"; "3"; "1.00"; "-0"; "-0.0"; "0.00"; "57.0"; "1e+21"; "Infinity" ].
Proof. vm_compute. reflexivity. Qed.

(** The integers of the scenario are integers of the format. *)
Example integers_of_the_scenario :
  is_integer (number_of_Z 2) 2 /\ is_integer (number_of_Z 1) 1 /\
  is_integer (number_of_Z 640) 640 /\ is_integer (S754_zero false) 0.
Proof.
  repeat split; try (vm_compute; reflexivity); try (vm_compute; discriminate).
Qed.

(** * The moves of the page *)

(** ** Every step of a consistent page is one of seven moves *)

Lemma response_arrives_page : forall (resp : Response) (f : File) (c : number) (p : Page),
  pending p = [PendingFetch (after_fetch f c)] ->
  step p (FetchSettles 0 (inr resp)) =
  mk_page (state p) (object_urls p) (requests p)
          [PendingJson resp (after_json f c resp)] (history p) (uncaught p).
Proof.
  intros resp f c p Hp. cbn [step]. rewrite Hp. cbn [nth_error].
  rewrite after_fetch_resolved. unfold without_pending. cbn. rewrite Hp. reflexivity.
Qed.

Lemma fetch_rejected_page : forall (e : js_error) (f : File) (c : number) (p : Page),
  pending p = [PendingFetch (after_fetch f c)] ->
  step p (FetchSettles 0 (inl e)) =
  mk_page (apply_op (SetLoading false) (apply_op (SetError (VStr connect_message)) (state p)))
          (object_urls p) (requests p) []
          (SetLoading false :: ConsoleError e :: SetError (VStr connect_message) :: history p)
          (uncaught p).
Proof.
  intros e f c p Hp. cbn [step]. rewrite Hp. cbn [nth_error].
  rewrite after_fetch_rejected. unfold without_pending. cbn. rewrite Hp. reflexivity.
Qed.

Lemma body_settles_page : forall (resp : Response) (f : File) (c : number) (p : Page),
  pending p = [PendingJson resp (after_json f c resp)] ->
  step p (JsonSettles 0) =
  mk_page (fold_right apply_op (state p) (SetLoading false :: settlement_ops (body_json resp)))
          (object_urls p) (requests p) []
          (SetLoading false :: settlement_ops (body_json resp) ++ history p)
          (uncaught p).
Proof.
  intros resp f c p Hp. cbn [step]. rewrite Hp. cbn [nth_error].
  rewrite after_json_settled. unfold without_pending. cbn [pending]. rewrite Hp. reflexivity.
Qed.

Lemma step_transition : forall (p : Page) (ev : Event),
  consistent p -> transition p ev (step p ev).
Proof.
  intros p ev (_ & _ & Hcase).
  destruct ev as [files | x | | i o | i].
  - cbn [step]. destruct (first_file files) as [f|] eqn:Hf.
    + rewrite (run_handleFileSelect_some files f p Hf). now apply T_select.
    + rewrite (run_handleFileSelect_none files p Hf). now apply T_ignored.
  - cbn [step]. rewrite run_handleConfidenceChange. apply T_slide.
  - cbn [step]. destruct (detect_disabled (state p)) eqn:Hd.
    + now apply T_ignored.
    + destruct (detect_enabled _ Hd) as (Hl & f & Hf).
      assert (Hp : pending p = []).
      { destruct Hcase as [Hi | [Hg | Hj]];
          [destruct Hi as (Hp0 & _) | destruct Hg as (Hl0 & _)
           | destruct Hj as (resp & Hl0 & _)]; congruence. }
      rewrite Hf, run_handleDetect_selected, Hp. cbn [app].
      now apply T_dispatch.
  - destruct Hcase as [Hi | [Hg | Hj]].
    + destruct Hi as (Hp & _).
      replace (step p (FetchSettles i o)) with p; [now apply T_ignored|].
      cbn [step]. rewrite Hp. destruct i; reflexivity.
    + destruct Hg as (_ & _ & f & c & Hp). destruct i as [|i].
      * destruct o as [e | resp].
        -- rewrite (fetch_rejected_page e f c p Hp). now apply (T_rejected p e f c).
        -- rewrite (response_arrives_page resp f c p Hp). now apply (T_response p resp f c).
      * replace (step p (FetchSettles (S i) o)) with p; [now apply T_ignored|].
        cbn [step]. rewrite Hp, nth_error_singleton. reflexivity.
    + destruct Hj as (resp & _ & _ & f & c & Hp).
      replace (step p (FetchSettles i o)) with p; [now apply T_ignored|].
      cbn [step]. rewrite Hp.
      destruct i as [|i]; [reflexivity | now rewrite nth_error_singleton].
  - destruct Hcase as [Hi | [Hg | Hj]].
    + destruct Hi as (Hp & _).
      replace (step p (JsonSettles i)) with p; [now apply T_ignored|].
      cbn [step]. rewrite Hp. destruct i; reflexivity.
    + destruct Hg as (_ & _ & f & c & Hp).
      replace (step p (JsonSettles i)) with p; [now apply T_ignored|].
      cbn [step]. rewrite Hp.
      destruct i as [|i]; [reflexivity | now rewrite nth_error_singleton].
    + destruct Hj as (resp & _ & _ & f & c & Hp). destruct i as [|i].
      * rewrite (body_settles_page resp f c p Hp). now apply (T_settled p resp f c).
      * replace (step p (JsonSettles (S i))) with p; [now apply T_ignored|].
        cbn [step]. rewrite Hp, nth_error_singleton. reflexivity.
Qed.

(** An invariant of consistent pages that holds initially holds on every
    page reached. *)
Lemma reachable_invariant : forall (P : Page -> Prop),
  P initial_page ->
  (forall p ev q, consistent p -> P p -> transition p ev q -> P q) ->
  forall evs, P (run_events evs initial_page).
Proof.
  intros P H0 Hstep evs.
  assert (H : forall evs p, consistent p -> P p -> P (run_events evs p)).
  { clear evs. induction evs as [|ev evs IH]; intros p Hc Hp; [exact Hp|].
    cbn [run_events fold_left]. apply IH.
    - now apply step_consistent.
    - apply (Hstep p ev); [exact Hc | exact Hp | now apply step_transition]. }
  apply H; [exact initial_consistent | exact H0].
Qed.

(** ** What the moves leave alone *)

Lemma settlement_frame : forall (o : js_error + value) (st : State),
  let st' := fold_right apply_op st (SetLoading false :: settlement_ops o) in
  selectedFile st' = selectedFile st /\
  previewUrl st' = previewUrl st /\
  confidence st' = confidence st /\
  loading st' = false.
Proof.
  intros o st. unfold settlement_ops.
  destruct o as [e | data]; [repeat split|].
  destruct (get_property data "success") as [e | success]; [repeat split|].
  destruct (truthy success); [repeat split|].
  destruct (get_property data "error") as [e | err]; repeat split.
Qed.

Lemma transition_frame : forall (p q : Page) (ev : Event),
  transition p ev q ->
  object_urls q
    = (object_urls p ++ match chosen_file ev with Some f => [f] | None => [] end)%list /\
  selectedFile (state q)
    = match chosen_file ev with Some f => Some f | None => selectedFile (state p) end /\
  confidence (state q)
    = match slider_of ev with Some x => x | None => confidence (state p) end /\
  uncaught q = uncaught p.
Proof.
  intros p q ev H. destruct H as [ev Hc Hs | files f Hf | x | f Hf Hl Hp | e f c Hp
                                  | resp f c Hp | resp f c Hp].
  - rewrite Hc, Hs, List.app_nil_r. repeat split.
  - cbn [chosen_file slider_of]. rewrite Hf. repeat split.
  - cbn. rewrite List.app_nil_r. repeat split.
  - cbn. rewrite List.app_nil_r. repeat split.
  - cbn. rewrite List.app_nil_r. repeat split.
  - cbn. rewrite List.app_nil_r. repeat split.
  - destruct (settlement_frame (body_json resp) (state p)) as (H1 & _ & H3 & _).
    cbn [chosen_file slider_of object_urls state uncaught].
    rewrite List.app_nil_r. repeat split; assumption.
Qed.

Lemma last_cons : forall (A : Type) (a d : A) (l : list A),
  last (a :: l) d = last l a.
Proof.
  intros A a d l. revert a d. induction l as [|b l IH]; intros a d; [reflexivity|].
  change (last (a :: b :: l) d) with (last (b :: l) d).
  rewrite (IH b d), (IH b a). reflexivity.
Qed.

Lemma run_events_inputs : forall (evs : list Event) (p : Page),
  consistent p ->
  object_urls (run_events evs p) = (object_urls p ++ chosen_files evs)%list /\
  selectedFile (state (run_events evs p))
    = last (map Some (chosen_files evs)) (selectedFile (state p)) /\
  confidence (state (run_events evs p)) = slider_value evs (confidence (state p)).
Proof.
  induction evs as [|ev evs IH]; intros p Hc.
  - cbn. rewrite List.app_nil_r. repeat split.
  - cbn [run_events fold_left chosen_files slider_value].
    destruct (transition_frame p (step p ev) ev (step_transition p ev Hc))
      as (Hu & Hs & Hv & _).
    destruct (IH (step p ev) (step_consistent p ev Hc)) as (IHu & IHs & IHv).
    unfold run_events in *. rewrite IHu, IHs, IHv, Hu, Hs, Hv.
    destruct (chosen_file ev) as [f|]; destruct (slider_of ev) as [x|];
      cbn [map]; rewrite ?last_cons, <- ?List.app_assoc, ?List.app_nil_r;
      repeat split.
Qed.

Lemma blob_url_nonempty : forall n : nat, blob_url n <> "".
Proof. intros n. unfold blob_url. discriminate. Qed.

Lemma preview_invariant : forall evs : list Event,
  let p := run_events evs initial_page in
  resolve_object_url (object_urls p) (previewUrl (state p)) = selectedFile (state p) /\
  (previewUrl (state p) = "" <-> selectedFile (state p) = None).
Proof.
  apply (reachable_invariant
           (fun p => resolve_object_url (object_urls p) (previewUrl (state p))
                       = selectedFile (state p) /\
                     (previewUrl (state p) = "" <-> selectedFile (state p) = None))).
  - split; [reflexivity | split; reflexivity].
  - intros p ev q _ (Hr & Hiff) H.
    destruct H as [ev Hc Hs | files f Hf | x | f Hf Hl Hp | e f c Hp
                   | resp f c Hp | resp f c Hp]; try (split; assumption).
    + cbn [state object_urls previewUrl selectedFile].
      rewrite resolve_blob_url, nth_error_last. split; [reflexivity|].
      split; [intros E; now apply blob_url_nonempty in E | discriminate].
    + destruct (settlement_frame (body_json resp) (state p)) as (H1 & H2 & _).
      cbn [state object_urls]. cbv zeta in H1, H2. rewrite H1, H2.
      split; assumption.
Qed.

Lemma blank_invariant : forall evs : list Event,
  let p := run_events evs initial_page in
  selectedFile (state p) = None -> blank p.
Proof.
  apply (reachable_invariant (fun p => selectedFile (state p) = None -> blank p)).
  - intros _. repeat split.
  - intros p ev q _ IH H.
    destruct H as [ev Hc Hs | files f Hf | x | f Hf Hl Hp | e f c Hp
                   | resp f c Hp | resp f c Hp]; cbn [state selectedFile apply_op].
    + exact IH.
    + discriminate.
    + intros Hn. destruct (IH Hn) as (H1 & H2 & H3 & H4 & H5 & H6 & H7).
      repeat split; assumption.
    + congruence.
    + intros Hn. destruct (IH Hn) as (_ & _ & _ & _ & _ & H6 & _). congruence.
    + intros Hn. destruct (IH Hn) as (_ & _ & _ & _ & _ & H6 & _). congruence.
    + destruct (settlement_frame (body_json resp) (state p)) as (H1 & _).
      cbv zeta in H1. rewrite H1.
      intros Hn. destruct (IH Hn) as (_ & _ & _ & _ & _ & H6 & _). congruence.
Qed.

Lemma logged_app : forall a b : list Op, logged (a ++ b) = (logged a ++ logged b)%list.
Proof. intros a b. unfold logged. apply flat_map_app. Qed.


(** * The requests *)

Lemma number_same_eq : forall a b : number, number_same a b = true -> a = b.
Proof.
  intros a b H.
  destruct a as [s | s | | s m e]; destruct b as [s' | s' | | s' m' e'];
    try discriminate H; cbn [number_same] in H.
  - apply eqb_prop in H. now subst.
  - apply eqb_prop in H. now subst.
  - reflexivity.
  - apply andb_true_iff in H. destruct H as (H & He).
    apply andb_true_iff in H. destruct H as (Hs & Hm).
    apply eqb_prop in Hs. apply Pos.eqb_eq in Hm. apply Z.eqb_eq in He. now subst.
Qed.

(** At every position of the slider, [toString] gives a decimal numeral
    that reads back as the position. *)
Lemma slider_position_text : forall c : number,
  is_slider_position c = true -> reads_back (Number_toString c) c = true.
Proof.
  intros c H. unfold is_slider_position, slider_positions in H. cbn [existsb] in H.
  repeat (apply orb_true_iff in H;
          destruct H as [H | H];
          [apply number_same_eq in H; subst c; vm_compute; reflexivity|]).
  discriminate H.
Qed.

Lemma transition_threshold : forall (p q : Page) (ev : Event),
  slider_event ev = true ->
  transition p ev q ->
  is_slider_position (confidence (state p)) = true /\ Forall carries_threshold (requests p) ->
  is_slider_position (confidence (state q)) = true /\ Forall carries_threshold (requests q).
Proof.
  intros p q ev Hev H (Hc & Hr).
  destruct H as [ev Hc0 Hs | files f Hf | x | f Hf Hl Hp | e f c Hp
                 | resp f c Hp | resp f c Hp]; cbn [state requests confidence apply_op].
  - split; assumption.
  - split; assumption.
  - split; [exact Hev | exact Hr].
  - split; [exact Hc|]. constructor; [|exact Hr].
    exists f, (confidence (state p)). split; [reflexivity|].
    split; [exact Hc | now apply slider_position_text].
  - split; assumption.
  - split; assumption.
  - destruct (settlement_frame (body_json resp) (state p)) as (_ & _ & H3 & _).
    cbv zeta in H3. rewrite H3. split; assumption.
Qed.

Lemma run_events_threshold : forall (evs : list Event) (p : Page),
  consistent p ->
  forallb slider_event evs = true ->
  is_slider_position (confidence (state p)) = true /\ Forall carries_threshold (requests p) ->
  is_slider_position (confidence (state (run_events evs p))) = true /\
  Forall carries_threshold (requests (run_events evs p)).
Proof.
  induction evs as [|ev evs IH]; intros p Hc Hall Hp; [exact Hp|].
  cbn [forallb] in Hall. apply andb_true_iff in Hall. destruct Hall as (Hev & Hevs).
  cbn [run_events fold_left]. apply IH.
  - now apply step_consistent.
  - exact Hevs.
  - exact (transition_threshold p (step p ev) ev Hev (step_transition p ev Hc) Hp).
Qed.

(** C7: every request the page ever sends is a POST to
    http://localhost:1000/api/detect, path /api/detect, with no headers of
    its own and a form of exactly two entries: the selected file as [image]
    and the threshold, through [toString], as [confidence].  A click on the
    enabled button sends one such request, for the file and the threshold of
    that moment; no other event sends any.  The slider reports its
    positions only, from 0.1 to 0.9 in steps of 0.05; then the threshold of
    every request is one of them, and the text sent is a decimal numeral,
    digits with a point and no exponent, that reads back as the
    threshold. *)
Theorem requests_are_detect_posts : forall evs : list Event,
  let p := run_events evs initial_page in
  Forall (fun r =>
            request_url r = "http://localhost:1000/api/detect" /\
            url_host (request_url r) = "localhost" /\
            url_port (request_url r) = "1000" /\
            url_path (request_url r) = "/api/detect" /\
            method (request_init r) = "POST" /\
            headers (request_init r) = [] /\
            exists (f : File) (c : number),
              body (request_init r) =
                [("image", EntryFile f);
                 ("confidence", EntryString (Number_toString c))])
         (requests p) /\
  (detect_disabled (state p) = false ->
   exists f, selectedFile (state p) = Some f /\
     requests (step p ClickDetect) =
       mk_request "http://localhost:1000/api/detect"
         (mk_init "POST" []
            [("image", EntryFile f);
             ("confidence", EntryString (Number_toString (confidence (state p))))])
       :: requests p) /\
  (forall ev, ev <> ClickDetect -> requests (step p ev) = requests p) /\
  (forallb slider_event evs = true ->
   is_slider_position (confidence (state p)) = true /\
   reads_back (Number_toString (confidence (state p))) (confidence (state p)) = true /\
   Forall (fun r =>
             exists (f : File) (c : number) (d : Z) (j : nat),
               body (request_init r) =
                 [("image", EntryFile f);
                  ("confidence", EntryString (Number_toString c))] /\
               is_slider_position c = true /\
               decimal_of_text (Number_toString c) = Some (d, j) /\
               decimal_literal d j = c)
          (requests p)).
Proof.
  intros evs p.
  assert (Hc : consistent p) by apply reachable_consistent.
  split; [|split; [|split]].
  - destruct Hc as (_ & Hreq & _). eapply Forall_impl; [|exact Hreq].
    intros r (Hu & Hm & Hh & Hb). rewrite Hu. repeat split; auto.
  - intros Hd. pose proof (consistent_enabled_idle p Hc Hd) as Hp.
    destruct (click_starts p Hp Hd) as (_ & _ & f & Hf & Hr).
    exists f. split; [exact Hf | exact Hr].
  - intros ev Hev. destruct (user_event ev) eqn:Hu.
    + now destruct (input_step p ev Hu Hev) as (_ & _ & Hr & _).
    + destruct Hc as (_ & _ & Hcase).
      destruct Hcase as [Hi | [Hfly | Hj]].
      * destruct Hi as (Hp & _).
        destruct ev as [files | x | | i o | i]; try discriminate;
          cbn [step]; rewrite Hp; destruct i; reflexivity.
      * destruct (other_settlements_fetch p Hfly) as (Hf & Hj).
        destruct ev as [files | x | | i o | i]; try discriminate.
        -- destruct i as [|i]; [|now rewrite Hf].
           destruct o as [e | resp].
           ++ now rewrite (fetch_rejected e p Hfly).
           ++ now destruct (response_arrives resp p Hfly) as (_ & Hr & _).
        -- now rewrite Hj.
      * destruct Hj as (resp & Hfly).
        destruct (other_settlements_json resp p Hfly) as (Hf & Hj).
        destruct ev as [files | x | | i o | i]; try discriminate.
        -- now rewrite Hf.
        -- destruct i as [|i]; [|now rewrite Hj].
           now rewrite (body_settles resp p Hfly).
  - intros Hall.
    destruct (run_events_threshold evs initial_page initial_consistent Hall)
      as (Hpos & Hreq); [split; [reflexivity | constructor]|].
    fold p in Hpos, Hreq.
    split; [exact Hpos|]. split; [now apply slider_position_text|].
    eapply Forall_impl; [|exact Hreq].
    intros r (f & c & Hb & Hcp & Hback). exists f, c.
    unfold reads_back in Hback.
    destruct (decimal_of_text (Number_toString c)) as [(d, j)|]; [|discriminate].
    exists d, j. repeat split; try assumption. now apply number_same_eq.
Qed.

Lemma requests_are_detect_posts_witness :
  let evs := [ChangeFile (Some [sample_file]);
              ChangeConfidence (decimal_literal 4 1);
              ClickDetect;
              ChangeConfidence (decimal_literal 85 2)] in
  let p := run_events evs initial_page in
  forallb slider_event evs = true /\
  map (fun r => body (request_init r)) (requests p) =
    [[("image", EntryFile sample_file); ("confidence", EntryString "0.4")]] /\
  detect_disabled (state p) = true /\
  reads_back (Number_toString (confidence (state p))) (confidence (state p)) = true /\
  Forall (fun r => exists (f : File) (c : number) (d : Z) (j : nat),
            body (request_init r) =
              [("image", EntryFile f); ("confidence", EntryString (Number_toString c))] /\
            is_slider_position c = true /\
            decimal_of_text (Number_toString c) = Some (d, j) /\
            decimal_literal d j = c)
         (requests p).
Proof.
  cbv zeta.
  assert (Hall : forallb slider_event
                   [ChangeFile (Some [sample_file]);
                    ChangeConfidence (decimal_literal 4 1);
                    ClickDetect;
                    ChangeConfidence (decimal_literal 85 2)] = true)
    by (vm_compute; reflexivity).
  split; [exact Hall|]. split; [vm_compute; reflexivity|]. split; [reflexivity|].
  destruct (requests_are_detect_posts
              [ChangeFile (Some [sample_file]);
               ChangeConfidence (decimal_literal 4 1);
               ClickDetect;
               ChangeConfidence (decimal_literal 85 2)])
    as (_ & _ & _ & Hslider).
  destruct (Hslider Hall) as (_ & Hback & Hreq).
  split; [exact Hback | exact Hreq].
Defined.

(** The text sent for the default threshold and for the two ends of the
    slider. *)
Example threshold_texts :
  map (fun c => (Number_toString c, decimal_of_text (Number_toString c)))
      [ default_confidence; decimal_literal 1 1; decimal_literal 9 1;
        decimal_literal 15 2 ] =
  [ ("0.25", Some (25, 2%nat)); ("0.1", Some (1, 1%nat)); ("0.9", Some (9, 1%nat));
    ("0.15", Some (15, 2%nat)) ].
Proof. vm_compute. reflexivity. Qed.

(** * Further properties of the page *)

(** ** Responses that are not what the interface declares *)

(** X1: a body that parses to a boolean, a number, a string or an array has
    no [success] and no [error]: the error becomes "Detection failed", the
    results stay as they were and nothing is logged. *)
Theorem scalar_body_fails :
  forall (p : Page) (f : File) (status : Z) (data : value),
  selectedFile (state p) = Some f ->
  scalar_or_array data = true ->
  let p' := detect_alone (inr (mk_response status (inr data))) p in
  error (state p') = VStr "Detection failed" /\
  results (state p') = results (state p) /\
  loading (state p') = false /\
  logged (history p') = logged (history p).
Proof.
  intros p f status data Hf Hd p'. unfold p'.
  rewrite (detect_alone_selected p f _ Hf).
  destruct data; try discriminate; repeat split.
Qed.

Lemma scalar_body_fails_witness :
  let p := run_events [ChangeFile (Some [sample_file])] initial_page in
  error (state (detect_alone (inr (mk_response 200 (inr (VArr [])))) p))
    = VStr "Detection failed".
Proof.
  cbv zeta.
  exact (proj1 (scalar_body_fails
                  (run_events [ChangeFile (Some [sample_file])] initial_page)
                  sample_file 200 (VArr []) eq_refl eq_refl)).
Defined.

(** X2: the body [null] is valid JSON from a server that answered, and it is
    reported as a failure to connect: reading [success] off [null] throws a
    TypeError, which the catch block logs. *)
Theorem null_body_reported_as_connection_failure :
  forall (p : Page) (f : File) (status : Z),
  selectedFile (state p) = Some f ->
  let p' := detect_alone (inr (mk_response status (inr VNull))) p in
  error (state p')
    = VStr "Failed to connect to API. Make sure Flask server is running on port 5000" /\
  results (state p') = results (state p) /\
  loading (state p') = false /\
  (exists e, error_name e = "TypeError" /\
             logged (history p') = e :: logged (history p)) /\
  (exists r, requests p' = r :: requests p).
Proof.
  intros p f status Hf p'. unfold p'.
  rewrite (detect_alone_selected p f _ Hf). cbn.
  repeat split.
  - eexists. split; [|reflexivity]. reflexivity.
  - eexists. reflexivity.
Qed.

Lemma null_body_reported_as_connection_failure_witness :
  let p := run_events [ChangeFile (Some [sample_file])] initial_page in
  error (state (detect_alone (inr (mk_response 200 (inr VNull))) p))
    = VStr "Failed to connect to API. Make sure Flask server is running on port 5000".
Proof.
  cbv zeta.
  exact (proj1 (null_body_reported_as_connection_failure
                  (run_events [ChangeFile (Some [sample_file])] initial_page)
                  sample_file 200 eq_refl)).
Defined.

(** X3: with a falsy [success], the error becomes [data.error] whenever that
    is truthy, whatever its type (a number or an object as well), and
    "Detection failed" otherwise; the earlier results stay and nothing is
    passed to [console.error]. *)
Theorem application_failure_keeps_results :
  forall (p : Page) (f : File) (resp : Response) (data success err : value),
  selectedFile (state p) = Some f ->
  body_json resp = inr data ->
  get_property data "success" = inr success ->
  truthy success = false ->
  get_property data "error" = inr err ->
  let p' := detect_alone (inr resp) p in
  error (state p') = (if truthy err then err else VStr "Detection failed") /\
  results (state p') = results (state p) /\
  loading (state p') = false /\
  logged (history p') = logged (history p).
Proof.
  intros p f resp data success err Hf Hb Hg Ht He p'. unfold p'.
  rewrite (detect_alone_selected p f _ Hf). unfold fetch_settlement_ops.
  rewrite Hb, (settlement_ops_failure data success err Hg Ht He).
  repeat split.
Qed.

Lemma application_failure_keeps_results_witness :
  let p := run_events [ChangeFile (Some [sample_file]); ClickDetect;
                       FetchSettles 0 (inr (ok_response sample_body));
                       JsonSettles 0] initial_page in
  let data := VObj [("success", VBool false); ("error", VNum hundred)] in
  error (state (detect_alone (inr (ok_response data)) p)) = VNum hundred /\
  results (state (detect_alone (inr (ok_response data)) p)) = sample_body.
Proof.
  cbv zeta.
  destruct (application_failure_keeps_results
              (run_events [ChangeFile (Some [sample_file]); ClickDetect;
                           FetchSettles 0 (inr (ok_response sample_body));
                           JsonSettles 0] initial_page)
              sample_file
              (ok_response (VObj [("success", VBool false); ("error", VNum hundred)]))
              (VObj [("success", VBool false); ("error", VNum hundred)])
              (VBool false) (VNum hundred)
              eq_refl eq_refl eq_refl eq_refl eq_refl) as (He & Hr & _).
  split; [exact He | exact Hr].
Defined.

(** ** Requests and the button *)

(** X4: on every page reached from the initial one at most one request is in
    flight: the button is disabled until it settles. *)
Theorem at_most_one_in_flight : forall evs : list Event,
  (List.length (pending (run_events evs initial_page)) <= 1)%nat.
Proof.
  intros evs. destruct (reachable_consistent evs) as (_ & _ & Hcase).
  destruct Hcase as [Hi | [Hg | Hj]].
  - destruct Hi as (Hp & _). rewrite Hp. cbn. lia.
  - destruct Hg as (_ & _ & f & c & Hp). rewrite Hp. cbn. lia.
  - destruct Hj as (resp & _ & _ & f & c & Hp). rewrite Hp. cbn. lia.
Qed.

(** X5: no error escapes a handler, whatever the network and the server do:
    every throw of [handleDetect] lands in its catch block. *)
Theorem handlers_never_throw : forall evs : list Event,
  uncaught (run_events evs initial_page) = [].
Proof.
  intros evs. now destruct (reachable_consistent evs) as (Hu & _).
Qed.

(** X6: a click on the button either does nothing at all (the button is
    disabled: no file, or a request in flight) or clears the error and sends
    a request; it never runs the branch that sets "Please select an image
    first". *)
Theorem click_ignored_or_dispatches : forall p : Page,
  (detect_disabled (state p) = true /\ step p ClickDetect = p) \/
  (detect_disabled (state p) = false /\
   error (state (step p ClickDetect)) = VStr "" /\
   loading (state (step p ClickDetect)) = true /\
   history (step p ClickDetect) = SetError (VStr "") :: SetLoading true :: history p /\
   exists r, requests (step p ClickDetect) = r :: requests p).
Proof.
  intros p. destruct (detect_disabled (state p)) eqn:Hd.
  - left. split; [reflexivity|]. cbn [step]. now rewrite Hd.
  - right. destruct (detect_enabled _ Hd) as (_ & f & Hf).
    cbn [step]. rewrite Hd, Hf, run_handleDetect_selected.
    repeat split. eexists. reflexivity.
Qed.

(** X11: nothing the user does cancels or repeats a request in flight: a
    file selection, a slider move or a click leaves the suspended task, the
    requests sent and the busy flag as they are. *)
Theorem no_cancellation : forall (evs : list Event) (ev : Event),
  let p := run_events evs initial_page in
  user_event ev = true ->
  pending p <> [] ->
  pending (step p ev) = pending p /\
  requests (step p ev) = requests p /\
  loading (state (step p ev)) = true.
Proof.
  intros evs ev p Hu Hne.
  assert (Hl : loading (state p) = true).
  { apply consistent_loading; [apply reachable_consistent | exact Hne]. }
  destruct (user_step_pending p ev Hu Hl) as (H1 & H2 & H3 & _).
  repeat split; assumption.
Qed.

Lemma no_cancellation_witness :
  let p := run_events [ChangeFile (Some [sample_file]); ClickDetect] initial_page in
  pending (step p (ChangeFile (Some [sample_file]))) = pending p /\
  loading (state (step p ClickDetect)) = true.
Proof.
  cbv zeta.
  assert (Hne : pending (run_events [ChangeFile (Some [sample_file]); ClickDetect]
                                    initial_page) <> []) by discriminate.
  split.
  - exact (proj1 (no_cancellation [ChangeFile (Some [sample_file]); ClickDetect]
                    (ChangeFile (Some [sample_file])) eq_refl Hne)).
  - exact (proj2 (proj2 (no_cancellation [ChangeFile (Some [sample_file]); ClickDetect]
                           ClickDetect eq_refl Hne))).
Defined.

(** ** The inputs *)

(** X7: the selected file is the last file chosen, the preview URL resolves
    to it, and the preview is empty exactly when no file was ever chosen.
    Every choice creates an object URL and none is ever revoked: the
    browser's registry holds all the files chosen, in order. *)
Theorem selection_follows_choices : forall evs : list Event,
  let p := run_events evs initial_page in
  selectedFile (state p) = last (map Some (chosen_files evs)) None /\
  resolve_object_url (object_urls p) (previewUrl (state p)) = selectedFile (state p) /\
  (previewUrl (state p) = "" <-> chosen_files evs = []) /\
  object_urls p = chosen_files evs.
Proof.
  intros evs p.
  destruct (run_events_inputs evs initial_page initial_consistent) as (Hu & Hs & _).
  destruct (preview_invariant evs) as (Hr & Hiff).
  fold p in Hu, Hs, Hr, Hiff. cbn in Hu, Hs.
  split; [exact Hs|]. split; [exact Hr|]. split; [|exact Hu].
  rewrite Hiff, Hs. destruct (chosen_files evs) as [|f l]; [split; reflexivity|].
  split; [|discriminate]. intros E. exfalso.
  rewrite map_cons, last_cons in E.
  clear - E. revert f E. induction l as [|g l IH]; intros f E; [discriminate|].
  rewrite map_cons, last_cons in E. exact (IH g E).
Qed.

(** X8: the threshold is the last value the slider reported, or 0.25 when it
    never moved; no file selection, click or response changes it. *)
Theorem confidence_follows_slider : forall evs : list Event,
  confidence (state (run_events evs initial_page)) = slider_value evs default_confidence.
Proof.
  intros evs.
  now destruct (run_events_inputs evs initial_page initial_consistent) as (_ & _ & Hv).
Qed.

(** X9: until a file is chosen nothing else can happen: with no file
    selected there is no preview, no busy flag, no result, no error, no
    request sent and none in flight.  In particular the page never shows
    "Please select an image first" of its own accord. *)
Theorem blank_until_selected : forall evs : list Event,
  let p := run_events evs initial_page in
  selectedFile (state p) = None ->
  previewUrl (state p) = "" /\
  loading (state p) = false /\
  results (state p) = VNull /\
  error (state p) = VStr "" /\
  requests p = [] /\
  pending p = [] /\
  object_urls p = [].
Proof.
  intros evs p Hn. exact (blank_invariant evs Hn).
Qed.

Lemma blank_until_selected_witness :
  let p := run_events [ClickDetect; ChangeConfidence hundred; ChangeFile (Some []);
                       ClickDetect; FetchSettles 0 (inl failed_to_fetch)] initial_page in
  selectedFile (state p) = None /\ error (state p) = VStr "" /\ requests p = [].
Proof.
  cbv zeta. split; [reflexivity|].
  destruct (blank_until_selected
              [ClickDetect; ChangeConfidence hundred; ChangeFile (Some []);
               ClickDetect; FetchSettles 0 (inl failed_to_fetch)] eq_refl)
    as (_ & _ & _ & He & Hr & _).
  split; [exact He | exact Hr].
Defined.

(** X10: a response is applied to whatever the page holds when it arrives.
    When another file is chosen while the request is in flight, the results
    of the request sent for the first file are stored beside the second
    file and its preview. *)
Theorem late_response_lands_on_new_file :
  forall (evs : list Event) (f1 f2 : File) (files : option (list File))
         (resp : Response) (data success : value),
  let p := run_events evs initial_page in
  detect_disabled (state p) = false ->
  selectedFile (state p) = Some f1 ->
  first_file files = Some f2 ->
  body_json resp = inr data ->
  get_property data "success" = inr success ->
  truthy success = true ->
  let q := run_events [ClickDetect; ChangeFile files;
                       FetchSettles 0 (inr resp); JsonSettles 0] p in
  selectedFile (state q) = Some f2 /\
  resolve_object_url (object_urls q) (previewUrl (state q)) = Some f2 /\
  results (state q) = data /\
  map (fun r => FormData_getAll (body (request_init r)) "image") (requests q)
    = [EntryFile f1] :: map (fun r => FormData_getAll (body (request_init r)) "image")
                            (requests p).
Proof.
  intros evs f1 f2 files resp data success p Hd Hf1 Hf2 Hb Hg Ht q.
  assert (Hc : consistent p) by apply reachable_consistent.
  pose proof (consistent_enabled_idle p Hc Hd) as Hp.
  unfold q. cbn [run_events fold_left].
  assert (E1 : step p ClickDetect =
               mk_page (apply_op (SetError (VStr "")) (apply_op (SetLoading true) (state p)))
                 (object_urls p)
                 (mk_request detect_url
                    (mk_init "POST" []
                       [("image", EntryFile f1);
                        ("confidence", EntryString (Number_toString (confidence (state p))))])
                  :: requests p)
                 [PendingFetch (after_fetch f1 (confidence (state p)))]
                 (SetError (VStr "") :: SetLoading true :: history p)
                 (uncaught p)).
  { cbn [step]. rewrite Hd, Hf1, run_handleDetect_selected, Hp. reflexivity. }
  rewrite E1.
  match goal with
  | |- context [step ?x (ChangeFile files)] =>
      change (step x (ChangeFile files)) with (run (handleFileSelect files) x)
  end.
  rewrite (run_handleFileSelect_some files f2 _ Hf2).
  match goal with
  | |- context [step ?x (FetchSettles 0 (inr resp))] =>
      rewrite (response_arrives_page resp f1 (confidence (state p)) x eq_refl)
  end.
  match goal with
  | |- context [step ?x (JsonSettles 0)] =>
      rewrite (body_settles_page resp f1 (confidence (state p)) x eq_refl)
  end.
  rewrite Hb, (settlement_ops_success data success Hg Ht).
  cbn [state object_urls requests fold_right apply_op selectedFile previewUrl results map
       request_init body].
  rewrite resolve_blob_url, nth_error_last. repeat split.
Qed.

Lemma late_response_lands_on_new_file_witness :
  let other := mk_file "other.png" "image/png" [] in
  let q := run_events [ClickDetect; ChangeFile (Some [other]);
                       FetchSettles 0 (inr (ok_response sample_body)); JsonSettles 0]
             (run_events [ChangeFile (Some [sample_file])] initial_page) in
  selectedFile (state q) = Some other /\ results (state q) = sample_body.
Proof.
  cbv zeta.
  destruct (late_response_lands_on_new_file
              [ChangeFile (Some [sample_file])] sample_file
              (mk_file "other.png" "image/png" []) (Some [mk_file "other.png" "image/png" []])
              (ok_response sample_body) sample_body (VBool true)
              eq_refl eq_refl eq_refl eq_refl eq_refl eq_refl) as (Hs & _ & Hr & _).
  split; [exact Hs | exact Hr].
Defined.

(** ** Rendering a state of the declared types *)

Lemma as_number_some : forall (v : value) (x : number),
  as_number v = Some x -> v = VNum x.
Proof. intros v x H. destruct v; try discriminate H. now injection H as ->. Qed.

Lemma as_string_some : forall (v : value) (s : string),
  as_string v = Some s -> v = VStr s.
Proof. intros v s H. destruct v; try discriminate H. now injection H as ->. Qed.

Lemma as_array_some : forall (v : value) (l : list value),
  as_array v = Some l -> v = VArr l.
Proof. intros v l H. destruct v; try discriminate H. now injection H as ->. Qed.

Lemma member_some :
  forall (A : Type) (v : value) (key : string) (f : value -> option A) (a : A),
  and_then (member v key) f = Some a ->
  exists w, get_property v key = inr w /\ f w = Some a.
Proof.
  intros A v key f a H. destruct v; try discriminate H.
  cbn [member and_then] in H. cbn [get_property]. eexists. split; [reflexivity | exact H].
Qed.

Lemma typed_entry : forall (item : value) (d : Detection.t),
  as_Detection item = Some d ->
  exists e, evaluate_entry item = inr e /\
            entry_node e = inr (Some (detection_item d)).
Proof.
  intros item d H. unfold as_Detection in H.
  step_some H idn Hid. step_some H cls Hcls. step_some H c Hc. step_some H box Hbox.
  injection H as H. subst d.
  apply member_some in Hid, Hcls, Hc, Hbox.
  destruct Hid as (v1 & Gid & Hid). apply as_number_some in Hid. subst v1.
  destruct Hcls as (v2 & Gcls & Hcls). apply as_string_some in Hcls. subst v2.
  destruct Hc as (v3 & Gc & Hc). apply as_number_some in Hc. subst v3.
  destruct Hbox as (bv & Gbox & Hbox). unfold as_BBox in Hbox.
  step_some Hbox x1 H1. step_some Hbox y1 H2. step_some Hbox x2 H3. step_some Hbox y2 H4.
  injection Hbox as Hbox. subst box.
  apply member_some in H1, H2, H3, H4.
  destruct H1 as (w1 & G1 & H1). apply as_number_some in H1. subst w1.
  destruct H2 as (w2 & G2 & H2). apply as_number_some in H2. subst w2.
  destruct H3 as (w3 & G3 & H3). apply as_number_some in H3. subst w3.
  destruct H4 as (w4 & G4 & H4). apply as_number_some in H4. subst w4.
  exists (mk_entry (VNum idn) (VStr cls) (Some (percent c 2))
                   (toFixed x1 0) (toFixed y1 0) (toFixed x2 0) (toFixed y2 0)).
  split; [|reflexivity].
  unfold evaluate_entry. rewrite Gid, Gcls, Gc, Gbox. cbn [and_then_ok].
  rewrite G1, G2, G3, G4. reflexivity.
Qed.

Lemma typed_entries : forall (items : list value) (ds : list Detection.t),
  all_some (map as_Detection items) = Some ds ->
  List.length ds = List.length items /\
  exists es, evaluate_entries items = inr es /\
             entry_nodes es = inr (Some (map detection_item ds)).
Proof.
  induction items as [|item items IH]; intros ds H.
  - cbn in H. injection H as H. subst ds. split; [reflexivity|]. now exists [].
  - cbn [map all_some] in H. step_some H d Hd. step_some H more Hmore.
    injection H as H. subst ds.
    destruct (typed_entry item d Hd) as (e & He & Hn).
    destruct (IH more Hmore) as (Hlen & es & Hes & Hns).
    split; [cbn [List.length]; now rewrite Hlen|].
    exists (e :: es). split.
    + cbn [evaluate_entries]. rewrite He, Hes. reflexivity.
    + cbn [entry_nodes]. rewrite Hn, Hns. reflexivity.
Qed.

(** Results of the declared type are truthy, and render as the panel of
    that type. *)
Lemma typed_panel : forall (v : value) (r : DetectionResponse.t),
  as_DetectionResponse v = Some r ->
  truthy v = true /\
  exists p, evaluate_panel v = inr p /\
            panel_node p = inr (Some (results_panel r)).
Proof.
  intros v r H.
  assert (Ht : truthy v = true) by (destruct v; try discriminate H; reflexivity).
  split; [exact Ht|].
  unfold as_DetectionResponse in H.
  step_some H success Hsuccess. step_some H timestamp Htime. step_some H info Hinfo.
  step_some H stats Hstats. step_some H items Hitems. step_some H ds Hds.
  step_some H image Himage. injection H as H. subst r.
  apply member_some in Hstats, Hitems, Himage.
  destruct Hstats as (sv & Gstats & Hstats). unfold as_DetectionStats in Hstats.
  step_some Hstats total Htotal. step_some Hstats average Havg.
  step_some Hstats threshold Hthr. injection Hstats as Hstats. subst stats.
  apply member_some in Htotal, Havg.
  destruct Htotal as (w1 & Gtotal & Htotal). apply as_number_some in Htotal. subst w1.
  destruct Havg as (w2 & Gavg & Havg). apply as_number_some in Havg. subst w2.
  destruct Hitems as (w3 & Gitems & Hitems). apply as_array_some in Hitems. subst w3.
  destruct Himage as (w4 & Gimage & Himage). apply as_string_some in Himage. subst w4.
  destruct (typed_entries items ds Hds) as (Hlen & es & Hes & Hns).
  exists (mk_panel (VNum total) (Some (percent average 1)) (VStr image)
                   (digits_of (Z.of_nat (List.length items))) es).
  split.
  - unfold evaluate_panel. rewrite Gstats. cbn [and_then_ok].
    rewrite Gtotal, Gavg, Gimage, Gitems. cbn [and_then_ok]. rewrite Hes. reflexivity.
  - unfold panel_node.
    cbn [panel_total panel_average panel_image panel_count panel_entries child_texts
         and_then_ok].
    rewrite Hns. unfold results_panel.
    cbn [and_then_ok and_then as_string DetectionResponse.detection_stats
         DetectionResponse.detections DetectionResponse.annotated_image
         DetectionStats.total_count DetectionStats.average_confidence].
    rewrite Hlen. reflexivity.
Qed.

Lemma error_part_string : forall message : string,
  error_part (VStr message)
  = inr (if String.eqb message "" then [] else [ error_block message ]).
Proof.
  intros message. unfold error_part, error_block, text_of, truthy.
  cbn [child_texts and_then_ok]. unfold text_of.
  destruct (String.eqb message ""); reflexivity.
Qed.

(** A state of the declared types renders, as the upload panel with the
    message and the results column of the results. *)
Lemma render_renderable : forall st : State,
  renderable st ->
  exists (message : string) (shown : option DetectionResponse.t),
    as_string (error st) = Some message /\
    render_Home st = Rendered (page (upload_panel st message) (results_column shown)).
Proof.
  intros st (He & Hr).
  destruct (as_string (error st)) as [message|] eqn:Em; [|discriminate].
  apply as_string_some in Em.
  exists message. unfold render_Home. rewrite Em, error_part_string.
  destruct Hr as [Hn | Ht].
  - exists None. split; [reflexivity|]. rewrite Hn. reflexivity.
  - destruct (as_DetectionResponse (results st)) as [r|] eqn:Er; [|discriminate].
    destruct (typed_panel (results st) r Er) as (Htruthy & p & Hp & Hnode).
    exists (Some r). split; [reflexivity|].
    rewrite Htruthy, Hp. cbn [and_then_ok]. rewrite Hnode. reflexivity.
Qed.

Lemma home_defined : forall st : State,
  renderable st ->
  exists message tree,
    as_string (error st) = Some message /\
    Home st = Some tree /\
    forall x, In x (subtrees (upload_panel st message)) -> In x (subtrees tree).
Proof.
  intros st Hr. destruct (render_renderable st Hr) as (message & shown & Em & Hrender).
  exists message. eexists. split; [exact Em|].
  split; [unfold Home; rewrite Hrender; reflexivity|].
  intros x Hx. now apply page_left.
Qed.



Lemma settlement_renderable : forall (o : js_error + value) (st : State),
  honours_contract o = true ->
  renderable st ->
  renderable (fold_right apply_op st (SetLoading false :: settlement_ops o)).
Proof.
  intros o st Ho (He & Hr). unfold honours_contract in Ho. unfold settlement_ops.
  destruct o as [e | data]; [split; [reflexivity | exact Hr]|].
  destruct (get_property data "success") as [e | success];
    [split; [reflexivity | exact Hr]|].
  destruct (truthy success).
  - split; [exact He | right; exact Ho].
  - destruct (get_property data "error") as [e | err];
      [split; [reflexivity | exact Hr]|].
    split; [|exact Hr]. cbn [fold_right apply_op error]. unfold js_or.
    destruct (truthy err); [exact Ho | reflexivity].
Qed.

Lemma transition_renderable : forall (p q : Page) (ev : Event),
  event_honours_contract ev = true ->
  transition p ev q ->
  (renderable (state p) /\
   forall resp f c, pending p = [PendingJson resp (after_json f c resp)] ->
                    honours_contract (body_json resp) = true) ->
  (renderable (state q) /\
   forall resp f c, pending q = [PendingJson resp (after_json f c resp)] ->
                    honours_contract (body_json resp) = true).
Proof.
  intros p q ev Hev H ((He & Hr) & Hpend).
  destruct H as [ev Hc Hs | files f Hf | x | f Hf Hl Hp | e f c Hp
                 | resp f c Hp | resp f c Hp]; cbn [state pending].
  - split; [split; assumption | exact Hpend].
  - split; [split; [reflexivity | left; reflexivity] | exact Hpend].
  - split; [split; assumption | exact Hpend].
  - split; [split; [reflexivity | exact Hr] | discriminate].
  - split; [split; [reflexivity | exact Hr] | discriminate].
  - split; [split; assumption|].
    intros resp' f' c' E. inversion E. subst resp'. exact Hev.
  - split; [|discriminate].
    apply settlement_renderable; [exact (Hpend resp f c Hp) | split; assumption].
Qed.

Lemma run_events_renderable : forall (evs : list Event) (p : Page),
  consistent p ->
  forallb event_honours_contract evs = true ->
  (renderable (state p) /\
   forall resp f c, pending p = [PendingJson resp (after_json f c resp)] ->
                    honours_contract (body_json resp) = true) ->
  renderable (state (run_events evs p)).
Proof.
  induction evs as [|ev evs IH]; intros p Hc Hall Hp; [exact (proj1 Hp)|].
  cbn [forallb] in Hall. apply andb_true_iff in Hall. destruct Hall as (Hev & Hevs).
  cbn [run_events fold_left]. apply IH.
  - now apply step_consistent.
  - exact Hevs.
  - exact (transition_renderable p (step p ev) ev Hev (step_transition p ev Hc) Hp).
Qed.

(** X16: when every response keeps to the declared interface (a body with a
    truthy [success] is a [DetectionResponse]; with a falsy one its [error]
    is a string or falsy), every page reached has a string as its error and
    [null] or a [DetectionResponse] as its results, and renders. *)
Theorem contract_keeps_page_renderable : forall evs : list Event,
  forallb event_honours_contract evs = true ->
  let st := state (run_events evs initial_page) in
  renderable st /\ exists tree, Home st = Some tree.
Proof.
  intros evs Hall st.
  assert (Hr : renderable st).
  { apply run_events_renderable; [exact initial_consistent | exact Hall|].
    split; [split; [reflexivity | left; reflexivity] | discriminate]. }
  split; [exact Hr|].
  destruct (home_defined st Hr) as (message & tree & _ & Ht & _).
  now exists tree.
Qed.

Lemma contract_keeps_page_renderable_witness :
  let evs := [ChangeFile (Some [sample_file]); ClickDetect;
              FetchSettles 0 (inr (ok_response sample_body)); JsonSettles 0;
              ClickDetect; FetchSettles 0 (inl failed_to_fetch)] in
  forallb event_honours_contract evs = true /\
  renderable (state (run_events evs initial_page)).
Proof.
  cbv zeta.
  assert (Hall : forallb event_honours_contract
                   [ChangeFile (Some [sample_file]); ClickDetect;
                    FetchSettles 0 (inr (ok_response sample_body)); JsonSettles 0;
                    ClickDetect; FetchSettles 0 (inl failed_to_fetch)] = true)
    by (vm_compute; reflexivity).
  split; [exact Hall|].
  exact (proj1 (contract_keeps_page_renderable _ Hall)).
Defined.

(** ** The rendered controls *)

Lemma elements_button : forall st : State,
  elements "button" (detect_button st) = [detect_button st].
Proof.
  intros st. unfold detect_button.
  destruct (detect_disabled st); destruct (loading st); reflexivity.
Qed.

Lemma error_part_plain : forall (error : value) (texts : list string),
  let nodes := if truthy error then [ error_block_of (map Text texts) ] else map Text texts in
  flat_map (elements "button") nodes = [] /\ flat_map image_sources nodes = [].
Proof.
  intros error texts. destruct (truthy error); cbv zeta.
  - unfold error_block_of.
    cbn [flat_map elements image_sources String.eqb Ascii.eqb Bool.eqb app].
    rewrite elements_texts, image_sources_texts. split; reflexivity.
  - split; [apply elements_texts | apply image_sources_texts].
Qed.

Lemma upload_panel_controls : forall (st : State) (error_part : list Node),
  flat_map (elements "button") error_part = [] ->
  flat_map image_sources error_part = [] ->
  elements "button" (upload_panel_of st error_part) = [detect_button st] /\
  image_sources (upload_panel_of st error_part)
    = (if String.eqb (previewUrl st) "" then [] else [previewUrl st]).
Proof.
  intros st error_part Hb Hi. unfold upload_panel_of.
  assert (E : image_sources (detect_button st) = []).
  { unfold detect_button. destruct (detect_disabled st); destruct (loading st); reflexivity. }
  destruct (String.eqb (previewUrl st) "");
    cbn [flat_map elements image_sources String.eqb Ascii.eqb Bool.eqb app
         prop_of filter map fst snd];
    rewrite Hb, Hi, elements_button, E; split; reflexivity.
Qed.

Lemma results_column_controls : forall (st : State) (right : list Node),
  (truthy (results st) = false /\
   exists texts, child_texts (results st) = inr texts /\
                 right = empty_placeholder :: map Text texts) \/
  (truthy (results st) = true /\
   exists p panel, evaluate_panel (results st) = inr p /\
                   panel_node p = inr (Some panel) /\
                   right = [ panel ]) ->
  elements "button" (results_column_of right) = [] /\
  exists shown,
    image_sources (results_column_of right) = shown /\
    (truthy (results st) = false -> shown = []) /\
    (truthy (results st) = true ->
     exists image, get_property (results st) "annotated_image" = inr (VStr image) /\
                   shown = [image]).
Proof.
  intros st right [(Hf & texts & _ & Hright) | (Ht & p & panel & Hp & Hn & Hright)];
    subst right; unfold results_column_of.
  - cbn [elements image_sources flat_map String.eqb Ascii.eqb Bool.eqb app
         empty_placeholder].
    rewrite elements_texts, image_sources_texts.
    split; [reflexivity|]. exists []. split; [reflexivity|].
    split; [reflexivity | congruence].
  - destruct (panel_node_shows (results st) p panel Hp Hn)
      as (stats & total & average & image & items & total_texts & entries
          & _ & _ & _ & H4 & _ & _ & Hpanel & _ & Himg & Hbut).
    cbn [elements image_sources flat_map String.eqb Ascii.eqb Bool.eqb app].
    subst panel. rewrite (elements_panel _ _ _ _ _ Hbut), (image_sources_panel _ _ _ _ _ Himg).
    split; [reflexivity|]. exists [image]. split; [reflexivity|].
    split; [congruence|]. intros _. now exists image.
Qed.

(** The buttons and the images of a page that renders. *)
Lemma page_controls : forall (st : State) (tree : Node),
  render_Home st = Rendered tree ->
  elements "button" tree = [detect_button st] /\
  exists shown,
    image_sources tree
      = ((if String.eqb (previewUrl st) "" then [] else [previewUrl st]) ++ shown)%list /\
    (truthy (results st) = false -> shown = []) /\
    (truthy (results st) = true ->
     exists image, get_property (results st) "annotated_image" = inr (VStr image) /\
                   shown = [image]).
Proof.
  intros st tree H.
  destruct (render_Home_rendered st tree H) as (error_texts & right & _ & Htree & Hright).
  destruct (error_part_plain (error st) error_texts) as (Eb & Ei). cbv zeta in Eb, Ei.
  destruct (upload_panel_controls st _ Eb Ei) as (Lb & Li).
  destruct (results_column_controls st right Hright) as (Rb & shown & Ri & Hshown).
  subst tree. unfold page.
  cbn [elements image_sources flat_map String.eqb Ascii.eqb Bool.eqb app].
  rewrite Lb, Li, Rb, Ri, !List.app_nil_r.
  split; [reflexivity|]. exists shown. split; [reflexivity | exact Hshown].
Qed.








Lemma no_placeholder_in_items : forall ds : list Detection.t,
  ~ In empty_placeholder (flat_map subtrees (map detection_item ds)).
Proof.
  induction ds as [|d ds IH]; [intros H; exact H|].
  cbn [map flat_map]. rewrite in_app_iff. intros [H | H]; [|exact (IH H)].
  unfold detection_item, detection_entry, text_of, empty_placeholder in H.
  destruct (String.eqb (Detection.class d) ""); cbn in H;
    repeat (destruct H as [H | H]; [discriminate H|]); exact H.
Qed.

